(** * Diffusion policy (robomimic/algo/diffusion_policy.py)

    A shallow embedding of [DiffusionPolicyUNet]: the one-time action range
    check of [process_batch_for_training], the gradient step of
    [train_on_batch], the rollout queues of [reset] / [get_action], the
    receding-horizon sampler [_get_action_trajectory], the checkpoint
    functions [serialize] / [deserialize], the training log [log_info], and
    the module-tree functions [replace_submodules] / [replace_bn_with_gn].

    Python integers are [Z]; tensors that the code slices are nested lists;
    dictionaries are stdpp [gmap]s (association lists where the code iterates
    in insertion order); [self] is a record threaded through a state and
    exception monad.  torch, diffusers and the network architectures are
    outside the repository: they enter through the [Backend] interface. *)

From Stdlib Require Import ZArith QArith List Bool Lia.
From stdpp Require Import base option list strings gmap.

Local Open Scope Z_scope.

(** ** Tensor elements and nested-list tensors *)

(** A floating point value: a finite number (every finite float is a
    rational), or one of the three special values. *)
Inductive scalar : Type :=
  | Fin (q : Q)
  | NaN
  | PosInf
  | NegInf.

(** [x <= y] on floats; every comparison with NaN is false. *)
Definition scalar_le (x y : scalar) : bool :=
  match x, y with
  | NaN, _ | _, NaN => false
  | NegInf, _ => true
  | _, PosInf => true
  | Fin a, Fin b => Qle_bool a b
  | _, _ => false
  end.

Definition tensor1 : Type := list scalar.   (* [Da] *)
Definition tensor2 : Type := list tensor1.  (* [T, Da] *)
Definition tensor3 : Type := list tensor2.  (* [B, T, Da] *)

(** ** Python slicing *)

(** Index adjustment of a slice bound for a sequence of length [len]:
    negative bounds count from the end, and everything is clamped. *)
Definition py_norm (len i : Z) : Z :=
  if i <? 0 then Z.max 0 (i + len) else Z.min i len.

(** [l[lo:hi]] *)
Definition py_slice {A} (lo hi : Z) (l : list A) : list A :=
  let n := Z.of_nat (length l) in
  let s := py_norm n lo in
  let e := py_norm n hi in
  firstn (Z.to_nat (e - s)) (skipn (Z.to_nat s) l).

(** [l[:hi]] *)
Definition py_slice_to {A} (hi : Z) (l : list A) : list A := py_slice 0 hi l.

(** [t[:, lo:hi]]: the slice is taken along the second (time) axis. *)
Definition slice_time {A} (lo hi : Z) (t : list (list A)) : list (list A) :=
  map (py_slice lo hi) t.

(** ** Exceptions *)

Inductive assert_site : Type :=
  | NetsTraining          (* assert not self.nets.training *)
  | ObsNdim (k : string)  (* assert inputs["obs"][k].ndim - 2 == len(self.obs_shapes[k]) *)
  | FeaturesNdim          (* assert obs_features.ndim == 3 *)
  | SuperTrainOnBatch.    (* assertion of PolicyAlgo.train_on_batch *)

Inductive exn : Type :=
  | AssertionError (site : assert_site)
  | ValueError (msg : string)
  | IndexError
  | KeyError (k : string)
  | TypeError
  | AttributeError
  | RuntimeError.

Definition actions_range_msg : string :=
  "'actions' must be in range [-1,1] for Diffusion Policy! Check if hdf5_normalize_action is enabled.".

Inductive result (A : Type) : Type :=
  | Ok (a : A)
  | Raise (e : exn).
Arguments Ok {A} a.
Arguments Raise {A} e.

Definition is_ok {A} (r : result A) : bool :=
  match r with Ok _ => true | Raise _ => false end.

(** ** collections.deque with a [maxlen] *)

Record deque (A : Type) : Type := Deque { maxlen : nat; items : list A }.
Arguments Deque {A} maxlen items.
Arguments maxlen {A} d.
Arguments items {A} d.

(** [deque(maxlen=n)] *)
Definition deque_new {A} (n : Z) : result (deque A) :=
  if n <? 0 then Raise (ValueError "maxlen must be non-negative")
  else Ok (Deque (Z.to_nat n) []).

(** [d.append(x)]: the item goes to the right end; a full deque then
    discards one item from the left end. *)
Definition deque_append {A} (d : deque A) (x : A) : deque A :=
  let l := items d ++ [x] in
  if (maxlen d <? length l)%nat then Deque (maxlen d) (tl l)
  else Deque (maxlen d) l.

(** [d.extend(xs)] appends the items one by one. *)
Definition deque_extend {A} (d : deque A) (xs : list A) : deque A :=
  fold_left deque_append xs d.

(** [d.popleft()] *)
Definition deque_popleft {A} (d : deque A) : result (A * deque A) :=
  match items d with
  | [] => Raise IndexError
  | x :: l => Ok (x, Deque (maxlen d) l)
  end.

Definition deque_len {A} (d : deque A) : Z := Z.of_nat (length (items d)).

(** The last [n] items of a list. *)
Definition lastn {A} (n : nat) (l : list A) : list A :=
  skipn (length l - n)%nat l.

(** ** Objects of torch, diffusers and robomimic the policy holds *)

(** The contents of a [state_dict()]: parameter name to flattened tensor. *)
Abbreviation state_dict := (gmap string (list scalar)).

(** An [nn.Module]: its parameters and its train/eval flag. *)
Record module : Type := Module_ { weights : state_dict; training : bool }.

(** [m.load_state_dict(sd)] *)
Definition load_state_dict (m : module) (sd : state_dict) : module :=
  Module_ sd (training m).

(** [diffusers.training_utils.EMAModel] *)
Record ema_model : Type :=
  EMAModel { averaged_model : module; ema_power : Q; optimization_step : Z }.

Definition ema_load (e : ema_model) (sd : state_dict) : ema_model :=
  EMAModel (load_state_dict (averaged_model e) sd) (ema_power e) (optimization_step e).

(** A torch optimizer and a learning-rate scheduler, seen through
    [state_dict()] / [load_state_dict()]. *)
Record optimizer : Type := Optimizer { optim_state : state_dict }.
Record lr_scheduler : Type := LrScheduler { lr_state : state_dict }.

(** An observation tensor of shape [[B, T, ...]]: the trailing dimensions
    and, per batch element and timestep, the flattened frame. *)
Record obs_tensor : Type :=
  ObsTensor { ot_trailing : list Z; ot_data : list (list (list scalar)) }.

Definition ot_ndim (t : obs_tensor) : Z := 2 + Z.of_nat (length (ot_trailing t)).

(** [t[:, :To, :]] on a tensor of rank three or more. *)
Definition ot_slice_time (To : Z) (t : obs_tensor) : obs_tensor :=
  ObsTensor (ot_trailing t) (slice_time 0 To (ot_data t)).

(** [obs_dict]: modality name to tensor. *)
Abbreviation obs_dict := (gmap string obs_tensor).

(** A dense tensor of any rank that the code only inspects through [ndim],
    [shape[0]] and [flatten(start_dim=1)]: the encoder's output. *)
Record features : Type := Features { f_shape : list Z; f_data : list scalar }.

Definition f_ndim (f : features) : Z := Z.of_nat (length (f_shape f)).
Definition f_shape0 (f : features) : Z := hd 0 (f_shape f).
Definition flatten1 (f : features) : features :=
  match f_shape f with
  | [] => f
  | b :: rest => Features [b; fold_right Z.mul 1 rest] (f_data f)
  end.

(** The [timestep] argument of the noise prediction network: one index per
    batch element when training, a single index when sampling. *)
Inductive timestep : Type :=
  | TBatch (ks : list Z)
  | TOne (k : Z).

(** [self.algo_config], the options this file reads. *)
Record config : Type := Config {
  observation_horizon : Z;
  action_horizon : Z;
  prediction_horizon : Z;
  ddpm_enabled : bool;
  ddpm_num_inference_timesteps : Z;
  ddim_enabled : bool;
  ddim_num_inference_timesteps : Z;
  ema_enabled : bool;
  ema_power_cfg : Q
}.

(** ** The external collaborators *)

Class Backend : Type := {
  (** a diffusers scheduler object (DDPMScheduler or DDIMScheduler) *)
  scheduler : Type;
  (** the state of torch's global random number generator *)
  generator : Type;
  (** a loss value together with its autograd graph *)
  loss : Type;
  (** one standard normal draw; [torch.randn] makes one per element *)
  randn_one : generator -> scalar * generator;
  (** one draw of [torch.randint(lo, hi, ...)] *)
  randint_one : Z -> Z -> generator -> Z * generator;
  (** [F.mse_loss(input, target)] *)
  mse_loss : tensor3 -> tensor3 -> loss;
  (** [TensorUtils.time_distributed(inputs, nets["policy"]["obs_encoder"],
      inputs_as_kwargs=True)] on [inputs = {"obs": .., "goal": ..}] *)
  obs_encoder : module -> obs_dict -> option obs_dict -> features;
  (** [nets["policy"]["noise_pred_net"](sample, timestep, global_cond)] *)
  noise_pred_net : module -> tensor3 -> timestep -> features -> tensor3;
  (** [noise_scheduler.config.num_train_timesteps] *)
  num_train_timesteps : scheduler -> Z;
  (** [noise_scheduler.add_noise(actions, noise, timesteps)] *)
  add_noise : scheduler -> tensor3 -> tensor3 -> list Z -> tensor3;
  (** [noise_scheduler.set_timesteps(n)] *)
  set_timesteps : scheduler -> Z -> scheduler;
  (** [noise_scheduler.timesteps] *)
  timesteps : scheduler -> list Z;
  (** [noise_scheduler.step(model_output, timestep, sample).prev_sample];
      the DDPM step draws its variance noise from the global generator *)
  scheduler_step :
    scheduler -> generator -> tensor3 -> Z -> tensor3 -> tensor3 * generator;
  (** [ema.step(nets)] *)
  ema_step : ema_model -> module -> ema_model;
  (** [TorchUtils.backprop_for_loss(net, optim, loss)]: one optimizer step;
      returns the updated network and optimizer and the gradient norm *)
  backprop_for_loss : module -> optimizer -> loss -> module * optimizer * scalar;
  (** [PolicyAlgo.train_on_batch(batch, epoch, validate)] of the base class,
      which this file calls through [super] *)
  super_train_on_batch : module -> bool -> result unit;
  (** the [nn.ModuleDict] that [_create_networks] assembles from the
      observation shapes, the action dimension and the config:
      [replace_bn_with_gn(ObservationGroupEncoder(..))] and
      [ConditionalUnet1D(..)], in float32 on the device *)
  build_nets : list (string * list Z) -> Z -> config -> module;
  (** [DDPMScheduler(..)] and [DDIMScheduler(..)] *)
  DDPMScheduler_new : config -> scheduler;
  DDIMScheduler_new : config -> scheduler;
  (** [EMAModel(model=nets, power=..)] *)
  EMAModel_new : module -> Q -> ema_model
}.

Section Policy.
Context `{BE : Backend}.

(** ** Ghost trace

    Not program state: a log of the calls that the properties below count
    (sampler invocations, network forward passes with the module they ran
    on, optimizer steps).  No definition reads it. *)
Inductive event : Type :=
  | EvSampler (obs : obs_dict)
  | EvEncode (m : module) (obs : obs_dict)
  | EvPredict (m : module) (k : timestep)
  | EvBackprop
  | EvEmaStep.

(** ** [self] *)

Record policy : Type := Policy {
  algo_config : config;
  obs_shapes : list (string * list Z);        (* OrderedDict *)
  ac_dim : Z;
  nets : module;
  noise_scheduler : scheduler;
  ema : option ema_model;                     (* None: EMA disabled *)
  optimizers : gmap string optimizer;
  lr_schedulers : gmap string (option lr_scheduler);
  action_check_done : bool;
  obs_queue : option (deque obs_dict);        (* None until reset() *)
  action_queue : option (deque tensor1);       (* None until reset() *)
  torch_rng : generator;                      (* global, not a field of self *)
  trace : list event                          (* ghost *)
}.

Definition set_nets (v : module) (s : policy) : policy :=
  Policy (algo_config s) (obs_shapes s) (ac_dim s) v (noise_scheduler s) (ema s)
    (optimizers s) (lr_schedulers s) (action_check_done s) (obs_queue s)
    (action_queue s) (torch_rng s) (trace s).
Definition set_noise_scheduler (v : scheduler) (s : policy) : policy :=
  Policy (algo_config s) (obs_shapes s) (ac_dim s) (nets s) v (ema s)
    (optimizers s) (lr_schedulers s) (action_check_done s) (obs_queue s)
    (action_queue s) (torch_rng s) (trace s).
Definition set_ema (v : option ema_model) (s : policy) : policy :=
  Policy (algo_config s) (obs_shapes s) (ac_dim s) (nets s) (noise_scheduler s) v
    (optimizers s) (lr_schedulers s) (action_check_done s) (obs_queue s)
    (action_queue s) (torch_rng s) (trace s).
Definition set_optimizers (v : gmap string optimizer) (s : policy) : policy :=
  Policy (algo_config s) (obs_shapes s) (ac_dim s) (nets s) (noise_scheduler s) (ema s)
    v (lr_schedulers s) (action_check_done s) (obs_queue s)
    (action_queue s) (torch_rng s) (trace s).
Definition set_lr_schedulers (v : gmap string (option lr_scheduler)) (s : policy) : policy :=
  Policy (algo_config s) (obs_shapes s) (ac_dim s) (nets s) (noise_scheduler s) (ema s)
    (optimizers s) v (action_check_done s) (obs_queue s)
    (action_queue s) (torch_rng s) (trace s).
Definition set_action_check_done (v : bool) (s : policy) : policy :=
  Policy (algo_config s) (obs_shapes s) (ac_dim s) (nets s) (noise_scheduler s) (ema s)
    (optimizers s) (lr_schedulers s) v (obs_queue s)
    (action_queue s) (torch_rng s) (trace s).
Definition set_obs_queue (v : option (deque obs_dict)) (s : policy) : policy :=
  Policy (algo_config s) (obs_shapes s) (ac_dim s) (nets s) (noise_scheduler s) (ema s)
    (optimizers s) (lr_schedulers s) (action_check_done s) v
    (action_queue s) (torch_rng s) (trace s).
Definition set_action_queue (v : option (deque tensor1)) (s : policy) : policy :=
  Policy (algo_config s) (obs_shapes s) (ac_dim s) (nets s) (noise_scheduler s) (ema s)
    (optimizers s) (lr_schedulers s) (action_check_done s) (obs_queue s)
    v (torch_rng s) (trace s).
Definition set_torch_rng (v : generator) (s : policy) : policy :=
  Policy (algo_config s) (obs_shapes s) (ac_dim s) (nets s) (noise_scheduler s) (ema s)
    (optimizers s) (lr_schedulers s) (action_check_done s) (obs_queue s)
    (action_queue s) v (trace s).
Definition set_trace (v : list event) (s : policy) : policy :=
  Policy (algo_config s) (obs_shapes s) (ac_dim s) (nets s) (noise_scheduler s) (ema s)
    (optimizers s) (lr_schedulers s) (action_check_done s) (obs_queue s)
    (action_queue s) (torch_rng s) v.

(** ** The monad: state and exceptions

    A raised exception keeps the state reached so far, as in Python. *)
Definition M (A : Type) : Type := policy -> result A * policy.

Definition ret {A} (a : A) : M A := fun s => (Ok a, s).
Definition raise {A} (e : exn) : M A := fun s => (Raise e, s).
Definition bind {A B} (m : M A) (k : A -> M B) : M B :=
  fun s => match m s with
           | (Ok a, s') => k a s'
           | (Raise e, s') => (Raise e, s')
           end.
Definition get {A} (f : policy -> A) : M A := fun s => (Ok (f s), s).
Definition modify (f : policy -> policy) : M unit := fun s => (Ok tt, f s).
Definition lift {A} (r : result A) : M A := fun s => (r, s).
Definition py_assert (b : bool) (site : assert_site) : M unit :=
  if b then ret tt else raise (AssertionError site).
(** ghost: append an event to the trace *)
Definition log (e : event) : M unit := modify (fun s => set_trace (trace s ++ [e]) s).

Notation "x <- m ;; k" := (bind m (fun x => k))
  (at level 20, m at level 99, k at level 200).
Notation "m ;;; k" := (bind m (fun _ => k))
  (at level 100, k at level 200, right associativity).

(** [for x in xs: body x] *)
Fixpoint for_each {A} (xs : list A) (body : A -> M unit) : M unit :=
  match xs with
  | [] => ret tt
  | x :: xs' => body x ;;; for_each xs' body
  end.

(** ** torch.randn and torch.randint *)

(** [n] successive draws. *)
Fixpoint draws {A} (n : nat) (draw : generator -> A * generator)
    (g : generator) : list A * generator :=
  match n with
  | O => ([], g)
  | S n' =>
      let (x, g1) := draw g in
      let (xs, g2) := draws n' draw g1 in
      (x :: xs, g2)
  end.

(** [torch.randn((b, t, d))], elements drawn in row-major order; a negative
    dimension is a RuntimeError. *)
Definition randn3 (b t d : Z) : M tensor3 :=
  if (b <? 0) || (t <? 0) || (d <? 0) then raise RuntimeError
  else
    g <- get torch_rng ;;
    let (x, g') :=
      draws (Z.to_nat b) (draws (Z.to_nat t) (draws (Z.to_nat d) randn_one)) g in
    modify (set_torch_rng g') ;;;
    ret x.

(** [torch.randint(lo, hi, (b,))] *)
Definition randint1 (lo hi b : Z) : M (list Z) :=
  if (hi <=? lo) || (b <? 0) then raise RuntimeError
  else
    g <- get torch_rng ;;
    let (x, g') := draws (Z.to_nat b) (randint_one lo hi) g in
    modify (set_torch_rng g') ;;;
    ret x.

(** [t.shape] of a [[B, T, D]] tensor *)
Definition shape3 (t : tensor3) : Z * Z * Z :=
  (Z.of_nat (length t),
   Z.of_nat (length (hd [] t)),
   Z.of_nat (length (hd [] (hd [] t)))).

(** ** DiffusionPolicyUNet._create_networks *)

Definition _create_networks : M unit :=
  cfg <- get algo_config ;;
  shapes <- get obs_shapes ;;
  acd <- get ac_dim ;;
  let nets_ := build_nets shapes acd cfg in
  noise_sched <-
    (if ddpm_enabled cfg then ret (DDPMScheduler_new cfg)
     else if ddim_enabled cfg then ret (DDIMScheduler_new cfg)
     else raise RuntimeError) ;;
  let ema_ :=
    if ema_enabled cfg then Some (EMAModel_new nets_ (ema_power_cfg cfg))
    else None in
  modify (set_nets nets_) ;;;
  modify (set_noise_scheduler noise_sched) ;;;
  modify (set_ema ema_) ;;;
  modify (set_action_check_done false) ;;;
  modify (set_obs_queue None) ;;;
  modify (set_action_queue None).

(** ** DiffusionPolicyUNet.process_batch_for_training *)

(** A batch from the data loader, and a processed batch: [obs], the optional
    [goal_obs] and [actions]. *)
Record batch : Type :=
  Batch { b_obs : obs_dict; b_goal_obs : option obs_dict; b_actions : tensor3 }.

(** [(-1 <= a) & (a <= 1)] *)
Definition in_range (a : scalar) : bool :=
  scalar_le (Fin (-1 # 1)) a && scalar_le a (Fin (1 # 1)).

(** [torch.all(in_range).item()] *)
Definition all_in_range (actions : tensor3) : bool :=
  forallb (forallb (forallb in_range)) actions.

(** [{k: batch["obs"][k][:, :To, :] for k in batch["obs"]}]; indexing
    three axes of a tensor of lower rank is an IndexError. *)
Definition slice_obs (To : Z) (obs : obs_dict) : result obs_dict :=
  if forallb (fun kt => 3 <=? ot_ndim (snd kt)) (map_to_list obs)
  then Ok (ot_slice_time To <$> obs)
  else Raise IndexError.

(** [TensorUtils.to_device(TensorUtils.to_float(x), self.device)]: a change
    of dtype and device, which the model's values do not carry. *)
Definition to_float_device (b : batch) : batch := b.

Definition process_batch_for_training (b : batch) : M batch :=
  To <- get (fun s => observation_horizon (algo_config s)) ;;
  Tp <- get (fun s => prediction_horizon (algo_config s)) ;;
  obs <- lift (slice_obs To (b_obs b)) ;;
  let goal_obs := b_goal_obs b in
  let actions := slice_time 0 Tp (b_actions b) in
  let input_batch := Batch obs goal_obs actions in
  checked <- get action_check_done ;;
  (if negb checked then
     if negb (all_in_range actions) then raise (ValueError actions_range_msg)
     else modify (set_action_check_done true)
   else ret tt) ;;;
  ret (to_float_device input_batch).

(** ** Observation encoding, shared by training and sampling *)

(** [for k in self.obs_shapes:
       assert inputs["obs"][k].ndim - 2 == len(self.obs_shapes[k])] *)
Definition check_obs_ndim (obs : obs_dict) : M unit :=
  shapes <- get obs_shapes ;;
  for_each shapes (fun ks =>
    match obs !! fst ks with
    | None => raise (KeyError (fst ks))
    | Some t =>
        py_assert (ot_ndim t - 2 =? Z.of_nat (length (snd ks))) (ObsNdim (fst ks))
    end).

(** The encoder pass on [inputs = {"obs": obs, "goal": goal}] through the
    [obs_encoder] of [net], followed by the rank assertion. *)
Definition encode_obs (net : module) (obs : obs_dict) (goal : option obs_dict)
    : M features :=
  check_obs_ndim obs ;;;
  log (EvEncode net obs) ;;;
  let obs_features := obs_encoder net obs goal in
  py_assert (f_ndim obs_features =? 3) FeaturesNdim ;;;
  ret obs_features.

(** ** DiffusionPolicyUNet.train_on_batch *)

(** The [info] dictionary: the detached loss and, after a learning update,
    the gradient norm. *)
Record info : Type := Info { losses_l2 : loss; policy_grad_norms : option scalar }.

Definition train_on_batch (b : batch) (epoch : Z) (validate : bool) : M info :=
  let B := Z.of_nat (length (b_actions b)) in
  nets0 <- get nets ;;
  lift (super_train_on_batch nets0 validate) ;;;
  let actions := b_actions b in
  obs_features <- encode_obs nets0 (b_obs b) (b_goal_obs b) ;;
  let obs_cond := flatten1 obs_features in
  noise <- (let '(n0, n1, n2) := shape3 actions in randn3 n0 n1 n2) ;;
  sched <- get noise_scheduler ;;
  ts <- randint1 0 (num_train_timesteps sched) B ;;
  let noisy_actions := add_noise sched actions noise ts in
  log (EvPredict nets0 (TBatch ts)) ;;;
  let noise_pred := noise_pred_net nets0 noisy_actions (TBatch ts) obs_cond in
  let l := mse_loss noise_pred noise in
  if negb validate then
    opts <- get optimizers ;;
    match opts !! "policy"%string with
    | None => raise (KeyError "policy")
    | Some opt =>
        let '(nets1, opt1, grad_norm) := backprop_for_loss nets0 opt l in
        log EvBackprop ;;;
        modify (set_nets nets1) ;;;
        modify (set_optimizers (<["policy"%string := opt1]> opts)) ;;;
        e <- get ema ;;
        match e with
        | Some e0 =>
            log EvEmaStep ;;;
            modify (set_ema (Some (ema_step e0 nets1)))
        | None => ret tt
        end ;;;
        ret (Info l (Some grad_norm))
    end
  else ret (Info l None).

(** Modelled from the spec: the training loop that calls
    [process_batch_for_training] and hands its result to [train_on_batch]
    is not in this file; the spec's [train_step(batch, update_params)]
    (section 4.1) is that sequence, with [validate = not update_params]. *)
Definition train_step (b : batch) (epoch : Z) (validate : bool) : M info :=
  input_batch <- process_batch_for_training b ;;
  train_on_batch input_batch epoch validate.

(** ** DiffusionPolicyUNet.reset *)

Definition reset : M unit :=
  To <- get (fun s => observation_horizon (algo_config s)) ;;
  Ta <- get (fun s => action_horizon (algo_config s)) ;;
  oq <- lift (deque_new To) ;;
  aq <- lift (deque_new Ta) ;;
  modify (set_obs_queue (Some oq)) ;;;
  modify (set_action_queue (Some aq)).

(** ** DiffusionPolicyUNet._get_action_trajectory *)

(** [for k in self.noise_scheduler.timesteps:] predict the noise, then take
    one inverse diffusion step. *)
Fixpoint denoise (net : module) (obs_cond : features) (ks : list Z)
    (naction : tensor3) : M tensor3 :=
  match ks with
  | [] => ret naction
  | k :: ks' =>
      log (EvPredict net (TOne k)) ;;;
      let noise_pred := noise_pred_net net naction (TOne k) obs_cond in
      sched <- get noise_scheduler ;;
      g <- get torch_rng ;;
      let (prev_sample, g') := scheduler_step sched g noise_pred k naction in
      modify (set_torch_rng g') ;;;
      denoise net obs_cond ks' prev_sample
  end.

Definition _get_action_trajectory (obs : obs_dict) (goal : option obs_dict)
    : M tensor3 :=
  log (EvSampler obs) ;;;
  training_ <- get (fun s => training (nets s)) ;;
  py_assert (negb training_) NetsTraining ;;;
  cfg <- get algo_config ;;
  let To := observation_horizon cfg in
  let Ta := action_horizon cfg in
  let Tp := prediction_horizon cfg in
  action_dim <- get ac_dim ;;
  num_inference_timesteps <-
    (if ddpm_enabled cfg then ret (ddpm_num_inference_timesteps cfg)
     else if ddim_enabled cfg then ret (ddim_num_inference_timesteps cfg)
     else raise (ValueError "")) ;;
  (* select network *)
  nets0 <- get nets ;;
  e <- get ema ;;
  let net := match e with Some e0 => averaged_model e0 | None => nets0 end in
  (* encode obs *)
  obs_features <- encode_obs net obs goal ;;
  let B := f_shape0 obs_features in
  let obs_cond := flatten1 obs_features in
  (* initialize action from Gaussian noise *)
  noisy_action <- randn3 B Tp action_dim ;;
  (* init scheduler *)
  modify (fun s => set_noise_scheduler
                     (set_timesteps (noise_scheduler s) num_inference_timesteps) s) ;;;
  ks <- get (fun s => timesteps (noise_scheduler s)) ;;
  naction <- denoise net obs_cond ks noisy_action ;;
  (* process action using Ta *)
  let start := To - 1 in
  let end_ := start + Ta in
  ret (slice_time start end_ naction).

(** ** DiffusionPolicyUNet.get_action *)

Definition get_action (obs : obs_dict) (goal : option obs_dict) : M tensor2 :=
  q <- get action_queue ;;
  match q with
  | None => raise TypeError                 (* len(None) *)
  | Some q0 =>
      (if deque_len q0 =? 0 then
         (* no actions left, run inference *)
         action_sequence <- _get_action_trajectory obs None ;;
         match action_sequence with
         | [] => raise IndexError           (* action_sequence[0] *)
         | first :: _ =>
             (* put actions into the queue *)
             modify (fun s => set_action_queue
                                (option_map (fun d => deque_extend d first)
                                            (action_queue s)) s)
         end
       else ret tt) ;;;
      (* has action, execute from left to right *)
      q1 <- get action_queue ;;
      match q1 with
      | None => raise AttributeError
      | Some d =>
          r <- lift (deque_popleft d) ;;
          modify (set_action_queue (Some (snd r))) ;;;
          ret [fst r]                       (* action.unsqueeze(0) *)
      end
  end.

(** ** Checkpoints: serialize and deserialize *)

(** A value stored in a checkpoint dictionary: [None], a state dict, or a
    dictionary from names to optional state dicts. *)
Inductive ckpt_val : Type :=
  | VNone
  | VStateDict (sd : state_dict)
  | VDict (d : list (string * option state_dict)).

Abbreviation model_dict := (gmap string ckpt_val).

Definition serialize (s : policy) : model_dict :=
  <["ema"%string :=
      match ema s with
      | Some e => VStateDict (weights (averaged_model e))
      | None => VNone
      end]>
  (<["lr_schedulers"%string :=
      VDict (map (fun kv => (fst kv, option_map lr_state (snd kv)))
                 (map_to_list (lr_schedulers s)))]>
  (<["optimizers"%string :=
      VDict (map (fun kv => (fst kv, Some (optim_state (snd kv))))
                 (map_to_list (optimizers s)))]>
  (<["nets"%string := VStateDict (weights (nets s))]> ∅))).

(** The two defaults that [deserialize] writes into the caller's dictionary
    "for backwards compatibility". *)
Definition default_key (k : string) (md : model_dict) : model_dict :=
  match md !! k with
  | None => <[k := VDict []]> md
  | Some _ => md
  end.

Definition with_defaults (md : model_dict) : model_dict :=
  default_key "lr_schedulers" (default_key "optimizers" md).

(** A checkpoint entry used as the argument of [load_state_dict]. *)
Definition as_state_dict (v : ckpt_val) : M state_dict :=
  match v with
  | VStateDict sd => ret sd
  | _ => raise TypeError
  end.

(** A checkpoint entry iterated as a dictionary. *)
Definition as_dict (v : option ckpt_val) (k : string)
    : M (list (string * option state_dict)) :=
  match v with
  | None => raise (KeyError k)
  | Some (VDict d) => ret d
  | Some _ => raise TypeError
  end.

Definition load_optimizer (kv : string * option state_dict) : M unit :=
  opts <- get optimizers ;;
  match opts !! fst kv with
  | None => raise (KeyError (fst kv))
  | Some _ =>
      match snd kv with
      | None => raise TypeError
      | Some sd => modify (set_optimizers (<[fst kv := Optimizer sd]> opts))
      end
  end.

Definition load_lr_scheduler (kv : string * option state_dict) : M unit :=
  match snd kv with
  | None => ret tt
  | Some sd =>
      lrs <- get lr_schedulers ;;
      match lrs !! fst kv with
      | None => raise (KeyError (fst kv))
      | Some None => raise AttributeError
      | Some (Some _) =>
          modify (set_lr_schedulers (<[fst kv := Some (LrScheduler sd)]> lrs))
      end
  end.

(** [if model_dict.get("ema", None) is not None:
       self.ema.averaged_model.load_state_dict(model_dict["ema"])] *)
Definition deserialize_ema (md : model_dict) : M unit :=
  match md !! "ema"%string with
  | None | Some VNone => ret tt
  | Some v_ema =>
      e <- get ema ;;
      match e with
      | None => raise AttributeError
      | Some e0 =>
          sd_ema <- as_state_dict v_ema ;;
          modify (set_ema (Some (ema_load e0 sd_ema)))
      end
  end.

(** The body of [if load_optimizers:] *)
Definition deserialize_optimizers (md : model_dict) : M unit :=
  d_opt <- as_dict (md !! "optimizers"%string) "optimizers" ;;
  for_each d_opt load_optimizer ;;;
  d_lr <- as_dict (md !! "lr_schedulers"%string) "lr_schedulers" ;;
  for_each d_lr load_lr_scheduler.

(** [deserialize(model_dict, load_optimizers)].  The function also mutates
    its argument: once the ["nets"] entry has been loaded, the caller's
    dictionary is [with_defaults model_dict]. *)
Definition deserialize (md : model_dict) (load_optimizers : bool) : M unit :=
  match md !! "nets"%string with
  | None => raise (KeyError "nets")
  | Some v =>
      sd <- as_state_dict v ;;
      modify (fun s => set_nets (load_state_dict (nets s) sd) s) ;;;
      (* for backwards compatibility *)
      let md := with_defaults md in
      deserialize_ema md ;;;
      if load_optimizers then deserialize_optimizers md else ret tt
  end.

(** ** Running a rollout *)

(** Successive [get_action] calls, one per observation; the first exception
    ends the rollout. *)
Fixpoint get_actions (obss : list obs_dict) : M (list tensor2) :=
  match obss with
  | [] => ret []
  | o :: obss' =>
      a <- get_action o None ;;
      rest <- get_actions obss' ;;
      ret (a :: rest)
  end.

(** ghost: the number of sampler invocations recorded in a trace *)
Definition is_sampler_event (e : event) : bool :=
  match e with EvSampler _ => true | _ => false end.

Definition count_sampler (tr : list event) : nat :=
  length (List.filter is_sampler_event tr).

Definition sampler_calls (s : policy) : nat := count_sampler (trace s).

(** ** Vocabulary of the properties *)

(** A bounded deque holds at most [maxlen] items. *)
Definition deque_wf {A} (d : deque A) : Prop := (length (items d) <= maxlen d)%nat.

(** [m] leaves the component [f] of the state as it found it, whether it
    returns or raises. *)
Definition keeps {A X} (f : policy -> X) (m : M A) : Prop :=
  forall s, f (snd (m s)) = f s.

(** Components that the ghost trace, the random generator and the noise
    scheduler do not overlap. *)
Definition rollout_static {X} (f : policy -> X) : Prop :=
  (forall v s, f (set_trace v s) = f s) /\
  (forall v s, f (set_torch_rng v s) = f s) /\
  (forall v s, f (set_noise_scheduler v s) = f s).

(** The network the sampler runs on. *)
Definition sampling_net (s : policy) : module :=
  match ema s with
  | Some e => averaged_model e
  | None => nets s
  end.

(** The inference step count of the enabled scheduler variant. *)
Definition inference_steps (cfg : config) : option Z :=
  if ddpm_enabled cfg then Some (ddpm_num_inference_timesteps cfg)
  else if ddim_enabled cfg then Some (ddim_num_inference_timesteps cfg)
  else None.

(** ghost: the state right after the sampler has been entered *)
Definition entered (obs : obs_dict) (s : policy) : policy :=
  set_trace (trace s ++ [EvSampler obs]) s.

(** The rank assertions on the observation pass. *)
Definition obs_ranks_ok (shapes : list (string * list Z)) (obs : obs_dict) : bool :=
  forallb (fun ks =>
             match obs !! fst ks with
             | Some t => ot_ndim t - 2 =? Z.of_nat (length (snd ks))
             | None => false
             end) shapes.

(** Every batch element of a tensor has [t] timesteps. *)
Definition time_length (t : nat) (x : tensor3) : Prop :=
  Forall (fun traj => length traj = t) x.

(** ghost: the noise predictions of one loop *)
Definition predict_events (net : module) (ks : list Z) : list event :=
  map (fun k => EvPredict net (TOne k)) ks.

(** ghost: the forward passes of a successful invocation on [net] *)
Definition is_net_event (net : module) (obs : obs_dict) (e : event) : Prop :=
  e = EvEncode net obs \/ exists k, e = EvPredict net (TOne k).

(** The conditions, on the state and the observation, under which a sampler
    call returns: evaluation mode, a scheduler variant enabled, observation
    tensors of the declared ranks, an encoder output of rank three with at
    least one batch element, and a non-negative action dimension. *)
Definition sampler_ready (s : policy) (obs : obs_dict) : bool :=
  negb (training (nets s))
  && (ddpm_enabled (algo_config s) || ddim_enabled (algo_config s))
  && obs_ranks_ok (obs_shapes s) obs
  && (f_ndim (obs_encoder (sampling_net s) obs None) =? 3)
  && (1 <=? f_shape0 (obs_encoder (sampling_net s) obs None))
  && (0 <=? ac_dim s).

(** The horizons of a configuration: positive observation and action
    horizons, and the invariant [Tp >= To - 1 + Ta]. *)
Definition horizons_ok (cfg : config) : Prop :=
  1 <= observation_horizon cfg /\
  1 <= action_horizon cfg /\
  observation_horizon cfg - 1 + action_horizon cfg <= prediction_horizon cfg.

(** [m] does not read what the state update [T] writes: running [m] after
    [T] gives the same outcome, and the same state up to [T]. *)
Definition commutes {A} (T : policy -> policy) (m : M A) : Prop :=
  forall s, m (T s) = (fst (m s), T (snd (m s))).

(** State updates that stay clear of everything a rollout reads or writes
    besides the queues and the networks. *)
Definition rollout_blind (T : policy -> policy) : Prop :=
  (forall s, trace (T s) = trace s) /\
  (forall s, torch_rng (T s) = torch_rng s) /\
  (forall s, noise_scheduler (T s) = noise_scheduler s) /\
  (forall s, obs_shapes (T s) = obs_shapes s) /\
  (forall v s, set_trace v (T s) = T (set_trace v s)) /\
  (forall v s, set_torch_rng v (T s) = T (set_torch_rng v s)) /\
  (forall v s, set_noise_scheduler v (T s) = T (set_noise_scheduler v s)).


(** The states of a rollout episode: [reset] has returned, and any number of
    [get_action] calls followed, whether they returned or raised. *)
Inductive in_episode : policy -> Prop :=
  | episode_reset (s : policy) :
      fst (reset s) = Ok tt -> in_episode (snd (reset s))
  | episode_get_action (s : policy) (obs : obs_dict) (goal : option obs_dict) :
      in_episode s -> in_episode (snd (get_action obs goal s)).

(** The invariant of an episode: both queues exist with the capacities that
    [reset] gave them, the observation queue is empty and the action queue
    is within its capacity. *)
Definition queue_invariant (s : policy) : Prop :=
  0 <= observation_horizon (algo_config s) /\
  0 <= action_horizon (algo_config s) /\
  obs_queue s = Some (Deque (Z.to_nat (observation_horizon (algo_config s))) []) /\
  exists d,
    action_queue s = Some d /\
    maxlen d = Z.to_nat (action_horizon (algo_config s)) /\
    deque_wf d.

(** The batch that training sees: the first [To] observation steps and the
    first [Tp] action steps. *)
Definition windowed (s : policy) (b : batch) (obs : obs_dict) : batch :=
  Batch obs (b_goal_obs b)
        (slice_time 0 (prediction_horizon (algo_config s)) (b_actions b)).

(** Some element of a [[B, T, D]] tensor is outside [[-1, 1]]. *)
Definition some_out_of_range (actions : tensor3) : Prop :=
  Exists (Exists (Exists (fun a => in_range a = false))) actions.

(** The two checkpoint keys that may be missing. *)
Definition k_opt : string := "optimizers".
Definition k_lr : string := "lr_schedulers".

(** A checkpoint's [ema] entry that the policy can take: absent, [None],
    or a state dict when the policy has an EMA model. *)
Definition ema_entry_loadable (md : gmap string ckpt_val) (s : policy) : Prop :=
  match md !! "ema"%string with
  | None | Some VNone => True
  | Some (VStateDict _) => ema s <> None
  | Some (VDict _) => False
  end.

End Policy.

(** ** DiffusionPolicyUNet.log_info *)

Section LogInfo.
Context `{BE : Backend}.

(** [loss.item()]: the number held by a loss tensor. *)
Variable loss_item : loss -> scalar.

(** [PolicyAlgo.log_info(info)] of the base class, which this file calls
    through [super]; it returns the dictionary that [log_info] extends. *)
Variable super_log_info : info -> gmap string scalar.

Definition log_info (i : info) : gmap string scalar :=
  let log := super_log_info i in
  let log := <["Loss"%string := loss_item (losses_l2 i)]> log in
  match policy_grad_norms i with        (* if "policy_grad_norms" in info *)
  | Some g => <["Policy_Grad_Norms"%string := g]> log
  | None => log
  end.

End LogInfo.

(** ** More vocabulary for rollouts *)

Section RolloutVocabulary.
Context `{BE : Backend}.

(** The state after successive [get_action] calls by a caller that goes on
    after an exception. *)
Definition after_calls (obss : list obs_dict) (s : policy) : policy :=
  fold_left (fun st o => snd (get_action o None st)) obss s.

(** The outcomes of those calls. *)
Fixpoint call_outcomes (obss : list obs_dict) (s : policy) : list (result tensor2) :=
  match obss with
  | [] => []
  | o :: obss' =>
      fst (get_action o None s) :: call_outcomes obss' (snd (get_action o None s))
  end.

(** The number of actions one sampler call yields for [To >= 1]:
    [min(To - 1 + Ta, Tp) - (To - 1)], or none when that is negative. *)
Definition refill_size (cfg : config) : nat :=
  Z.to_nat (Z.min (observation_horizon cfg - 1 + action_horizon cfg)
                  (prediction_horizon cfg)
            - (observation_horizon cfg - 1)).

(** What training can change and a rollout cannot. *)
Definition learnable_state (s : policy)
    : module * option ema_model * gmap string optimizer
      * gmap string (option lr_scheduler) * bool :=
  (nets s, ema s, optimizers s, lr_schedulers s, action_check_done s).

(** What a rollout can change and training cannot. *)
Definition rollout_state (s : policy)
    : option (deque obs_dict) * option (deque tensor1) :=
  (obs_queue s, action_queue s).

End RolloutVocabulary.


(** ** Vocabulary for training steps *)

Section TrainVocabulary.
Context `{BE : Backend}.

(** The state after the learning update of [train_on_batch]: the updated
    networks and ["policy"] optimizer are stored, then the EMA model, if
    there is one, takes a step on the updated networks (the two ghost
    events go to the trace). *)
Definition after_update (nets1 : module) (opt1 : optimizer) (s : policy) : policy :=
  let s1 :=
    set_optimizers (<["policy"%string := opt1]> (optimizers s))
      (set_nets nets1 (set_trace (trace s ++ [EvBackprop]) s)) in
  match ema s1 with
  | Some e0 => set_ema (Some (ema_step e0 nets1)) (set_trace (trace s1 ++ [EvEmaStep]) s1)
  | None => s1
  end.

(** The conditions under which the forward pass of a training step runs
    through: the base class accepts the call, the observations have the
    declared ranks, the encoder's output has rank three and the scheduler
    has at least one training timestep. *)
Definition train_ready (s : policy) (b : batch) (validate : bool) : Prop :=
  super_train_on_batch (nets s) validate = Ok tt /\
  obs_ranks_ok (obs_shapes s) (b_obs b) = true /\
  f_ndim (obs_encoder (nets s) (b_obs b) (b_goal_obs b)) = 3 /\
  0 < num_train_timesteps (noise_scheduler s).

End TrainVocabulary.


(** ** Vocabulary for checkpoints *)

Section CheckpointVocabulary.
Context `{BE : Backend}.

(** Two policies of the same make: an optimizer and a learning-rate
    scheduler under the same names, a scheduler being [None] in both or in
    neither, and an EMA model in both or in neither. *)
Definition same_make (s1 s2 : policy) : Prop :=
  (ema s1 = None <-> ema s2 = None) /\
  (forall k, optimizers s1 !! k = None <-> optimizers s2 !! k = None) /\
  (forall k, lr_schedulers s1 !! k = None <-> lr_schedulers s2 !! k = None) /\
  (forall k, lr_schedulers s1 !! k = Some None <-> lr_schedulers s2 !! k = Some None).

(** What of an EMA model a checkpoint does not hold. *)
Definition ema_schedule (e : ema_model) : Q * Z := (ema_power e, optimization_step e).

End CheckpointVocabulary.



(** ** torch.nn module trees: replace_submodules and replace_bn_with_gn

    An [nn.Module] as far as these two functions look at it: its class
    (with [num_features] for a BatchNorm2d) and its registered children,
    the ordered dictionary [_modules].  A dotted module name is kept as the
    list of its components; child names hold no dot and are not empty
    (torch's [add_module] refuses both), so [k.split(".")] gives the
    components back.  Modules form a tree: no module object is registered
    under two names, so [remove_duplicate] drops nothing, and the in-place
    assignment to a child of [parent_module] is an update of the root at
    the parent's path. *)

Inductive nn_kind : Type :=
  | BatchNorm2d (num_features : Z)
  | GroupNorm (num_groups num_channels : Z)
  | Sequential
  | OtherModule (cls : string).

#[warnings="-register-all"] Inductive nn_module : Type :=
  | NNModule (kind : nn_kind) (children : list (string * nn_module)).

Definition kind_of (m : nn_module) : nn_kind :=
  match m with NNModule kind _ => kind end.

Definition children_of (m : nn_module) : list (string * nn_module) :=
  match m with NNModule _ children => children end.

(** The exceptions of this part of the file: the built-in ones of the
    prelude and three more. *)
Inductive torch_exn : Type :=
  | ImportError (msg : string)   (* raise ImportError(..) *)
  | ZeroDivisionError            (* x.num_features // 0 *)
  | ModulesLeft                  (* assert len(bn_list) == 0 *)
  | Builtin (e : exn).

Inductive outcome (A : Type) : Type :=
  | Returns (a : A)
  | Raises (e : torch_exn).
Arguments Returns {A} a.
Arguments Raises {A} e.

Definition and_then {A B} (r : outcome A) (k : A -> outcome B) : outcome B :=
  match r with
  | Returns a => k a
  | Raises e => Raises e
  end.

(** What the two functions take from their environment. *)
Class Torch : Type := {
  (** [parse_version(torch.__version__) < parse_version("1.9.0")] *)
  torch_before_1_9_0 : bool;
  (** [int(k)] on a string; [None] is its ValueError *)
  py_int : string -> option Z;
  (** the exception, if any, that [nn.GroupNorm(num_groups, num_channels)]
      raises (newer torch versions check divisibility in the constructor) *)
  GroupNorm_init : Z -> Z -> option torch_exn
}.

Section ModuleTree.
Context `{TE : Torch}.

(** [m._modules.get(k)]: the registered child named [k]. *)
Fixpoint child (k : string) (cs : list (string * nn_module)) : option nn_module :=
  match cs with
  | [] => None
  | (k', c) :: cs' => if String.eqb k' k then Some c else child k cs'
  end.

(** [setattr(m, k, c)] for a module [c]: [m._modules[k] = c]; a registered
    name keeps its place in the dictionary, a new one goes last. *)
Fixpoint set_child (k : string) (c : nn_module) (cs : list (string * nn_module))
    : list (string * nn_module) :=
  match cs with
  | [] => [(k, c)]
  | (k', c') :: cs' =>
      if String.eqb k' k then (k', c) :: cs' else (k', c') :: set_child k c cs'
  end.

(** [m.named_modules(remove_duplicate=True)]: the module itself under
    [prefix], then each child's modules, depth first in dictionary order. *)
Fixpoint named_modules (prefix : list string) (m : nn_module)
    : list (list string * nn_module) :=
  (prefix, m) ::
  match m with
  | NNModule _ children =>
      flat_map (fun kc => named_modules (prefix ++ [fst kc]) (snd kc)) children
  end.

(** [name.split(".")]: the root's name is the empty string, whose split is
    one empty component. *)
Definition split_name (name : list string) : list string :=
  match name with
  | [] => [""%string]
  | _ => name
  end.

(** The names [k] of [for k, m in root_module.named_modules(..) if predicate(m)] *)
Definition matching_paths (predicate : nn_module -> bool) (root : nn_module)
    : list (list string) :=
  map fst (List.filter (fun km => predicate (snd km)) (named_modules [] root)).

(** [[k.split(".") for k, m in root_module.named_modules(..) if predicate(m)]] *)
Definition matching_names (predicate : nn_module -> bool) (root : nn_module)
    : list (list string) :=
  map split_name (matching_paths predicate root).

(** [m.get_submodule(".".join(atoms))] *)
Fixpoint get_submodule (m : nn_module) (atoms : list string) : outcome nn_module :=
  match atoms with
  | [] => Returns m
  | item :: rest =>
      match child item (children_of m) with
      | None => Raises (Builtin AttributeError)
      | Some c => get_submodule c rest
      end
  end.

(** The root after the module at [atoms] has been mutated into [new]. *)
Fixpoint put_submodule (m : nn_module) (atoms : list string) (new : nn_module)
    : nn_module :=
  match atoms with
  | [] => new
  | item :: rest =>
      match child item (children_of m) with
      | None => m
      | Some c =>
          NNModule (kind_of m)
                   (set_child item (put_submodule c rest new) (children_of m))
      end
  end.

Definition to_int (k : string) : outcome Z :=
  match py_int k with
  | Some i => Returns i
  | None => Raises (Builtin (ValueError "invalid literal for int()"))
  end.

(** [Sequential._get_item_by_idx]: the bounds check, then a negative index
    counts from the end. *)
Definition seq_position (size : nat) (idx : Z) : outcome nat :=
  if (- Z.of_nat size <=? idx) && (idx <? Z.of_nat size)
  then Returns (Z.to_nat (idx mod Z.of_nat size))
  else Raises (Builtin IndexError).

(** [parent_module[int(k)]] on a Sequential, [getattr(parent_module, k)]
    otherwise. *)
Definition get_src_module (parent_module : nn_module) (k : string)
    : outcome nn_module :=
  match kind_of parent_module with
  | Sequential =>
      and_then (to_int k) (fun idx =>
      and_then (seq_position (length (children_of parent_module)) idx) (fun pos =>
      match nth_error (children_of parent_module) pos with
      | Some kc => Returns (snd kc)
      | None => Raises (Builtin IndexError)
      end))
  | _ =>
      match child k (children_of parent_module) with
      | Some c => Returns c
      | None => Raises (Builtin AttributeError)
      end
  end.

(** [parent_module[int(k)] = tgt_module] on a Sequential (the key at that
    position is assigned), [setattr(parent_module, k, tgt_module)]
    otherwise. *)
Definition set_tgt_module (parent_module : nn_module) (k : string)
    (tgt_module : nn_module) : outcome nn_module :=
  match kind_of parent_module with
  | Sequential =>
      and_then (to_int k) (fun idx =>
      and_then (seq_position (length (children_of parent_module)) idx) (fun pos =>
      match nth_error (children_of parent_module) pos with
      | Some kc =>
          Returns (NNModule (kind_of parent_module)
                            (set_child (fst kc) tgt_module (children_of parent_module)))
      | None => Raises (Builtin IndexError)
      end))
  | _ =>
      Returns (NNModule (kind_of parent_module)
                        (set_child k tgt_module (children_of parent_module)))
  end.

(** One round of the loop [for *parent, k in bn_list]: the outcome and the
    root afterwards. *)
Definition replace_at (func : nn_module -> outcome nn_module)
    (root_module : nn_module) (name : list string) : outcome unit * nn_module :=
  match name with
  | [] => (Raises (Builtin (ValueError "not enough values to unpack")), root_module)
  | _ =>
      let parent := List.removelast name in
      let k := List.last name ""%string in
      match (match parent with
             | [] => Returns root_module
             | _ => get_submodule root_module parent
             end) with
      | Raises e => (Raises e, root_module)
      | Returns parent_module =>
          match get_src_module parent_module k with
          | Raises e => (Raises e, root_module)
          | Returns src_module =>
              match func src_module with
              | Raises e => (Raises e, root_module)
              | Returns tgt_module =>
                  match set_tgt_module parent_module k tgt_module with
                  | Raises e => (Raises e, root_module)
                  | Returns parent_module' =>
                      (Returns tt, put_submodule root_module parent parent_module')
                  end
              end
          end
      end
  end.

Fixpoint replace_each (func : nn_module -> outcome nn_module)
    (root_module : nn_module) (bn_list : list (list string))
    : outcome unit * nn_module :=
  match bn_list with
  | [] => (Returns tt, root_module)
  | name :: rest =>
      match replace_at func root_module name with
      | (Returns _, root_module') => replace_each func root_module' rest
      | (Raises e, root_module') => (Raises e, root_module')
      end
  end.

(** [replace_submodules(root_module, predicate, func)]: what the call
    returns or raises, and the object [root_module] afterwards. *)
Definition replace_submodules (root_module : nn_module)
    (predicate : nn_module -> bool) (func : nn_module -> outcome nn_module)
    : outcome nn_module * nn_module :=
  if predicate root_module then (func root_module, root_module)
  else if torch_before_1_9_0
  then (Raises (ImportError "This function requires pytorch >= 1.9.0"), root_module)
  else
    match replace_each func root_module (matching_names predicate root_module) with
    | (Raises e, root_module') => (Raises e, root_module')
    | (Returns _, root_module') =>
        (* verify that all modules are replaced *)
        if (length (matching_names predicate root_module') =? 0)%nat
        then (Returns root_module', root_module')
        else (Raises ModulesLeft, root_module')
    end.

(** [lambda x: isinstance(x, nn.BatchNorm2d)] *)
Definition is_BatchNorm2d (x : nn_module) : bool :=
  match kind_of x with
  | BatchNorm2d _ => true
  | _ => false
  end.

(** [x.num_features]: of the classes above only BatchNorm2d has it. *)
Definition num_features_of (x : nn_module) : outcome Z :=
  match kind_of x with
  | BatchNorm2d n => Returns n
  | _ => Raises (Builtin AttributeError)
  end.

(** [lambda x: nn.GroupNorm(num_groups=x.num_features//features_per_group,
                            num_channels=x.num_features)] *)
Definition to_GroupNorm (features_per_group : Z) (x : nn_module) : outcome nn_module :=
  and_then (num_features_of x) (fun n =>
  if features_per_group =? 0 then Raises ZeroDivisionError
  else
    match GroupNorm_init (n / features_per_group) n with
    | Some e => Raises e
    | None => Returns (NNModule (GroupNorm (n / features_per_group) n) [])
    end).

(** [replace_bn_with_gn(root_module, features_per_group)]: the result of
    [replace_submodules] is dropped and [root_module] is returned. *)
Definition replace_bn_with_gn (root_module : nn_module) (features_per_group : Z)
    : outcome nn_module * nn_module :=
  match replace_submodules root_module is_BatchNorm2d (to_GroupNorm features_per_group) with
  | (Raises e, root_module') => (Raises e, root_module')
  | (Returns _, root_module') => (Returns root_module', root_module')
  end.

(** *** Vocabulary of the properties *)

(** The tree with every BatchNorm2d below or at the root replaced. *)
Fixpoint bn_to_gn (features_per_group : Z) (m : nn_module) : nn_module :=
  match m with
  | NNModule (BatchNorm2d n) _ => NNModule (GroupNorm (n / features_per_group) n) []
  | NNModule kind children =>
      NNModule kind (map (fun kc => (fst kc, bn_to_gn features_per_group (snd kc)))
                         children)
  end.

(** The class of the module that takes a module's place. *)
Definition gn_kind (features_per_group : Z) (kind : nn_kind) : nn_kind :=
  match kind with
  | BatchNorm2d n => GroupNorm (n / features_per_group) n
  | _ => kind
  end.

(** The names and classes of the modules of a tree, in [named_modules]
    order. *)
Definition layout (m : nn_module) : list (list string * nn_kind) :=
  map (fun km => (fst km, kind_of (snd km))) (named_modules [] m).

(** The [num_features] of the BatchNorm2d modules of a tree. *)
Definition batchnorm_sizes (m : nn_module) : list Z :=
  flat_map (fun km => match kind_of (snd km) with
                      | BatchNorm2d n => [n]
                      | _ => []
                      end) (named_modules [] m).

(** The dictionary invariants of one module: child names are distinct, a
    Sequential names its children by position, and a BatchNorm2d has no
    children. *)
Definition node_ok (m : nn_module) : Prop :=
  List.NoDup (map fst (children_of m)) /\
  match kind_of m with
  | Sequential =>
      forall i kc, nth_error (children_of m) i = Some kc ->
                   py_int (fst kc) = Some (Z.of_nat i)
  | BatchNorm2d _ => children_of m = []
  | _ => True
  end.

(** [m] with the child named [k] assigned. *)
Definition with_child (m : nn_module) (k : string) (c : nn_module) : nn_module :=
  NNModule (kind_of m) (set_child k c (children_of m)).

(** The invariants hold at every module of a tree. *)
Definition tree_ok (m : nn_module) : Prop :=
  Forall (fun km => node_ok (snd km)) (named_modules [] m).

End ModuleTree.



(** ** Vocabulary for the sampler's result *)

Section SamplerVocabulary.
Context `{BE : Backend}.

(** [torch.randn((B, Tp, Da))] as a function of the generator. *)
Definition gaussian_noise (B Tp Da : Z) (g : generator) : tensor3 * generator :=
  draws (Z.to_nat B) (draws (Z.to_nat Tp) (draws (Z.to_nat Da) randn_one)) g.

(** The inverse diffusion on the network [net], as a function of the start
    sample and the generator: at every timestep the noise is predicted by
    [net] from the current sample and the conditioning, and the scheduler
    takes one step with that prediction. *)
Fixpoint denoised (sch : scheduler) (net : module) (obs_cond : features)
    (ks : list Z) (naction : tensor3) (g : generator) : tensor3 * generator :=
  match ks with
  | [] => (naction, g)
  | k :: ks' =>
      let (prev_sample, g') :=
        scheduler_step sch g (noise_pred_net net naction (TOne k) obs_cond) k naction in
      denoised sch net obs_cond ks' prev_sample g'
  end.

(** The fully denoised trajectory of a sampler call made on [net] with [n]
    inference steps, and the generator it leaves: the observation is
    encoded by [net], a [[B, Tp, Da]] sample is drawn, and the diffusion is
    inverted over all timesteps of the configured scheduler. *)
Definition denoised_trajectory (net : module) (n : Z) (obs : obs_dict)
    (goal : option obs_dict) (s : policy) : tensor3 * generator :=
  let obs_features := obs_encoder net obs goal in
  let (noisy_action, g) :=
    gaussian_noise (f_shape0 obs_features) (prediction_horizon (algo_config s))
                   (ac_dim s) (torch_rng s) in
  let sch := set_timesteps (noise_scheduler s) n in
  denoised sch net (flatten1 obs_features) (timesteps sch) noisy_action g.


End SamplerVocabulary.


(** ** A small concrete backend

    Used to run the definitions on concrete inputs: the generator counts its
    draws (the n-th standard normal draw is the number n), the networks are
    the identity on the sample, a scheduler is its list of timesteps. *)

Definition demo_randn_one (g : nat) : scalar * nat :=
  (Fin (inject_Z (Z.of_nat g)), S g).

Definition demo_set_timesteps (_ : list Z) (n : Z) : list Z :=
  map Z.of_nat (rev (seq 0 (Z.to_nat n))).

Definition demo_super_train_on_batch (m : module) (validate : bool) : result unit :=
  if validate || training m then Ok tt else Raise (AssertionError SuperTrainOnBatch).

Instance demo_backend : Backend := {|
  scheduler := list Z;
  generator := nat;
  loss := unit;
  randn_one := demo_randn_one;
  randint_one := fun lo _ g => (lo, S g);
  mse_loss := fun _ _ => tt;
  obs_encoder := fun _ _ _ => Features [1; 2; 1] [];
  noise_pred_net := fun _ sample _ _ => sample;
  num_train_timesteps := fun _ => 100;
  add_noise := fun _ actions _ _ => actions;
  set_timesteps := demo_set_timesteps;
  timesteps := fun sch => sch;
  scheduler_step := fun _ g _ _ sample => (sample, g);
  ema_step := fun e m =>
    EMAModel (Module_ (weights m) false) (ema_power e) (optimization_step e + 1);
  backprop_for_loss := fun m o _ => (m, o, Fin 0);
  super_train_on_batch := demo_super_train_on_batch;
  build_nets := fun _ _ _ => Module_ ∅ true;
  DDPMScheduler_new := fun _ => [];
  DDIMScheduler_new := fun _ => [];
  EMAModel_new := fun m p => EMAModel (Module_ (weights m) false) p 0
|}.

(** The configuration of the end-to-end scenario: To = 2, Ta = 4, Tp = 8,
    Da = 1, DDPM with three inference steps, no EMA. *)
Definition demo_config : config :=
  Config 2 4 8 true 3 false 0 false (2 # 3).

(** One low-dimensional observation of shape [[1, 2, 1]]. *)
Definition demo_obs : obs_dict :=
  {[ "state"%string := ObsTensor [1] [[[Fin 0]; [Fin 0]]] ]}.

Definition demo_policy_with (cfg : config) (training_ : bool)
    (aq : option (deque tensor1)) : policy :=
  Policy cfg [("state"%string, [1])] 1 (Module_ ∅ training_) [] None ∅ ∅ false
         None aq O [].

(** Evaluation mode, before [reset]. *)
Definition demo_policy : policy := demo_policy_with demo_config false None.

(** Training mode. *)
Definition demo_training_policy : policy := demo_policy_with demo_config true None.

(** EMA configured, with shadow weights of its own. *)
Definition demo_ema_policy : policy :=
  set_ema (Some (EMAModel (Module_ {[ "w"%string := [Fin (1 # 1)] ]} false) (2 # 3) 7))
          demo_policy.

(** To = 2, Ta = 1, Tp = 2, and a batch of the data loader's length
    [To - 1 + Tp = 3] whose last action value is 1.5. *)
Definition window_policy : policy :=
  demo_policy_with (Config 2 1 2 true 3 false 0 false (2 # 3)) true None.

Definition demo_obs3 : obs_dict :=
  {[ "state"%string := ObsTensor [1] [[[Fin 0]; [Fin 0]; [Fin 0]]] ]}.

Definition late_outlier_batch : batch :=
  Batch demo_obs3 None [[[Fin 0]; [Fin 0]; [Fin (3 # 2)]]].

(** Batches for the end-to-end configuration: one inside [[-1, 1]], one
    with the action value 1.5. *)
Definition good_batch : batch :=
  Batch demo_obs None [[[Fin (1 # 2)]; [Fin (-1 # 1)]]].

Definition bad_batch : batch :=
  Batch demo_obs None [[[Fin (1 # 2)]; [Fin (3 # 2)]]].

(** An old checkpoint: only the networks' state. *)
Definition old_checkpoint : gmap string ckpt_val :=
  {[ "nets"%string := VStateDict {[ "w"%string := [Fin (1 # 4)] ]} ]}.

(** [Ta = -1] beside a valid [To]. *)
Definition negative_horizon_policy : policy :=
  demo_policy_with (Config 2 (-1) 8 true 3 false 0 false (2 # 3)) false None.

(** In the middle of an episode: one sampled action is still queued. *)
Definition midway_policy : policy :=
  demo_policy_with demo_config false (Some (Deque 4 [[Fin (7 # 1)]])).

(** Training mode, after [reset]. *)
Definition training_rollout_policy : policy :=
  demo_policy_with demo_config true (Some (Deque 4 [])).

(** An observation with a modality that [obs_shapes] does not name. *)
Definition demo_obs_with_image : obs_dict :=
  <["image"%string := ObsTensor [3; 1; 1] [[[Fin 0; Fin 0; Fin 0]]]]> demo_obs.

(** An observation whose ["state"] tensor lacks the time axis' trailing
    dimension: rank two where three is declared. *)
Definition flat_obs : obs_dict :=
  {[ "state"%string := ObsTensor [] [[[Fin 0]; [Fin 0]]] ]}.

(** Training mode with a ["policy"] optimizer and an EMA model. *)
Definition demo_learning_policy : policy :=
  set_ema (Some (EMAModel (Module_ ∅ false) (2 # 3) 0))
    (set_optimizers {[ "policy"%string := Optimizer ∅ ]} demo_training_policy).

(** To = 2, Ta = 4, Tp = 3: the prediction horizon is below [To - 1 + Ta]. *)
Definition short_horizon_policy : policy :=
  demo_policy_with (Config 2 4 3 true 3 false 0 false (2 # 3)) false
                   (Some (Deque 4 [])).

(** Ta = 0. *)
Definition no_action_policy : policy :=
  demo_policy_with (Config 2 0 8 true 3 false 0 false (2 # 3)) false
                   (Some (Deque 0 [])).

(** A batch with no batch element, and one with a NaN action. *)
Definition empty_batch : batch := Batch demo_obs None [].

Definition nan_batch : batch :=
  Batch demo_obs None [[[Fin (1 # 2)]; [NaN]]].


(** A policy with trained state of every kind, and a freshly built one of
    the same make. *)
Definition saved_policy : policy :=
  set_lr_schedulers {[ "policy"%string := Some (LrScheduler {[ "last_epoch"%string := [Fin (3 # 1)] ]}) ]}
    (set_optimizers {[ "policy"%string := Optimizer {[ "step"%string := [Fin (5 # 1)] ]} ]}
       (set_nets (Module_ {[ "w"%string := [Fin (1 # 2)] ]} true) demo_ema_policy)).

Definition fresh_policy : policy :=
  set_lr_schedulers {[ "policy"%string := Some (LrScheduler ∅) ]}
    (set_optimizers {[ "policy"%string := Optimizer ∅ ]}
       (set_ema (Some (EMAModel (Module_ ∅ false) (3 # 4) 0)) demo_policy)).


(** A torch of version 1.9.0 or later whose GroupNorm constructor checks
    divisibility; [int] on plain decimal strings. *)
Fixpoint demo_digits (acc : Z) (k : string) : option Z :=
  match k with
  | EmptyString => Some acc
  | String a rest =>
      let d := Z.of_N (Ascii.N_of_ascii a) - 48 in
      if (0 <=? d) && (d <=? 9) then demo_digits (10 * acc + d) rest else None
  end.

Definition demo_py_int (k : string) : option Z :=
  match k with
  | EmptyString => None
  | _ => demo_digits 0 k
  end.

Definition demo_GroupNorm_init (num_groups num_channels : Z) : option torch_exn :=
  if num_groups =? 0 then Some ZeroDivisionError
  else if num_channels mod num_groups =? 0 then None
  else Some (Builtin (ValueError "num_channels must be divisible by num_groups")).

Instance demo_torch : Torch := {|
  torch_before_1_9_0 := false;
  py_int := demo_py_int;
  GroupNorm_init := demo_GroupNorm_init
|}.

Instance old_torch : Torch := {|
  torch_before_1_9_0 := true;
  py_int := demo_py_int;
  GroupNorm_init := demo_GroupNorm_init
|}.

Definition conv2d : nn_module := NNModule (OtherModule "Conv2d") [].

(** An encoder in the style of a ResNet trunk: a Sequential whose second
    child is a BatchNorm2d and whose third is a block with one inside. *)
Definition demo_encoder : nn_module :=
  NNModule (OtherModule "VisualCore")
    [("nets"%string,
      NNModule Sequential
        [("0"%string, conv2d);
         ("1"%string, NNModule (BatchNorm2d 64) []);
         ("2"%string,
          NNModule (OtherModule "BasicBlock")
            [("conv1"%string, conv2d);
             ("bn1"%string, NNModule (BatchNorm2d 128) [])])])].

(** A Sequential built from an ordered dictionary of named layers. *)
Definition named_sequential : nn_module :=
  NNModule Sequential
    [("conv"%string, conv2d); ("bn"%string, NNModule (BatchNorm2d 32) [])].


(** * Properties *)

(** ** Slices *)

Example py_slice_inner : py_slice 1 5 [0; 1; 2; 3; 4; 5; 6; 7] = [1; 2; 3; 4].
Proof. reflexivity. Qed.

Example py_slice_clamped : py_slice 1 5 [0; 1; 2] = [1; 2].
Proof. reflexivity. Qed.

(** A negative start counts from the end: the window for [To = 0]. *)
Example py_slice_negative_start : py_slice (-1) 1 [0; 1; 2] = [].
Proof. reflexivity. Qed.

Example py_slice_to_negative : py_slice_to (-1) [0; 1; 2] = [0; 1].
Proof. reflexivity. Qed.


Lemma py_norm_id (n i : Z) : 0 <= i <= n -> py_norm n i = i.
Proof. intros Hi. unfold py_norm. destruct (Z.ltb_spec i 0); lia. Qed.

Lemma py_slice_window {A} (lo hi : Z) (l : list A) :
  0 <= lo -> lo <= hi -> hi <= Z.of_nat (length l) ->
  py_slice lo hi l = firstn (Z.to_nat (hi - lo)) (skipn (Z.to_nat lo) l).
Proof.
  intros H0 H1 H2. unfold py_slice.
  rewrite !py_norm_id by lia. reflexivity.
Qed.

Lemma py_slice_length {A} (lo hi : Z) (l : list A) :
  0 <= lo -> lo <= hi -> hi <= Z.of_nat (length l) ->
  Z.of_nat (length (py_slice lo hi l)) = hi - lo.
Proof.
  intros H0 H1 H2. rewrite py_slice_window by assumption.
  rewrite length_firstn, length_skipn. lia.
Qed.

(** Entry [i] of the window [[lo, hi)] is entry [lo + i] of the sequence. *)
Lemma py_slice_nth {A} (lo hi : Z) (l : list A) (i : nat) :
  0 <= lo -> lo <= hi -> hi <= Z.of_nat (length l) ->
  Z.of_nat i < hi - lo ->
  nth_error (py_slice lo hi l) i = nth_error l (Z.to_nat lo + i).
Proof.
  intros H0 H1 H2 Hi. rewrite py_slice_window by assumption.
  rewrite nth_error_firstn.
  destruct (Nat.ltb_spec i (Z.to_nat (hi - lo))); [| lia].
  apply nth_error_skipn.
Qed.

(** ** The bounded deque *)

Example deque_extend_room : deque_extend (Deque 4 [1]) [2; 3] = Deque 4 [1; 2; 3].
Proof. reflexivity. Qed.

Example deque_extend_overflow : deque_extend (Deque 2 []) [1; 2; 3] = Deque 2 [2; 3].
Proof. reflexivity. Qed.

Example deque_maxlen_zero : deque_extend (Deque 0 []) [1; 2] = Deque 0 [].
Proof. reflexivity. Qed.


Lemma deque_append_maxlen {A} (d : deque A) (x : A) :
  maxlen (deque_append d x) = maxlen d.
Proof. unfold deque_append. destruct (_ <? _)%nat; reflexivity. Qed.

Lemma deque_append_wf {A} (d : deque A) (x : A) :
  deque_wf d -> deque_wf (deque_append d x).
Proof.
  unfold deque_wf, deque_append. intros Hd.
  destruct (Nat.ltb_spec (maxlen d) (length (items d ++ [x]))) as [Hlt | Hle];
    cbn [items maxlen].
  - destruct (items d) as [| y l]; cbn in *; [lia |].
    rewrite length_app in *. cbn in *. lia.
  - exact Hle.
Qed.

Lemma deque_extend_maxlen {A} (xs : list A) (d : deque A) :
  maxlen (deque_extend d xs) = maxlen d.
Proof.
  unfold deque_extend. revert d.
  induction xs as [| x xs IH]; intros d; cbn; [reflexivity |].
  rewrite IH. apply deque_append_maxlen.
Qed.

Lemma deque_extend_wf {A} (xs : list A) (d : deque A) :
  deque_wf d -> deque_wf (deque_extend d xs).
Proof.
  unfold deque_extend. revert d.
  induction xs as [| x xs IH]; intros d Hd; cbn; [exact Hd |].
  apply IH, deque_append_wf, Hd.
Qed.

(** While there is room, [extend] just appends. *)
Lemma deque_extend_fits {A} (xs : list A) (d : deque A) :
  (length (items d) + length xs <= maxlen d)%nat ->
  deque_extend d xs = Deque (maxlen d) (items d ++ xs).
Proof.
  unfold deque_extend. revert d.
  induction xs as [| x xs IH]; intros d Hd; cbn in *.
  - rewrite app_nil_r. destruct d; reflexivity.
  - rewrite IH.
    + rewrite deque_append_maxlen. f_equal.
      unfold deque_append.
      destruct (Nat.ltb_spec (maxlen d) (length (items d ++ [x]))) as [Hlt | Hle].
      * rewrite length_app in Hlt. cbn in Hlt. lia.
      * cbn. rewrite <- app_assoc. reflexivity.
    + rewrite deque_append_maxlen. unfold deque_append.
      destruct (Nat.ltb_spec (maxlen d) (length (items d ++ [x]))) as [Hlt | Hle];
        rewrite length_app in *; cbn in *; [lia |].
      rewrite length_app. cbn. lia.
Qed.

Lemma lastn_all {A} (n : nat) (l : list A) : (length l <= n)%nat -> lastn n l = l.
Proof. intros H. unfold lastn. replace (length l - n)%nat with O by lia. reflexivity. Qed.

Lemma lastn_length {A} (n : nat) (l : list A) :
  length (lastn n l) = Nat.min n (length l).
Proof. unfold lastn. rewrite length_skipn. lia. Qed.

Lemma lastn_app_lastn {A} (n : nat) (l xs : list A) :
  lastn n (lastn n l ++ xs) = lastn n (l ++ xs).
Proof.
  destruct (Nat.le_gt_cases (length l) n) as [Hle | Hgt].
  - rewrite (lastn_all n l) by exact Hle. reflexivity.
  - set (k := (length l - n)%nat).
    assert (Hsplit : l ++ xs = firstn k l ++ (skipn k l ++ xs))
      by (rewrite app_assoc, firstn_skipn; reflexivity).
    assert (Hk : length (skipn k l) = n) by (rewrite length_skipn; lia).
    change (lastn n l) with (skipn k l). unfold lastn.
    transitivity (skipn (length xs) (skipn k l ++ xs)).
    + f_equal. rewrite length_app, Hk. lia.
    + rewrite Hsplit, length_app, (skipn_app _ (firstn k l)).
      rewrite (skipn_all2 (firstn k l))
        by (rewrite length_firstn, length_app, Hk; lia).
      rewrite length_firstn, length_app, Hk. cbn [app]. f_equal. lia.
Qed.

Lemma deque_append_lastn {A} (d : deque A) (x : A) :
  deque_wf d -> items (deque_append d x) = lastn (maxlen d) (items d ++ [x]).
Proof.
  unfold deque_wf, deque_append. intros Hd.
  destruct (Nat.ltb_spec (maxlen d) (length (items d ++ [x]))) as [Hlt | Hle];
    cbn [items].
  - unfold lastn. rewrite length_app in *. cbn [length] in *.
    replace (length (items d) + 1 - maxlen d)%nat with 1%nat by lia.
    reflexivity.
  - symmetry. apply lastn_all, Hle.
Qed.

(** In general [extend] keeps the newest [maxlen] entries: what does not fit
    is discarded from the left end, and nothing is raised. *)
Lemma deque_extend_lastn {A} (xs : list A) (d : deque A) :
  deque_wf d -> items (deque_extend d xs) = lastn (maxlen d) (items d ++ xs).
Proof.
  unfold deque_extend. revert d.
  induction xs as [| x xs IH]; intros d Hd; cbn [fold_left].
  - rewrite app_nil_r. symmetry. apply lastn_all, Hd.
  - rewrite IH by (apply deque_append_wf, Hd).
    rewrite deque_append_maxlen, deque_append_lastn by exact Hd.
    rewrite lastn_app_lastn, <- app_assoc. reflexivity.
Qed.

Section Proofs.
Context `{BE : Backend}.

(** ** Frame reasoning for the monad *)

Lemma keeps_ret {A X} (f : policy -> X) (a : A) : keeps f (ret a).
Proof. intros s. reflexivity. Qed.

Lemma keeps_raise {A X} (f : policy -> X) (e : exn) : keeps f (@raise _ A e).
Proof. intros s. reflexivity. Qed.

Lemma keeps_get {A X} (f : policy -> X) (h : policy -> A) : keeps f (get h).
Proof. intros s. reflexivity. Qed.

Lemma keeps_lift {A X} (f : policy -> X) (r : result A) : keeps f (lift r).
Proof. intros s. reflexivity. Qed.

Lemma keeps_py_assert {X} (f : policy -> X) b site : keeps f (py_assert b site).
Proof. intros s. destruct b; reflexivity. Qed.

Lemma keeps_modify {X} (f : policy -> X) (h : policy -> policy) :
  (forall s, f (h s) = f s) -> keeps f (modify h).
Proof. intros Hh s. apply Hh. Qed.

Lemma keeps_bind {A B X} (f : policy -> X) (m : M A) (k : A -> M B) :
  keeps f m -> (forall a, keeps f (k a)) -> keeps f (bind m k).
Proof.
  intros Hm Hk s. unfold bind. specialize (Hm s).
  destruct (m s) as [[a | e] s1]; cbn in *.
  - rewrite Hk. exact Hm.
  - exact Hm.
Qed.

Lemma keeps_for_each {A X} (f : policy -> X) (xs : list A) (body : A -> M unit) :
  (forall x, keeps f (body x)) -> keeps f (for_each xs body).
Proof.
  intros Hb. induction xs as [| x xs IH]; cbn [for_each].
  - apply keeps_ret.
  - apply keeps_bind; [apply Hb | intros _; exact IH].
Qed.

Lemma keeps_log {X} (f : policy -> X) (e : event) :
  (forall v s, f (set_trace v s) = f s) -> keeps f (log e).
Proof. intros Ht s. apply Ht. Qed.

Ltac keeps_step :=
  lazymatch goal with
  | |- keeps _ (bind _ _) => apply keeps_bind; [| intros ?]
  | |- keeps _ (ret _) => apply keeps_ret
  | |- keeps _ (raise _) => apply keeps_raise
  | |- keeps _ (get _) => apply keeps_get
  | |- keeps _ (lift _) => apply keeps_lift
  | |- keeps _ (py_assert _ _) => apply keeps_py_assert
  | |- keeps _ (log _) => apply keeps_log; assumption
  | |- keeps _ (for_each _ _) => apply keeps_for_each; intros ?
  | |- keeps _ (modify _) => apply keeps_modify; intros ?
  | |- keeps _ (match ?x with _ => _ end) => destruct x
  end.

Lemma randn3_keeps {X} (f : policy -> X) b t d :
  rollout_static f -> keeps f (randn3 b t d).
Proof.
  intros Hf. pose proof Hf as (Ht & Hr & Hs). unfold randn3.
  repeat keeps_step. apply Hr.
Qed.

Lemma check_obs_ndim_keeps {X} (f : policy -> X) obs : keeps f (check_obs_ndim obs).
Proof. unfold check_obs_ndim. repeat keeps_step. Qed.

Lemma encode_obs_keeps {X} (f : policy -> X) net obs goal :
  rollout_static f -> keeps f (encode_obs net obs goal).
Proof.
  intros (Ht & Hr & Hs). unfold encode_obs.
  apply keeps_bind; [apply check_obs_ndim_keeps | intros _].
  repeat keeps_step.
Qed.

Lemma denoise_keeps_gen {X} (f : policy -> X) net cond ks x :
  (forall v s, f (set_trace v s) = f s) ->
  (forall v s, f (set_torch_rng v s) = f s) ->
  keeps f (denoise net cond ks x).
Proof.
  intros Ht Hr. revert x.
  induction ks as [| k ks IH]; intros x; cbn [denoise].
  - apply keeps_ret.
  - repeat keeps_step; [apply Hr | apply IH].
Qed.

Lemma denoise_keeps {X} (f : policy -> X) net cond ks x :
  rollout_static f -> keeps f (denoise net cond ks x).
Proof. intros (Ht & Hr & Hs). apply denoise_keeps_gen; assumption. Qed.

Lemma sampler_keeps {X} (f : policy -> X) obs goal :
  rollout_static f -> keeps f (_get_action_trajectory obs goal).
Proof.
  intros Hf. pose proof Hf as (Ht & Hr & Hs). unfold _get_action_trajectory.
  repeat first
    [ apply encode_obs_keeps; assumption
    | apply randn3_keeps; assumption
    | apply denoise_keeps; assumption
    | keeps_step ].
  apply Hs.
Qed.

Lemma get_action_keeps {X} (f : policy -> X) obs goal :
  rollout_static f -> (forall v s, f (set_action_queue v s) = f s) ->
  keeps f (get_action obs goal).
Proof.
  intros Hf Hq. unfold get_action.
  repeat first
    [ apply sampler_keeps; assumption
    | keeps_step ]; apply Hq.
Qed.

(** ** The sampler, step by step *)

(** The sampler as a cascade of its stages. *)
Lemma sampler_unfold (obs : obs_dict) (goal : option obs_dict) (s : policy) :
  _get_action_trajectory obs goal s =
  if training (nets s) then (Raise (AssertionError NetsTraining), entered obs s)
  else
    match inference_steps (algo_config s) with
    | None => (Raise (ValueError ""), entered obs s)
    | Some n =>
        match encode_obs (sampling_net s) obs goal (entered obs s) with
        | (Raise e, s1) => (Raise e, s1)
        | (Ok obs_features, s1) =>
            match randn3 (f_shape0 obs_features)
                         (prediction_horizon (algo_config s)) (ac_dim s) s1 with
            | (Raise e, s2) => (Raise e, s2)
            | (Ok noisy_action, s2) =>
                let s3 := set_noise_scheduler (set_timesteps (noise_scheduler s2) n) s2 in
                match denoise (sampling_net s) (flatten1 obs_features)
                              (timesteps (noise_scheduler s3)) noisy_action s3 with
                | (Raise e, s4) => (Raise e, s4)
                | (Ok naction, s4) =>
                    (Ok (slice_time (observation_horizon (algo_config s) - 1)
                                    (observation_horizon (algo_config s) - 1
                                     + action_horizon (algo_config s)) naction), s4)
                end
            end
        end
    end.
Proof.
  unfold _get_action_trajectory, inference_steps, sampling_net, entered.
  unfold bind at 1. cbn [log modify].
  unfold bind at 1. cbn [get]. cbn [training nets set_trace].
  destruct (training (nets s)); cbn [negb py_assert]; [reflexivity |].
  unfold bind at 1. cbn [ret].
  unfold bind at 1. cbn [get]. cbn [algo_config set_trace].
  unfold bind at 1. cbn [get]. cbn [ac_dim set_trace].
  unfold bind at 1.
  destruct (ddpm_enabled (algo_config s)); [| destruct (ddim_enabled (algo_config s))];
    cbn [ret raise]; try reflexivity.
  all: unfold bind at 1; cbn [get]; unfold bind at 1; cbn [get];
    cbn [nets ema set_trace];
    unfold bind at 1;
    match goal with |- context [encode_obs ?n ?o ?g ?st] =>
      destruct (encode_obs n o g st) as [[obs_features | e] s1]
    end; [| reflexivity];
    unfold bind at 1;
    destruct (randn3 _ _ _ s1) as [[noisy | e] s2]; [| reflexivity];
    unfold bind at 1; cbn [modify];
    unfold bind at 1; cbn [get];
    unfold bind at 1;
    match goal with |- context [denoise ?n ?c ?ks ?x ?st] =>
      destruct (denoise n c ks x st) as [[naction | e] s4]
    end; reflexivity.
Qed.

Lemma check_obs_ndim_ok (obs : obs_dict) (s : policy) :
  obs_ranks_ok (obs_shapes s) obs = true -> check_obs_ndim obs s = (Ok tt, s).
Proof.
  unfold check_obs_ndim, obs_ranks_ok. unfold bind at 1. cbn [get].
  generalize (obs_shapes s) as shapes.
  induction shapes as [| ks shapes IH]; cbn [forallb for_each]; intros Hok.
  - reflexivity.
  - apply andb_prop in Hok as [Hk Hrest].
    unfold bind at 1.
    destruct (obs !! fst ks) as [t |]; [| discriminate].
    rewrite Hk. cbn [py_assert ret]. apply IH, Hrest.
Qed.

Lemma encode_obs_ok (net : module) (obs : obs_dict) (goal : option obs_dict)
    (s : policy) :
  obs_ranks_ok (obs_shapes s) obs = true ->
  f_ndim (obs_encoder net obs goal) = 3 ->
  encode_obs net obs goal s =
  (Ok (obs_encoder net obs goal), set_trace (trace s ++ [EvEncode net obs]) s).
Proof.
  intros Hranks Hndim. unfold encode_obs.
  unfold bind at 1. rewrite check_obs_ndim_ok by exact Hranks.
  unfold bind at 1. cbn [log modify].
  unfold bind at 1. rewrite Hndim. reflexivity.
Qed.

(** *** Shapes of the random draws *)

Lemma draws_length {A} (n : nat) (draw : generator -> A * generator) (g : generator) :
  length (fst (draws n draw g)) = n.
Proof.
  revert g. induction n as [| n IH]; intros g; cbn [draws]; [reflexivity |].
  destruct (draw g) as [x g1]. specialize (IH g1).
  destruct (draws n draw g1) as [xs g2]. cbn in *. congruence.
Qed.

Lemma draws_Forall {A} (P : A -> Prop) (n : nat)
    (draw : generator -> A * generator) (g : generator) :
  (forall g0, P (fst (draw g0))) -> Forall P (fst (draws n draw g)).
Proof.
  intros Hd. revert g. induction n as [| n IH]; intros g; cbn [draws].
  - constructor.
  - specialize (Hd g). destruct (draw g) as [x g1]. specialize (IH g1).
    destruct (draws n draw g1) as [xs g2]. cbn in *. constructor; assumption.
Qed.

Lemma randn3_ok (b t d : Z) (s : policy) :
  0 <= b -> 0 <= t -> 0 <= d ->
  exists x g,
    randn3 b t d s = (Ok x, set_torch_rng g s) /\
    length x = Z.to_nat b /\ time_length (Z.to_nat t) x.
Proof.
  intros Hb Ht Hd. unfold randn3.
  destruct (Z.ltb_spec b 0); [lia |].
  destruct (Z.ltb_spec t 0); [lia |].
  destruct (Z.ltb_spec d 0); [lia |].
  cbn [orb]. unfold bind at 1. cbn [get].
  pose proof (draws_length (Z.to_nat b)
                (draws (Z.to_nat t) (draws (Z.to_nat d) randn_one)) (torch_rng s)) as Hlen.
  pose proof (draws_Forall (fun traj : tensor2 => length traj = Z.to_nat t) (Z.to_nat b)
                (draws (Z.to_nat t) (draws (Z.to_nat d) randn_one)) (torch_rng s)
                (fun g0 => draws_length _ _ g0)) as Hall.
  destruct (draws (Z.to_nat b) _ (torch_rng s)) as [x g']. cbn [fst] in *.
  exists x, g'. repeat split; assumption.
Qed.

Lemma randn3_raises (b t d : Z) (s : policy) :
  ((b <? 0) || (t <? 0) || (d <? 0))%bool = true ->
  randn3 b t d s = (Raise RuntimeError, s).
Proof. intros H. unfold randn3. rewrite H. reflexivity. Qed.

(** *** The denoising loop *)

(** The loop never raises; it logs one noise prediction per timestep, in
    order, all on [net]. *)
Lemma denoise_ok (net : module) (cond : features) (ks : list Z) (x : tensor3)
    (s : policy) :
  exists naction s',
    denoise net cond ks x s = (Ok naction, s') /\
    trace s' = trace s ++ predict_events net ks.
Proof.
  revert x s. induction ks as [| k ks IH]; intros x s; cbn [denoise].
  - exists x, s. split; [reflexivity |]. cbn. rewrite app_nil_r. reflexivity.
  - unfold bind at 1. cbn [log modify].
    unfold bind at 1. cbn [get].
    unfold bind at 1. cbn [get].
    destruct (scheduler_step _ _ _ k x) as [prev g'].
    unfold bind at 1. cbn [modify].
    match goal with |- context [denoise net cond ks prev ?st] =>
      destruct (IH prev st) as (naction & s' & Hrun & Htr) end.
    exists naction, s'. split; [exact Hrun |].
    rewrite Htr. cbn [trace set_torch_rng set_trace predict_events map].
    rewrite <- app_assoc. reflexivity.
Qed.

(** *** What one sampler invocation adds to the trace *)

Lemma predict_events_net (net : module) (obs : obs_dict) (ks : list Z) :
  Forall (is_net_event net obs) (predict_events net ks).
Proof.
  induction ks as [| k ks IH]; cbn; constructor; [right; eauto | exact IH].
Qed.

Lemma encode_obs_trace (net : module) (obs : obs_dict) (goal : option obs_dict)
    (s : policy) :
  exists evs,
    trace (snd (encode_obs net obs goal s)) = trace s ++ evs /\
    (evs = [] \/ evs = [EvEncode net obs]).
Proof.
  unfold encode_obs. unfold bind at 1.
  pose proof (check_obs_ndim_keeps trace obs s) as Hk.
  destruct (check_obs_ndim obs s) as [[[] | e] s1]; cbn [snd] in *.
  - unfold bind at 1. cbn [log modify].
    unfold bind at 1.
    destruct (f_ndim (obs_encoder net obs goal) =? 3);
      cbn [py_assert ret raise snd trace set_trace];
      exists [EvEncode net obs]; rewrite Hk; auto.
  - exists []. rewrite app_nil_r. auto.
Qed.

Lemma randn3_trace (b t d : Z) (s : policy) :
  trace (snd (randn3 b t d s)) = trace s.
Proof.
  unfold randn3. destruct (_ || _ || _)%bool; [reflexivity |].
  unfold bind at 1. cbn [get].
  destruct (draws _ _ _) as [x g']. reflexivity.
Qed.

(** Every outcome of the sampler: the invocation itself is logged first,
    then only forward passes on the selected network. *)
Lemma sampler_trace (obs : obs_dict) (goal : option obs_dict) (s : policy) :
  exists evs,
    trace (snd (_get_action_trajectory obs goal s)) = trace s ++ EvSampler obs :: evs /\
    Forall (is_net_event (sampling_net s) obs) evs.
Proof.
  rewrite sampler_unfold.
  destruct (training (nets s)); [exists []; split; [reflexivity | constructor] |].
  destruct (inference_steps (algo_config s)) as [n |];
    [| exists []; split; [reflexivity | constructor]].
  destruct (encode_obs_trace (sampling_net s) obs goal (entered obs s))
    as (evs1 & Htr1 & Hevs1).
  assert (Hnet1 : Forall (is_net_event (sampling_net s) obs) evs1).
  { destruct Hevs1 as [-> | ->]; repeat constructor. }
  cbn [entered trace set_trace] in Htr1. rewrite <- app_assoc in Htr1. cbn [app] in Htr1.
  destruct (encode_obs _ obs goal _) as [[obs_features | e] s1]; cbn [snd] in Htr1;
    [| exists evs1; split; assumption].
  match goal with |- context [randn3 ?b ?t ?d s1] =>
    pose proof (randn3_trace b t d s1) as Htr2;
    destruct (randn3 b t d s1) as [[noisy | e] s2] end; cbn [snd] in Htr2;
    [| exists evs1; split; [cbn [snd]; congruence | assumption]].
  cbv zeta.
  match goal with |- context [denoise ?n ?c ?ks ?x ?st] =>
    destruct (denoise_ok n c ks x st) as (naction & s4 & Hrun & Htr4);
    rewrite Hrun end.
  cbn [snd]. exists (evs1 ++ predict_events (sampling_net s)
                              (timesteps (set_timesteps (noise_scheduler s2) n))).
  split.
  - rewrite Htr4. cbn [trace set_noise_scheduler noise_scheduler].
    rewrite Htr2, Htr1, <- app_assoc. reflexivity.
  - apply Forall_app. split; [assumption | apply predict_events_net].
Qed.

Lemma count_sampler_app (l1 l2 : list event) :
  count_sampler (l1 ++ l2) = (count_sampler l1 + count_sampler l2)%nat.
Proof. unfold count_sampler. rewrite List.filter_app, length_app. reflexivity. Qed.

Lemma count_sampler_net (net : module) (obs : obs_dict) (evs : list event) :
  Forall (is_net_event net obs) evs -> count_sampler evs = O.
Proof.
  induction 1 as [| e evs He _ IH]; [reflexivity |].
  unfold count_sampler in *. cbn [List.filter].
  destruct He as [-> | [k ->]]; cbn; exact IH.
Qed.

(** ghost: every invocation, returning or raising, is counted once. *)
Lemma sampler_counted (obs : obs_dict) (goal : option obs_dict) (s : policy) :
  sampler_calls (snd (_get_action_trajectory obs goal s)) = S (sampler_calls s).
Proof.
  destruct (sampler_trace obs goal s) as (evs & Htr & Hevs).
  unfold sampler_calls. rewrite Htr.
  rewrite count_sampler_app.
  change (EvSampler obs :: evs) with ([EvSampler obs] ++ evs).
  rewrite count_sampler_app, (count_sampler_net _ _ _ Hevs).
  cbn. lia.
Qed.

(** ** get_action, case by case *)

Lemma set_action_queue_same (s : policy) (q : option (deque tensor1)) :
  action_queue s = q -> set_action_queue q s = s.
Proof. intros <-. destruct s; reflexivity. Qed.

Lemma fields_rollout_static {X} (f : policy -> X) :
  (forall v s, f (set_trace v s) = f s) ->
  (forall v s, f (set_torch_rng v s) = f s) ->
  (forall v s, f (set_noise_scheduler v s) = f s) ->
  rollout_static f.
Proof. intros; repeat split; assumption. Qed.

Ltac static_field := apply fields_rollout_static; intros; reflexivity.

(** Before [reset] there is no queue to take the length of. *)
Lemma get_action_no_queue (obs : obs_dict) (goal : option obs_dict) (s : policy) :
  action_queue s = None -> get_action obs goal s = (Raise TypeError, s).
Proof. intros Hq. unfold get_action. unfold bind at 1. cbn [get]. rewrite Hq. reflexivity. Qed.

(** A non-empty queue: the oldest action is popped; nothing else happens. *)
Lemma get_action_pop (obs : obs_dict) (goal : option obs_dict) (s : policy)
    (n : nat) (a : tensor1) (l : list tensor1) :
  action_queue s = Some (Deque n (a :: l)) ->
  get_action obs goal s = (Ok [a], set_action_queue (Some (Deque n l)) s).
Proof.
  intros Hq. unfold get_action. unfold bind at 1. cbn [get]. rewrite Hq.
  unfold deque_len. cbn [items length].
  destruct (Z.eqb_spec (Z.of_nat (S (length l))) 0) as [Hz | _]; [lia |].
  unfold bind at 1. cbn [ret].
  unfold bind at 1. cbn [get]. rewrite Hq.
  reflexivity.
Qed.

(** An empty queue and a sampler that raises: the exception propagates. *)
Lemma get_action_sampler_raises (obs : obs_dict) (goal : option obs_dict)
    (s s1 : policy) (n : nat) (e : exn) :
  action_queue s = Some (Deque n []) ->
  _get_action_trajectory obs None s = (Raise e, s1) ->
  get_action obs goal s = (Raise e, s1).
Proof.
  intros Hq Hrun. unfold get_action. unfold bind at 1. cbn [get]. rewrite Hq.
  unfold deque_len. cbn [items length]. change (Z.of_nat 0 =? 0) with true. cbv iota.
  unfold bind at 1. unfold bind at 1. rewrite Hrun. reflexivity.
Qed.

(** An empty queue and a sampler that returns: batch element 0 of the
    trajectory is pushed, then the oldest entry is popped. *)
Lemma get_action_refill (obs : obs_dict) (goal : option obs_dict)
    (s s1 : policy) (n : nat) (first : tensor2) (rest : tensor3) :
  action_queue s = Some (Deque n []) ->
  _get_action_trajectory obs None s = (Ok (first :: rest), s1) ->
  get_action obs goal s =
  match items (deque_extend (Deque n []) first) with
  | [] => (Raise IndexError,
           set_action_queue (Some (deque_extend (Deque n []) first)) s1)
  | a :: l => (Ok [a], set_action_queue (Some (Deque n l)) s1)
  end.
Proof.
  intros Hq Hrun.
  pose proof (sampler_keeps action_queue obs None ltac:(static_field) s) as Hkeep.
  rewrite Hrun in Hkeep. cbn [snd] in Hkeep. rewrite Hq in Hkeep.
  unfold get_action. unfold bind at 1. cbn [get]. rewrite Hq.
  unfold deque_len. cbn [items length]. change (Z.of_nat 0 =? 0) with true. cbv iota.
  unfold bind at 1. unfold bind at 1. rewrite Hrun.
  cbn [modify]. rewrite Hkeep. cbn [option_map].
  unfold bind at 1. cbn [get action_queue set_action_queue].
  pose proof (deque_extend_maxlen first (Deque n [])) as Hmax. cbn [maxlen] in Hmax.
  unfold bind at 1. unfold deque_popleft. rewrite Hmax.
  destruct (items (deque_extend (Deque n []) first)) as [| a l]; reflexivity.
Qed.

(** Draining a queue that holds as many actions as there are calls. *)
Lemma get_actions_drain (l : list tensor1) (obss : list obs_dict) (s : policy)
    (n : nat) :
  action_queue s = Some (Deque n l) ->
  length obss = length l ->
  get_actions obss s =
  (Ok (map (fun a => [a]) l), set_action_queue (Some (Deque n [])) s).
Proof.
  revert obss s. induction l as [| a l IH]; intros [| o obss] s Hq Hlen;
    cbn in Hlen; try discriminate.
  - cbn [get_actions map ret]. rewrite set_action_queue_same by exact Hq. reflexivity.
  - cbn [get_actions]. unfold bind at 1.
    rewrite (get_action_pop o None s n a l Hq).
    unfold bind at 1. rewrite (IH obss) by (cbn; congruence).
    reflexivity.
Qed.

Section ShapeLaw.

(** The contract of the scheduler's reverse step that the queue protocol
    relies on: the less noisy sample has the shape of the sample it
    replaces (batch size and timesteps per batch element). *)
Hypothesis scheduler_step_shape :
  forall sch g model_output k sample,
    map (@length tensor1) (fst (scheduler_step sch g model_output k sample))
    = map (@length tensor1) sample.

Lemma denoise_shape (net : module) (cond : features) (ks : list Z) (x : tensor3)
    (s : policy) (naction : tensor3) (s' : policy) :
  denoise net cond ks x s = (Ok naction, s') ->
  map (@length tensor1) naction = map (@length tensor1) x.
Proof.
  revert x s. induction ks as [| k ks IH]; intros x s; cbn [denoise].
  - intros [= <- _]. reflexivity.
  - unfold bind at 1. cbn [log modify].
    unfold bind at 1. cbn [get].
    unfold bind at 1. cbn [get].
    match goal with |- context [scheduler_step ?a ?b ?c k x] =>
      pose proof (scheduler_step_shape a b c k x) as Hstep;
      destruct (scheduler_step a b c k x) as [prev g'] end.
    unfold bind at 1. cbn [modify]. intros Hrun.
    apply IH in Hrun. cbn [fst] in Hstep. congruence.
Qed.

Lemma time_length_map (t : nat) (x y : tensor3) :
  map (@length tensor1) x = map (@length tensor1) y ->
  time_length t y -> time_length t x.
Proof.
  unfold time_length. revert y.
  induction x as [| a x IH]; intros [| b y] Hmap Hy; cbn in Hmap;
    try discriminate; [constructor |].
  injection Hmap as Hab Hrest. inversion Hy; subst.
  constructor; [congruence | eapply IH; eassumption].
Qed.

(** *** When the sampler returns *)

Lemma encode_obs_inv (net : module) (obs : obs_dict) (goal : option obs_dict)
    (s s1 : policy) (obs_features : features) :
  encode_obs net obs goal s = (Ok obs_features, s1) ->
  obs_features = obs_encoder net obs goal /\ f_ndim obs_features = 3.
Proof.
  unfold encode_obs. unfold bind at 1.
  destruct (check_obs_ndim obs s) as [[[] | e] s0]; [| discriminate].
  unfold bind at 1. cbn [log modify]. unfold bind at 1.
  destruct (Z.eqb_spec (f_ndim (obs_encoder net obs goal)) 3) as [H3 | H3];
    cbn [py_assert ret raise]; [| discriminate].
  intros [= <- _]. split; [reflexivity | exact H3].
Qed.

Lemma randn3_inv (b t d : Z) (s s2 : policy) (x : tensor3) :
  randn3 b t d s = (Ok x, s2) ->
  0 <= b /\ 0 <= t /\ length x = Z.to_nat b /\ time_length (Z.to_nat t) x.
Proof.
  intros Hrun.
  destruct ((b <? 0) || (t <? 0) || (d <? 0))%bool eqn:Hneg.
  - rewrite (randn3_raises b t d s Hneg) in Hrun. discriminate.
  - apply orb_false_elim in Hneg as [Hneg Hd].
    apply orb_false_elim in Hneg as [Hb Ht].
    apply Z.ltb_ge in Hb, Ht, Hd.
    destruct (randn3_ok b t d s Hb Ht Hd) as (x' & g & Hrun' & Hlen & Htime).
    rewrite Hrun' in Hrun. injection Hrun as <- _. auto.
Qed.

(** The result of a returning sampler call, traced back to the denoising
    loop it ran. *)
Lemma sampler_inv (obs : obs_dict) (goal : option obs_dict) (s s' : policy)
    (action : tensor3) :
  _get_action_trajectory obs goal s = (Ok action, s') ->
  exists (noisy naction : tensor3) (ks : list Z) (s3 : policy),
    denoise (sampling_net s)
            (flatten1 (obs_encoder (sampling_net s) obs goal)) ks noisy s3
    = (Ok naction, s') /\
    0 <= prediction_horizon (algo_config s) /\
    Z.of_nat (length noisy) = f_shape0 (obs_encoder (sampling_net s) obs goal) /\
    time_length (Z.to_nat (prediction_horizon (algo_config s))) noisy /\
    time_length (Z.to_nat (prediction_horizon (algo_config s))) naction /\
    length naction = length noisy /\
    action = slice_time (observation_horizon (algo_config s) - 1)
                        (observation_horizon (algo_config s) - 1
                         + action_horizon (algo_config s)) naction.
Proof.
  rewrite sampler_unfold.
  destruct (training (nets s)); [discriminate |].
  destruct (inference_steps (algo_config s)) as [n |]; [| discriminate].
  destruct (encode_obs _ obs goal _) as [[obs_features | e] s1] eqn:Henc;
    [| discriminate].
  apply encode_obs_inv in Henc as [-> Hndim].
  destruct (randn3 _ _ _ s1) as [[noisy | e] s2] eqn:Hrand; [| discriminate].
  apply randn3_inv in Hrand as (HB & HTp & Hlen & Htime).
  cbv zeta.
  destruct (denoise _ _ _ noisy _) as [[naction | e] s4] eqn:Hden; [| discriminate].
  intros [= <- <-].
  pose proof (denoise_shape _ _ _ _ _ _ _ Hden) as Hshape.
  eexists noisy, naction, _, _. split; [exact Hden |].
  repeat split; try assumption.
  - rewrite Hlen. apply Z2Nat.id, HB.
  - eapply time_length_map; eassumption.
  - apply (f_equal (@length nat)) in Hshape.
    rewrite !List.length_map in Hshape. exact Hshape.
Qed.

Lemma slice_time_length (lo hi : Z) (t : nat) (x : tensor3) :
  0 <= lo -> lo <= hi -> hi <= Z.of_nat t ->
  time_length t x -> time_length (Z.to_nat (hi - lo)) (slice_time lo hi x).
Proof.
  intros H0 H1 H2 Hx. unfold time_length, slice_time in *.
  apply List.Forall_map. eapply List.Forall_impl; [| exact Hx].
  intros traj Htraj. cbn beta in Htraj |- *. rewrite <- Htraj in H2.
  apply Nat2Z.inj. rewrite (py_slice_length lo hi traj H0 H1 H2). lia.
Qed.

Lemma sampler_ok (obs : obs_dict) (s : policy) :
  1 <= observation_horizon (algo_config s) ->
  0 <= action_horizon (algo_config s) ->
  observation_horizon (algo_config s) - 1 + action_horizon (algo_config s)
    <= prediction_horizon (algo_config s) ->
  sampler_ready s obs = true ->
  exists (first : tensor2) (rest : tensor3) (s' : policy),
    _get_action_trajectory obs None s = (Ok (first :: rest), s') /\
    length first = Z.to_nat (action_horizon (algo_config s)).
Proof.
  intros HTo HTa Hwin Hready. unfold sampler_ready in Hready.
  repeat (apply andb_prop in Hready as [Hready ?]).
  apply negb_true_iff in Hready.
  match goal with H : (_ =? 3) = true |- _ => apply Z.eqb_eq in H; rename H into Hndim end.
  match goal with H : (1 <=? _) = true |- _ => apply Z.leb_le in H; rename H into HB end.
  match goal with H : (0 <=? _) = true |- _ => apply Z.leb_le in H; rename H into Hdim end.
  match goal with H : obs_ranks_ok _ _ = true |- _ => rename H into Hranks end.
  match goal with H : (_ || _)%bool = true |- _ => rename H into Hvariant end.
  destruct (_get_action_trajectory obs None s) as [r s'] eqn:Hrun.
  assert (Hok : exists action, r = Ok action).
  { rewrite sampler_unfold in Hrun. rewrite Hready in Hrun.
    unfold inference_steps in Hrun.
    assert (Hn : exists n, (if ddpm_enabled (algo_config s)
                            then Some (ddpm_num_inference_timesteps (algo_config s))
                            else if ddim_enabled (algo_config s)
                                 then Some (ddim_num_inference_timesteps (algo_config s))
                                 else None) = Some n).
    { destruct (ddpm_enabled (algo_config s)); [eauto |].
      destruct (ddim_enabled (algo_config s)); [eauto | discriminate]. }
    destruct Hn as [n Hn]. rewrite Hn in Hrun.
    rewrite (encode_obs_ok _ obs None (entered obs s) Hranks Hndim) in Hrun.
    match type of Hrun with context [randn3 ?b ?t ?d ?st] =>
      destruct (randn3_ok b t d st ltac:(lia) ltac:(lia) Hdim)
        as (x & g & Hrand & _) end.
    rewrite Hrand in Hrun. cbv zeta in Hrun.
    match type of Hrun with context [denoise ?n ?c ?ks ?x ?st] =>
      destruct (denoise_ok n c ks x st) as (naction & s4 & Hden & _) end.
    rewrite Hden in Hrun. injection Hrun as <- _. eauto. }
  destruct Hok as [action ->].
  destruct (sampler_inv obs None s s' action Hrun)
    as (noisy & naction & ks & s3 & _ & HTp & HlenB & _ & Htime & Hlen & ->).
  destruct naction as [| first0 rest0].
  { cbn in Hlen. lia. }
  cbn [slice_time map]. eexists _, _, s'. split; [reflexivity |].
  inversion Htime as [| ? ? Hfirst _]; subst.
  pose proof (py_slice_length (observation_horizon (algo_config s) - 1)
                (observation_horizon (algo_config s) - 1 + action_horizon (algo_config s))
                first0 ltac:(lia) ltac:(lia) ltac:(lia)).
  lia.
Qed.

(** ** reset *)

Lemma reset_ok (s : policy) :
  0 <= observation_horizon (algo_config s) ->
  0 <= action_horizon (algo_config s) ->
  reset s =
  (Ok tt,
   set_action_queue (Some (Deque (Z.to_nat (action_horizon (algo_config s))) []))
     (set_obs_queue (Some (Deque (Z.to_nat (observation_horizon (algo_config s))) []))
        s)).
Proof.
  intros HTo HTa. unfold reset, deque_new.
  unfold bind at 1. cbn [get]. unfold bind at 1. cbn [get].
  unfold bind at 1.
  destruct (Z.ltb_spec (observation_horizon (algo_config s)) 0); [lia |].
  cbn [lift]. unfold bind at 1.
  destruct (Z.ltb_spec (action_horizon (algo_config s)) 0); [lia |].
  reflexivity.
Qed.

Lemma reset_inv (s : policy) :
  fst (reset s) = Ok tt ->
  0 <= observation_horizon (algo_config s) /\ 0 <= action_horizon (algo_config s).
Proof.
  unfold reset, deque_new.
  unfold bind at 1. cbn [get]. unfold bind at 1. cbn [get].
  unfold bind at 1.
  destruct (Z.ltb_spec (observation_horizon (algo_config s)) 0);
    cbn [lift]; [discriminate |].
  unfold bind at 1.
  destruct (Z.ltb_spec (action_horizon (algo_config s)) 0);
    cbn [lift]; [discriminate |].
  intros _. split; assumption.
Qed.

(** ** One refill serves [Ta] calls *)

Lemma refill_and_drain (s0 : policy) (o1 : obs_dict) (obss : list obs_dict) :
  horizons_ok (algo_config s0) ->
  action_queue s0 = Some (Deque (Z.to_nat (action_horizon (algo_config s0))) []) ->
  sampler_ready s0 o1 = true ->
  Z.of_nat (length (o1 :: obss)) = action_horizon (algo_config s0) ->
  exists (first : tensor2) (rest : tensor3) (s1 : policy),
    _get_action_trajectory o1 None s0 = (Ok (first :: rest), s1) /\
    length first = Z.to_nat (action_horizon (algo_config s0)) /\
    get_actions (o1 :: obss) s0 =
    (Ok (map (fun a => [a]) first),
     set_action_queue
       (Some (Deque (Z.to_nat (action_horizon (algo_config s0))) [])) s1).
Proof.
  intros (HTo & HTa & Hwin) Hq Hready Hcalls.
  destruct (sampler_ok o1 s0 HTo ltac:(lia) Hwin Hready)
    as (first & rest & s1 & Hrun & Hlen).
  exists first, rest, s1. split; [exact Hrun |]. split; [exact Hlen |].
  set (n := Z.to_nat (action_horizon (algo_config s0))) in *.
  cbn [get_actions]. unfold bind at 1.
  rewrite (get_action_refill o1 None s0 s1 n first rest Hq Hrun).
  rewrite (deque_extend_fits first (Deque n [])) by (cbn [items maxlen length]; lia).
  cbn [items maxlen app].
  destruct first as [| a l]; [cbn in Hlen, Hcalls; lia |].
  unfold bind at 1.
  rewrite (get_actions_drain l obss _ n) by (cbn in *; congruence || lia).
  reflexivity.
Qed.

Lemma get_action_sampler_no_batch (obs : obs_dict) (goal : option obs_dict)
    (s s1 : policy) (n : nat) :
  action_queue s = Some (Deque n []) ->
  _get_action_trajectory obs None s = (Ok [], s1) ->
  get_action obs goal s = (Raise IndexError, s1).
Proof.
  intros Hq Hrun. unfold get_action. unfold bind at 1. cbn [get]. rewrite Hq.
  unfold deque_len. cbn [items length]. change (Z.of_nat 0 =? 0) with true. cbv iota.
  unfold bind at 1. unfold bind at 1. rewrite Hrun. reflexivity.
Qed.

(** ghost: a call on an empty queue invokes the sampler exactly once,
    whatever the sampler does. *)
Lemma get_action_empty_counted (obs : obs_dict) (goal : option obs_dict)
    (s : policy) (n : nat) :
  action_queue s = Some (Deque n []) ->
  sampler_calls (snd (get_action obs goal s)) = S (sampler_calls s).
Proof.
  intros Hq. pose proof (sampler_counted obs None s) as Hcount.
  destruct (_get_action_trajectory obs None s) as [[[| first rest] | e] s1] eqn:Hrun;
    cbn [snd] in Hcount.
  - rewrite (get_action_sampler_no_batch obs goal s s1 n Hq Hrun). exact Hcount.
  - rewrite (get_action_refill obs goal s s1 n first rest Hq Hrun).
    destruct (items (deque_extend (Deque n []) first)); exact Hcount.
  - rewrite (get_action_sampler_raises obs goal s s1 n e Hq Hrun). exact Hcount.
Qed.

(** ghost: a call on a non-empty queue does not invoke the sampler. *)
Lemma get_action_pop_counted (obs : obs_dict) (goal : option obs_dict)
    (s : policy) (n : nat) (a : tensor1) (l : list tensor1) :
  action_queue s = Some (Deque n (a :: l)) ->
  sampler_calls (snd (get_action obs goal s)) = sampler_calls s.
Proof. intros Hq. rewrite (get_action_pop obs goal s n a l Hq). reflexivity. Qed.

(** C2. In an episode started by [reset], under the horizon invariant
    [Tp >= To - 1 + Ta] (with positive horizons and a sampler that is ready
    to run), [Ta] successive [get_action] calls all return and invoke the
    sampler exactly once; the call number [Ta + 1] invokes it a second
    time. *)
Theorem sampler_invoked_once_per_Ta_calls
    (s : policy) (o1 : obs_dict) (obss : list obs_dict) (o_next : obs_dict) :
  horizons_ok (algo_config s) ->
  sampler_ready s o1 = true ->
  Z.of_nat (length (o1 :: obss)) = action_horizon (algo_config s) ->
  let s0 := snd (reset s) in
  let s_Ta := snd (get_actions (o1 :: obss) s0) in
  is_ok (fst (get_actions (o1 :: obss) s0)) = true /\
  sampler_calls s0 = sampler_calls s /\
  sampler_calls (snd (get_action o1 None s0)) = S (sampler_calls s) /\
  sampler_calls s_Ta = S (sampler_calls s) /\
  sampler_calls (snd (get_action o_next None s_Ta)) = S (S (sampler_calls s)).
Proof.
  intros Hcfg Hready Hcalls s0 s_Ta. subst s_Ta s0.
  pose proof Hcfg as (HTo & HTa & Hwin).
  rewrite (reset_ok s) by lia. cbn [snd].
  set (s0 := set_action_queue _ _).
  assert (Hq : action_queue s0
               = Some (Deque (Z.to_nat (action_horizon (algo_config s0))) []))
    by reflexivity.
  destruct (refill_and_drain s0 o1 obss Hcfg Hq Hready Hcalls)
    as (first & rest & s1 & Hrun & Hlen & Hall).
  rewrite Hall. cbn [fst snd is_ok].
  pose proof (sampler_counted o1 None s0) as Hcount.
  rewrite Hrun in Hcount. cbn [snd] in Hcount.
  repeat split.
  - rewrite (get_action_empty_counted o1 None s0 _ Hq). reflexivity.
  - exact Hcount.
  - erewrite get_action_empty_counted by reflexivity. cbn. f_equal. exact Hcount.
Qed.

(** C3. In an episode started by [reset] (same conditions as for C2), the
    actions returned by [Ta] successive [get_action] calls are, element by
    element and in order, the first [Ta] entries of the trajectory that the
    sampler produced for the observation of the first call; that trajectory
    has exactly [Ta] entries, each is returned once, and the queue is empty
    afterwards. *)
Theorem fifo_fidelity (s : policy) (o1 : obs_dict) (obss : list obs_dict) :
  horizons_ok (algo_config s) ->
  sampler_ready s o1 = true ->
  Z.of_nat (length (o1 :: obss)) = action_horizon (algo_config s) ->
  let s0 := snd (reset s) in
  let Ta := Z.to_nat (action_horizon (algo_config s)) in
  exists (traj : tensor3) (s1 s_end : policy),
    _get_action_trajectory o1 None s0 = (Ok traj, s1) /\
    length (hd [] traj) = Ta /\
    get_actions (o1 :: obss) s0
    = (Ok (map (fun a => [a]) (firstn Ta (hd [] traj))), s_end) /\
    (forall i : nat, (i < Ta)%nat ->
       nth_error (map (fun a => [a]) (firstn Ta (hd [] traj))) i
       = option_map (fun a => [a]) (nth_error (hd [] traj) i)) /\
    action_queue s_end = Some (Deque Ta []).
Proof.
  intros Hcfg Hready Hcalls s0 Ta. subst s0 Ta.
  pose proof Hcfg as (HTo & HTa & Hwin).
  rewrite (reset_ok s) by lia. cbn [snd].
  set (s0 := set_action_queue _ _).
  assert (Hq : action_queue s0
               = Some (Deque (Z.to_nat (action_horizon (algo_config s0))) []))
    by reflexivity.
  destruct (refill_and_drain s0 o1 obss Hcfg Hq Hready Hcalls)
    as (first & rest & s1 & Hrun & Hlen & Hall).
  change (algo_config s0) with (algo_config s) in *.
  eexists (first :: rest), s1, _. cbn [hd].
  rewrite firstn_all2 by lia.
  repeat split; try eassumption.
  intros i _. apply nth_error_map.
Qed.

End ShapeLaw.

(** ** Non-interference *)

Lemma commutes_ret {A} T (a : A) : commutes T (ret a).
Proof. intros s. reflexivity. Qed.

Lemma commutes_raise {A} T (e : exn) : commutes T (@raise _ A e).
Proof. intros s. reflexivity. Qed.

Lemma commutes_lift {A} T (r : result A) : commutes T (lift r).
Proof. intros s. reflexivity. Qed.

Lemma commutes_py_assert T b site : commutes T (py_assert b site).
Proof. intros s. destruct b; reflexivity. Qed.

Lemma commutes_get {A} T (h : policy -> A) :
  (forall s, h (T s) = h s) -> commutes T (get h).
Proof. intros Hh s. unfold get. rewrite Hh. reflexivity. Qed.

Lemma commutes_modify T (h : policy -> policy) :
  (forall s, h (T s) = T (h s)) -> commutes T (modify h).
Proof. intros Hh s. unfold modify. rewrite Hh. reflexivity. Qed.

Lemma commutes_bind {A B} T (m : M A) (k : A -> M B) :
  commutes T m -> (forall a, commutes T (k a)) -> commutes T (bind m k).
Proof.
  intros Hm Hk s. unfold bind. rewrite (Hm s).
  destruct (m s) as [[a | e] s1]; cbn [fst snd]; [apply Hk | reflexivity].
Qed.

Lemma commutes_for_each {A} T (xs : list A) (body : A -> M unit) :
  (forall x, commutes T (body x)) -> commutes T (for_each xs body).
Proof.
  intros Hb. induction xs as [| x xs IH]; cbn [for_each].
  - apply commutes_ret.
  - apply commutes_bind; [apply Hb | intros _; exact IH].
Qed.

Lemma commutes_log T (e : event) : rollout_blind T -> commutes T (log e).
Proof.
  intros (Htr & _ & _ & _ & Hset & _). unfold log.
  apply commutes_modify. intros s. rewrite Htr. apply Hset.
Qed.

Ltac commutes_step :=
  lazymatch goal with
  | |- commutes _ (bind _ _) => apply commutes_bind; [| intros ?]
  | |- commutes _ (ret _) => apply commutes_ret
  | |- commutes _ (raise _) => apply commutes_raise
  | |- commutes _ (lift _) => apply commutes_lift
  | |- commutes _ (py_assert _ _) => apply commutes_py_assert
  | |- commutes _ (log _) => apply commutes_log; assumption
  | |- commutes _ (for_each _ _) => apply commutes_for_each; intros ?
  | |- commutes _ (get _) => apply commutes_get
  | |- commutes _ (modify _) => apply commutes_modify
  | |- commutes _ (match ?x with _ => _ end) => destruct x
  end.

Lemma encode_obs_commutes T net obs goal :
  rollout_blind T -> commutes T (encode_obs net obs goal).
Proof.
  intros HT. pose proof HT as (Htr & Hrng & Hsch & Hshapes & Hst & Hsr & Hss).
  unfold encode_obs, check_obs_ndim.
  repeat commutes_step. exact Hshapes.
Qed.

Lemma randn3_commutes T b t d : rollout_blind T -> commutes T (randn3 b t d).
Proof.
  intros HT. pose proof HT as (Htr & Hrng & Hsch & Hshapes & Hst & Hsr & Hss).
  unfold randn3. repeat commutes_step; [exact Hrng | apply Hsr].
Qed.

Lemma denoise_commutes T net cond ks x :
  rollout_blind T -> commutes T (denoise net cond ks x).
Proof.
  intros HT. pose proof HT as (Htr & Hrng & Hsch & Hshapes & Hst & Hsr & Hss).
  revert x. induction ks as [| k ks IH]; intros x; cbn [denoise].
  - apply commutes_ret.
  - repeat commutes_step; [exact Hsch | exact Hrng | apply Hsr | apply IH].
Qed.

Lemma sampler_commutes T obs goal :
  rollout_blind T ->
  (forall s, nets (T s) = nets s) ->
  (forall s, ema (T s) = ema s) ->
  (forall s, algo_config (T s) = algo_config s) ->
  (forall s, ac_dim (T s) = ac_dim s) ->
  commutes T (_get_action_trajectory obs goal).
Proof.
  intros HT Hnets Hema Hcfg Hdim.
  pose proof HT as (Htr & Hrng & Hsch & Hshapes & Hst & Hsr & Hss).
  unfold _get_action_trajectory.
  repeat first
    [ apply encode_obs_commutes; assumption
    | apply randn3_commutes; assumption
    | apply denoise_commutes; assumption
    | commutes_step ];
    intros s; rewrite ?Hnets, ?Hema, ?Hcfg, ?Hdim, ?Hsch, ?Hss; reflexivity.
Qed.

Lemma set_obs_queue_blind (q : option (deque obs_dict)) :
  rollout_blind (set_obs_queue q).
Proof. repeat split. Qed.

(** [get_action] never reads the observation queue. *)
Lemma get_action_ignores_obs_queue (q : option (deque obs_dict))
    (obs : obs_dict) (goal : option obs_dict) :
  commutes (set_obs_queue q) (get_action obs goal).
Proof.
  pose proof (set_obs_queue_blind q) as HT.
  unfold get_action.
  repeat first
    [ apply sampler_commutes; [assumption | reflexivity ..]
    | commutes_step ];
    intros s; reflexivity.
Qed.



(** ** Episodes *)

(** What [get_action] does to the action queue, whatever the outcome. *)
Lemma get_action_queue (obs : obs_dict) (goal : option obs_dict) (s : policy)
    (d : deque tensor1) :
  action_queue s = Some d -> deque_wf d ->
  exists d',
    action_queue (snd (get_action obs goal s)) = Some d' /\
    maxlen d' = maxlen d /\ deque_wf d'.
Proof.
  intros Hq Hwf. destruct d as [n [| a l]].
  - pose proof (sampler_keeps action_queue obs None ltac:(static_field) s) as Hkeep.
    destruct (_get_action_trajectory obs None s) as [[[| first rest] | e] s1] eqn:Hrun;
      cbn [snd] in Hkeep.
    + rewrite (get_action_sampler_no_batch obs goal s s1 n Hq Hrun). cbn [snd].
      exists (Deque n []). rewrite Hkeep. auto.
    + rewrite (get_action_refill obs goal s s1 n first rest Hq Hrun).
      pose proof (deque_extend_wf first (Deque n []) Hwf) as Hwf'.
      pose proof (deque_extend_maxlen first (Deque n [])) as Hmax.
      destruct (deque_extend (Deque n []) first) as [n' items'] eqn:Hext.
      cbn [maxlen items] in *. subst n'.
      destruct items' as [| a l]; cbn [snd action_queue set_action_queue].
      * exists (Deque n []). auto.
      * exists (Deque n l). repeat split. unfold deque_wf in *. cbn in *. lia.
    + rewrite (get_action_sampler_raises obs goal s s1 n e Hq Hrun). cbn [snd].
      exists (Deque n []). rewrite Hkeep. auto.
  - rewrite (get_action_pop obs goal s n a l Hq). cbn [snd action_queue set_action_queue].
    exists (Deque n l). repeat split. unfold deque_wf in *. cbn in *. lia.
Qed.

Lemma in_episode_invariant (s : policy) : in_episode s -> queue_invariant s.
Proof.
  induction 1 as [s Hreset | s obs goal _ IH].
  - apply reset_inv in Hreset as [HTo HTa].
    rewrite (reset_ok s HTo HTa). cbn [snd].
    repeat split; try assumption.
    eexists. repeat split. unfold deque_wf. cbn. lia.
  - destruct IH as (HTo & HTa & Hobs & d & Hq & Hmax & Hwf).
    pose proof (get_action_keeps algo_config obs goal ltac:(static_field)
                  ltac:(reflexivity) s) as Hcfg.
    pose proof (get_action_keeps obs_queue obs goal ltac:(static_field)
                  ltac:(reflexivity) s) as Hoq.
    destruct (get_action_queue obs goal s d Hq Hwf) as (d' & Hq' & Hmax' & Hwf').
    unfold queue_invariant. rewrite Hcfg, Hoq.
    repeat split; try assumption.
    exists d'. repeat split; [assumption | congruence | assumption].
Qed.




(** What one [get_action] call adds to the trace: nothing, or one sampler
    invocation on the call's own observation. *)
Lemma get_action_trace (obs : obs_dict) (goal : option obs_dict) (s : policy) :
  exists evs,
    trace (snd (get_action obs goal s)) = trace s ++ evs /\
    (evs = [] \/
     exists evs', evs = EvSampler obs :: evs' /\
                  Forall (is_net_event (sampling_net s) obs) evs').
Proof.
  destruct (action_queue s) as [[n [| a l]] |] eqn:Hq.
  - destruct (sampler_trace obs None s) as (evs' & Htr & Hevs).
    exists (EvSampler obs :: evs'). split; [| right; eauto].
    destruct (_get_action_trajectory obs None s) as [[[| first rest] | e] s1] eqn:Hrun;
      cbn [snd] in Htr.
    + rewrite (get_action_sampler_no_batch obs goal s s1 n Hq Hrun). exact Htr.
    + rewrite (get_action_refill obs goal s s1 n first rest Hq Hrun).
      destruct (items (deque_extend (Deque n []) first)); exact Htr.
    + rewrite (get_action_sampler_raises obs goal s s1 n e Hq Hrun). exact Htr.
  - exists []. rewrite (get_action_pop obs goal s n a l Hq).
    cbn. rewrite app_nil_r. auto.
  - exists []. rewrite (get_action_no_queue obs goal s Hq).
    cbn. rewrite app_nil_r. auto.
Qed.

(** C10. The observation queue is dead state.  [reset] creates it empty
    with capacity [To]; a [get_action] call leaves it as it is (no push, no
    pop) and its outcome does not depend on it (no read); the sampler, when
    invoked, is invoked on the call's own [obs_dict] and encodes exactly
    that; so the queue is empty in every state of an episode. *)
Theorem obs_queue_is_dead_state (s : policy) (obs : obs_dict)
    (goal : option obs_dict) :
  (fst (reset s) = Ok tt ->
   obs_queue (snd (reset s))
   = Some (Deque (Z.to_nat (observation_horizon (algo_config s))) [])) /\
  obs_queue (snd (get_action obs goal s)) = obs_queue s /\
  (forall q : option (deque obs_dict),
     get_action obs goal (set_obs_queue q s)
     = (fst (get_action obs goal s), set_obs_queue q (snd (get_action obs goal s)))) /\
  (exists evs,
     trace (snd (get_action obs goal s)) = trace s ++ evs /\
     (evs = [] \/
      exists evs', evs = EvSampler obs :: evs' /\
                   Forall (is_net_event (sampling_net s) obs) evs')) /\
  (in_episode s ->
   obs_queue s = Some (Deque (Z.to_nat (observation_horizon (algo_config s))) [])).
Proof.
  split; [| split; [| split; [| split]]].
  - intros Hreset. apply reset_inv in Hreset as [HTo HTa].
    rewrite (reset_ok s HTo HTa). reflexivity.
  - apply (get_action_keeps obs_queue obs goal); [static_field | reflexivity].
  - intros q. apply get_action_ignores_obs_queue.
  - apply get_action_trace.
  - intros Hep. apply in_episode_invariant in Hep. apply Hep.
Qed.

(** C8. A sampler invocation while the networks are in training mode fails
    at once with the assertion of its first line: nothing has been encoded,
    drawn or denoised, and the state is the one before the call (up to the
    ghost record of the invocation).  In evaluation mode that assertion
    is never the outcome. *)
Theorem sampler_asserts_eval_mode (s : policy) (obs : obs_dict)
    (goal : option obs_dict) :
  (training (nets s) = true ->
   _get_action_trajectory obs goal s
   = (Raise (AssertionError NetsTraining), set_trace (trace s ++ [EvSampler obs]) s)) /\
  (training (nets s) = false ->
   fst (_get_action_trajectory obs goal s) <> Raise (AssertionError NetsTraining)).
Proof.
  rewrite sampler_unfold. split; intros Htr; rewrite Htr; [reflexivity |].
  destruct (inference_steps (algo_config s)) as [n |]; [| discriminate].
  unfold encode_obs. unfold bind at 1.
  assert (Hchk : forall st r st', check_obs_ndim obs st = (Raise r, st') ->
                                  r <> AssertionError NetsTraining).
  { intros st r st'. unfold check_obs_ndim. unfold bind at 1. cbn [get].
    generalize (obs_shapes st) as shapes.
    induction shapes as [| ks shapes IH]; cbn [for_each]; [discriminate |].
    unfold bind at 1.
    destruct (obs !! fst ks) as [t |]; [| intros [= <- _]; discriminate].
    destruct (ot_ndim t - 2 =? Z.of_nat (length (snd ks)));
      cbn [py_assert ret raise]; [exact IH | intros [= <- _]; discriminate]. }
  destruct (check_obs_ndim obs (entered obs s)) as [[[] | e] s0] eqn:Hc.
  2: { cbn [fst]. intros [= ->]. eapply Hchk; [exact Hc | reflexivity]. }
  unfold bind at 1. cbn [log modify]. unfold bind at 1.
  destruct (f_ndim (obs_encoder (sampling_net s) obs goal) =? 3);
    cbn [py_assert ret raise]; [| discriminate].
  match goal with |- context [randn3 ?b ?t ?d ?st] =>
    destruct ((b <? 0) || (t <? 0) || (d <? 0))%bool eqn:Hneg;
    [ rewrite (randn3_raises b t d st Hneg); discriminate |];
    apply orb_false_elim in Hneg as [Hneg Hd];
    apply orb_false_elim in Hneg as [Hb Ht];
    apply Z.ltb_ge in Hb, Ht, Hd;
    destruct (randn3_ok b t d st Hb Ht Hd) as (x & g & -> & _)
  end.
  cbv zeta.
  match goal with |- context [denoise ?nn ?c ?ks ?x ?st] =>
    destruct (denoise_ok nn c ks x st) as (naction & s4 & -> & _) end.
  discriminate.
Qed.

(** ** The one-time action range check *)

Lemma process_batch_unfold (b : batch) (s : policy) :
  process_batch_for_training b s =
  match slice_obs (observation_horizon (algo_config s)) (b_obs b) with
  | Raise e => (Raise e, s)
  | Ok obs =>
      if action_check_done s then (Ok (windowed s b obs), s)
      else if all_in_range
                (slice_time 0 (prediction_horizon (algo_config s)) (b_actions b))
           then (Ok (windowed s b obs), set_action_check_done true s)
           else (Raise (ValueError actions_range_msg), s)
  end.
Proof.
  unfold process_batch_for_training, windowed, to_float_device.
  unfold bind at 1. cbn [get]. unfold bind at 1. cbn [get].
  unfold bind at 1.
  destruct (slice_obs _ (b_obs b)) as [obs | e]; cbn [lift]; [| reflexivity].
  unfold bind at 1. cbn [get]. unfold bind at 1.
  destruct (action_check_done s); cbn [negb ret]; [reflexivity |].
  destruct (all_in_range _); reflexivity.
Qed.

Lemma forallb_false_Exists {A} (p : A -> bool) (P : A -> Prop) (l : list A) :
  (forall x, p x = false <-> P x) -> forallb p l = false <-> Exists P l.
Proof.
  intros Hp. induction l as [| x l IH]; cbn [forallb].
  - split; [discriminate | intros H; inversion H].
  - rewrite andb_false_iff, Hp, IH. split.
    + intros [H | H]; [apply Exists_cons_hd | apply Exists_cons_tl]; exact H.
    + intros H. inversion H; auto.
Qed.

Lemma all_in_range_false (actions : tensor3) :
  all_in_range actions = false <-> some_out_of_range actions.
Proof.
  unfold all_in_range, some_out_of_range.
  apply forallb_false_Exists. intros traj.
  apply forallb_false_Exists. intros row.
  apply forallb_false_Exists. intros a. reflexivity.
Qed.

(** A run starts with the check pending: [_create_networks] clears the
    flag. *)
Lemma create_networks_check_pending (s : policy) :
  fst (_create_networks s) = Ok tt ->
  action_check_done (snd (_create_networks s)) = false.
Proof.
  unfold _create_networks, bind, get, modify, ret, raise.
  destruct (ddpm_enabled (algo_config s)); [reflexivity |].
  destruct (ddim_enabled (algo_config s)); [reflexivity | discriminate].
Qed.

(** C4 (amended). On the first training batch (no batch has passed the
    check yet), with observation tensors of rank three or more: if some
    action value within the first [Tp] timesteps of the batch lies outside
    [[-1, 1]], [process_batch_for_training] raises the range ValueError
    and changes nothing; the training step that would follow is not run, so
    the networks, the optimizers and the EMA model are as before and no
    gradient step is recorded. *)
Theorem out_of_range_first_batch_rejected
    (s : policy) (b : batch) (epoch : Z) (validate : bool) (obs : obs_dict) :
  action_check_done s = false ->
  slice_obs (observation_horizon (algo_config s)) (b_obs b) = Ok obs ->
  some_out_of_range
    (slice_time 0 (prediction_horizon (algo_config s)) (b_actions b)) ->
  process_batch_for_training b s = (Raise (ValueError actions_range_msg), s) /\
  train_step b epoch validate s = (Raise (ValueError actions_range_msg), s) /\
  nets (snd (train_step b epoch validate s)) = nets s /\
  optimizers (snd (train_step b epoch validate s)) = optimizers s /\
  ema (snd (train_step b epoch validate s)) = ema s /\
  ~ In EvBackprop (skipn (length (trace s)) (trace (snd (train_step b epoch validate s)))).
Proof.
  intros Hfirst Hobs Hout. apply all_in_range_false in Hout.
  assert (Hproc : process_batch_for_training b s
                  = (Raise (ValueError actions_range_msg), s)).
  { rewrite process_batch_unfold, Hobs, Hfirst, Hout. reflexivity. }
  assert (Hstep : train_step b epoch validate s
                  = (Raise (ValueError actions_range_msg), s)).
  { unfold train_step. unfold bind at 1. rewrite Hproc. reflexivity. }
  rewrite Hstep. cbn [snd].
  repeat split; try assumption.
  rewrite skipn_all. intros [].
Qed.

(** C5. Once a batch has passed the range check the flag is set, and with
    the flag set [process_batch_for_training] makes no range check: the
    outcome is the windowed batch (or the IndexError of an observation
    tensor of rank below three), never the range ValueError, whatever the
    action values are, and the state (the flag with it) stays as it is. *)
Theorem range_check_runs_once
    (s0 s : policy) (b0 b : batch) (input_batch0 : batch) :
  process_batch_for_training b0 s0 = (Ok input_batch0, s) ->
  action_check_done s = true /\
  process_batch_for_training b s
  = (match slice_obs (observation_horizon (algo_config s)) (b_obs b) with
     | Ok obs => Ok (windowed s b obs)
     | Raise e => Raise e
     end, s) /\
  (forall msg, fst (process_batch_for_training b s) <> Raise (ValueError msg)) /\
  action_check_done (snd (process_batch_for_training b s)) = true.
Proof.
  intros Hpassed.
  assert (Hflag : action_check_done s = true).
  { rewrite process_batch_unfold in Hpassed.
    destruct (slice_obs _ (b_obs b0)) as [obs0 | e]; [| discriminate].
    destruct (action_check_done s0) eqn:Hdone.
    - injection Hpassed as _ <-. exact Hdone.
    - destruct (all_in_range _); [| discriminate].
      injection Hpassed as _ <-. reflexivity. }
  split; [exact Hflag |].
  rewrite process_batch_unfold, Hflag.
  destruct (slice_obs _ (b_obs b)) as [obs | e] eqn:Hobs; cbn [fst snd].
  - repeat split; [discriminate | exact Hflag].
  - repeat split; [| exact Hflag].
    intros msg [= ->]. unfold slice_obs in Hobs.
    destruct (forallb _ _); discriminate.
Qed.

Lemma randint1_keeps {X} (f : policy -> X) lo hi b :
  (forall v s, f (set_torch_rng v s) = f s) -> keeps f (randint1 lo hi b).
Proof. intros Hr. unfold randint1. repeat keeps_step. apply Hr. Qed.

(** A training step does not touch the flag of the range check. *)
Lemma train_on_batch_keeps_flag (b : batch) (epoch : Z) (validate : bool) :
  keeps action_check_done (train_on_batch b epoch validate).
Proof.
  assert (Hf : rollout_static action_check_done) by (repeat split).
  pose proof Hf as (Ht & Hr & Hs).
  unfold train_on_batch.
  repeat first
    [ apply encode_obs_keeps; assumption
    | apply randn3_keeps; assumption
    | apply randint1_keeps; assumption
    | keeps_step ]; reflexivity.
Qed.

(** Once set, the flag survives whole training steps, whatever their
    outcome. *)
Lemma range_check_stays_done (b : batch) (epoch : Z) (validate : bool) (s : policy) :
  action_check_done s = true ->
  action_check_done (snd (train_step b epoch validate s)) = true.
Proof.
  intros Hflag. unfold train_step. unfold bind.
  rewrite process_batch_unfold, Hflag.
  destruct (slice_obs _ (b_obs b)) as [obs | e]; cbn [snd]; [| exact Hflag].
  rewrite train_on_batch_keeps_flag. exact Hflag.
Qed.

(** ** Checkpoints *)

Lemma k_opt_lr : k_opt <> k_lr.
Proof. discriminate. Qed.

Lemma with_defaults_missing_optimizers (md : gmap string ckpt_val) :
  md !! k_opt = None ->
  with_defaults (<[k_opt := VDict []]> md) = with_defaults md.
Proof.
  intros Hmiss. unfold with_defaults. fold k_opt k_lr. f_equal.
  unfold default_key. rewrite Hmiss, lookup_insert_eq. reflexivity.
Qed.

Lemma with_defaults_missing_lr_schedulers (md : gmap string ckpt_val) :
  md !! k_lr = None ->
  with_defaults (<[k_lr := VDict []]> md) = with_defaults md.
Proof.
  intros Hmiss. unfold with_defaults. fold k_opt k_lr.
  pose proof k_opt_lr as Hne.
  assert (Hne' : k_lr <> k_opt) by congruence.
  unfold default_key at 2 4.
  rewrite (lookup_insert_ne md k_lr k_opt) by exact Hne'.
  destruct (md !! k_opt) as [v |] eqn:Hopt; unfold default_key.
  - rewrite lookup_insert_eq, Hmiss. reflexivity.
  - rewrite (lookup_insert_ne _ k_opt k_lr) by exact Hne.
    rewrite lookup_insert_eq.
    rewrite (lookup_insert_ne md k_opt k_lr) by exact Hne.
    rewrite Hmiss. apply insert_insert_ne, Hne.
Qed.

Lemma with_defaults_lookup (md : gmap string ckpt_val) (k : string) :
  k <> k_opt -> k <> k_lr -> with_defaults md !! k = md !! k.
Proof.
  intros Hk1 Hk2. unfold with_defaults. fold k_opt k_lr.
  assert (Hopt : default_key k_opt md !! k = md !! k).
  { unfold default_key. destruct (md !! k_opt); [reflexivity |].
    apply lookup_insert_ne. congruence. }
  rewrite <- Hopt. unfold default_key at 1.
  destruct (default_key k_opt md !! k_lr); [reflexivity |].
  apply lookup_insert_ne. congruence.
Qed.

Lemma with_defaults_both_missing (md : gmap string ckpt_val) :
  md !! k_opt = None -> md !! k_lr = None ->
  with_defaults md !! k_opt = Some (VDict []) /\
  with_defaults md !! k_lr = Some (VDict []).
Proof.
  intros Hopt Hlr. unfold with_defaults. fold k_opt k_lr.
  pose proof k_opt_lr as Hne.
  assert (Hd : default_key k_opt md = <[k_opt := VDict []]> md)
    by (unfold default_key; rewrite Hopt; reflexivity).
  rewrite Hd. unfold default_key.
  rewrite (lookup_insert_ne md k_opt k_lr) by exact Hne. rewrite Hlr.
  split.
  - rewrite lookup_insert_ne by congruence. apply lookup_insert_eq.
  - apply lookup_insert_eq.
Qed.

Lemma deserialize_ema_keeps {X} (f : policy -> X) (md : gmap string ckpt_val) :
  (forall v s, f (set_ema v s) = f s) -> keeps f (deserialize_ema md).
Proof.
  intros He. unfold deserialize_ema, as_state_dict.
  repeat keeps_step; apply He.
Qed.

Lemma deserialize_optimizers_keeps {X} (f : policy -> X) (md : gmap string ckpt_val) :
  (forall v s, f (set_optimizers v s) = f s) ->
  (forall v s, f (set_lr_schedulers v s) = f s) ->
  keeps f (deserialize_optimizers md).
Proof.
  intros Ho Hl.
  unfold deserialize_optimizers, as_dict, load_optimizer, load_lr_scheduler.
  repeat keeps_step; first [apply Ho | apply Hl].
Qed.

(** What [serialize] saves: the four keys of the checkpoint format. *)
Lemma serialize_keys (s : policy) :
  serialize s !! "nets"%string = Some (VStateDict (weights (nets s))) /\
  (exists d, serialize s !! "optimizers"%string = Some (VDict d)) /\
  (exists d, serialize s !! "lr_schedulers"%string = Some (VDict d)) /\
  serialize s !! "ema"%string
  = Some (match ema s with
          | Some e => VStateDict (weights (averaged_model e))
          | None => VNone
          end).
Proof.
  unfold serialize. split; [| split; [| split]].
  - do 3 (rewrite lookup_insert_ne by discriminate). apply lookup_insert_eq.
  - eexists. do 2 (rewrite lookup_insert_ne by discriminate). apply lookup_insert_eq.
  - eexists. rewrite lookup_insert_ne by discriminate. apply lookup_insert_eq.
  - apply lookup_insert_eq.
Qed.

(** C9. For a checkpoint that has a ["nets"] state dict: the networks'
    state is loaded whatever happens afterwards; a missing ["optimizers"]
    or ["lr_schedulers"] key is read as an empty dictionary; with both keys
    missing and a loadable ["ema"] entry, loading returns without error for
    either value of [load_optimizers] and leaves optimizers and schedulers
    alone; the EMA state is left alone when the ["ema"] entry is absent or
    [None], and is loaded when the entry is a state dict and the policy has
    an EMA model. *)
Theorem deserialize_tolerates_missing_keys
    (s : policy) (md : gmap string ckpt_val) (sd : state_dict) (load_optimizers : bool) :
  md !! "nets"%string = Some (VStateDict sd) ->
  let out := deserialize md load_optimizers s in
  nets (snd out) = load_state_dict (nets s) sd /\
  (md !! "optimizers"%string = None ->
   deserialize (<["optimizers"%string := VDict []]> md) load_optimizers s = out) /\
  (md !! "lr_schedulers"%string = None ->
   deserialize (<["lr_schedulers"%string := VDict []]> md) load_optimizers s = out) /\
  (md !! "optimizers"%string = None -> md !! "lr_schedulers"%string = None ->
   ema_entry_loadable md s ->
   fst out = Ok tt /\
   optimizers (snd out) = optimizers s /\
   lr_schedulers (snd out) = lr_schedulers s) /\
  (md !! "ema"%string = None \/ md !! "ema"%string = Some VNone ->
   ema (snd out) = ema s) /\
  (forall sd_ema e,
     md !! "ema"%string = Some (VStateDict sd_ema) -> ema s = Some e ->
     ema (snd out) = Some (ema_load e sd_ema)).
Proof.
  intros Hnets out.
  set (s1 := set_nets (load_state_dict (nets s) sd) s).
  assert (Hout : out =
                 bind (deserialize_ema (with_defaults md))
                      (fun _ => if load_optimizers
                                then deserialize_optimizers (with_defaults md)
                                else ret tt) s1).
  { subst out. unfold deserialize. rewrite Hnets. reflexivity. }
  assert (Hema_lookup : with_defaults md !! "ema"%string = md !! "ema"%string)
    by (apply with_defaults_lookup; discriminate).
  assert (Hrest_keeps :
            forall X (f : policy -> X),
              (forall v st, f (set_optimizers v st) = f st) ->
              (forall v st, f (set_lr_schedulers v st) = f st) ->
              keeps f (if load_optimizers
                       then deserialize_optimizers (with_defaults md)
                       else ret tt)).
  { intros X f Ho Hl. destruct load_optimizers;
      [apply deserialize_optimizers_keeps; assumption | apply keeps_ret]. }
  split; [| split; [| split; [| split; [| split]]]].
  - rewrite Hout.
    rewrite (keeps_bind nets (deserialize_ema (with_defaults md)) _
               (deserialize_ema_keeps nets _ ltac:(reflexivity))
               (fun _ => Hrest_keeps _ nets ltac:(reflexivity) ltac:(reflexivity)) s1).
    reflexivity.
  - intros Hmiss. subst out. unfold deserialize.
    rewrite (lookup_insert_ne md "optimizers"%string "nets"%string) by discriminate.
    fold k_opt. rewrite (with_defaults_missing_optimizers md Hmiss). reflexivity.
  - intros Hmiss. subst out. unfold deserialize.
    rewrite (lookup_insert_ne md "lr_schedulers"%string "nets"%string) by discriminate.
    fold k_lr. rewrite (with_defaults_missing_lr_schedulers md Hmiss). reflexivity.
  - intros Hopt Hlr Hload. rewrite Hout.
    destruct (with_defaults_both_missing md Hopt Hlr) as [Hd1 Hd2].
    unfold k_opt, k_lr in Hd1, Hd2.
    assert (Hema : exists s2, deserialize_ema (with_defaults md) s1 = (Ok tt, s2) /\
                              optimizers s2 = optimizers s /\
                              lr_schedulers s2 = lr_schedulers s).
    { unfold deserialize_ema, ema_entry_loadable in *. rewrite Hema_lookup.
      destruct (md !! "ema"%string) as [[| sd_ema | d] |]; try (exists s1; auto; fail).
      - unfold bind at 1. cbn [get]. change (ema s1) with (ema s).
        destruct (ema s) as [e |]; [| congruence].
        unfold bind at 1. cbn [as_state_dict ret modify]. eexists. split; [reflexivity |].
        split; reflexivity.
      - contradiction. }
    destruct Hema as (s2 & Hrun & Ho & Hl).
    assert (Hall : bind (deserialize_ema (with_defaults md))
                        (fun _ => if load_optimizers
                                  then deserialize_optimizers (with_defaults md)
                                  else ret tt) s1 = (Ok tt, s2)).
    { unfold bind at 1. rewrite Hrun.
      destruct load_optimizers; [| reflexivity].
      unfold deserialize_optimizers. rewrite Hd1, Hd2. reflexivity. }
    rewrite Hall. cbn [fst snd]. auto.
  - intros Hnone. rewrite Hout.
    assert (Hskip : keeps ema (deserialize_ema (with_defaults md))).
    { intros st. unfold deserialize_ema. rewrite Hema_lookup.
      destruct Hnone as [-> | ->]; reflexivity. }
    rewrite (keeps_bind ema (deserialize_ema (with_defaults md)) _ Hskip
               (fun _ => Hrest_keeps _ ema ltac:(reflexivity) ltac:(reflexivity)) s1).
    reflexivity.
  - intros sd_ema e Hentry He. rewrite Hout.
    unfold bind at 1. unfold deserialize_ema at 1. rewrite Hema_lookup, Hentry.
    unfold bind at 1. cbn [get]. change (ema s1) with (ema s). rewrite He.
    unfold bind at 1. cbn [as_state_dict ret modify].
    rewrite (Hrest_keeps _ ema ltac:(reflexivity) ltac:(reflexivity)).
    reflexivity.
Qed.

End Proofs.

(** * The properties on concrete inputs *)

Lemma demo_scheduler_step_shape :
  forall sch g model_output k sample,
    map (@length tensor1)
        (fst (@scheduler_step demo_backend sch g model_output k sample))
    = map (@length tensor1) sample.
Proof. reflexivity. Qed.

Lemma demo_horizons_ok : horizons_ok demo_config.
Proof. unfold horizons_ok. cbn. lia. Qed.


(** The end-to-end scenario: after [reset], five calls.  The sampler drew
    the noise 0 .. 7 and then 8 .. 15; the windows [[1, 5)] are 1 .. 4 and
    9 .. 12. *)
Example demo_rollout :
  fst (get_actions [demo_obs; demo_obs; demo_obs; demo_obs; demo_obs]
                   (snd (reset demo_policy)))
  = Ok [[[Fin (1 # 1)]]; [[Fin (2 # 1)]]; [[Fin (3 # 1)]]; [[Fin (4 # 1)]];
        [[Fin (9 # 1)]]].
Proof. vm_compute. reflexivity. Qed.

Example demo_rollout_before_reset :
  fst (get_action demo_obs None demo_policy) = Raise TypeError.
Proof. reflexivity. Qed.

Lemma demo_sampler_ready : sampler_ready demo_policy demo_obs = true.
Proof. vm_compute. reflexivity. Qed.

Lemma sampler_invoked_once_witness :
  let obss := [demo_obs; demo_obs; demo_obs; demo_obs] in
  let s_Ta := snd (get_actions obss (snd (reset demo_policy))) in
  sampler_calls s_Ta = 1%nat /\
  sampler_calls (snd (get_action demo_obs None s_Ta)) = 2%nat.
Proof.
  intros obss s_Ta.
  pose proof (sampler_invoked_once_per_Ta_calls demo_scheduler_step_shape
                demo_policy demo_obs [demo_obs; demo_obs; demo_obs] demo_obs
                demo_horizons_ok demo_sampler_ready eq_refl)
    as (_ & _ & _ & H4 & H5).
  split; [exact H4 | exact H5].
Defined.

Lemma fifo_fidelity_witness :
  exists traj : tensor3,
    fst (_get_action_trajectory demo_obs None (snd (reset demo_policy))) = Ok traj /\
    fst (get_actions [demo_obs; demo_obs; demo_obs; demo_obs] (snd (reset demo_policy)))
    = Ok (map (fun a => [a]) (firstn 4 (hd [] traj))).
Proof.
  destruct (fifo_fidelity demo_scheduler_step_shape
              demo_policy demo_obs [demo_obs; demo_obs; demo_obs]
              demo_horizons_ok demo_sampler_ready eq_refl)
    as (traj & s1 & s_end & Hrun & _ & Hall & _).
  exists traj. rewrite Hrun, Hall. split; reflexivity.
Defined.

(** C4, counterexample.  A first batch whose action value 1.5 comes after
    the first [Tp] timesteps is accepted, and the check is marked done. *)
Lemma out_of_range_value_after_window_is_accepted :
  action_check_done window_policy = false /\
  some_out_of_range (b_actions late_outlier_batch) /\
  is_ok (fst (process_batch_for_training late_outlier_batch window_policy)) = true /\
  action_check_done (snd (process_batch_for_training late_outlier_batch window_policy))
  = true.
Proof.
  split; [reflexivity |].
  split; [apply all_in_range_false; vm_compute; reflexivity |].
  split; vm_compute; reflexivity.
Qed.

Lemma out_of_range_first_batch_witness :
  process_batch_for_training bad_batch demo_training_policy
  = (Raise (ValueError actions_range_msg), demo_training_policy) /\
  train_step bad_batch 0 false demo_training_policy
  = (Raise (ValueError actions_range_msg), demo_training_policy).
Proof.
  assert (Hobs : exists obs,
             slice_obs (observation_horizon (algo_config demo_training_policy))
                       (b_obs bad_batch) = Ok obs)
    by (eexists; vm_compute; reflexivity).
  destruct Hobs as [obs Hobs].
  assert (Hout : some_out_of_range
                   (slice_time 0 (prediction_horizon (algo_config demo_training_policy))
                               (b_actions bad_batch)))
    by (apply all_in_range_false; vm_compute; reflexivity).
  destruct (out_of_range_first_batch_rejected demo_training_policy bad_batch 0 false obs
              eq_refl Hobs Hout) as (H1 & H2 & _).
  split; [exact H1 | exact H2].
Defined.

Lemma range_check_runs_once_witness :
  let s := snd (process_batch_for_training good_batch demo_training_policy) in
  action_check_done s = true /\
  fst (process_batch_for_training bad_batch s) <> Raise (ValueError actions_range_msg).
Proof.
  assert (Hpass : exists ib s, process_batch_for_training good_batch demo_training_policy
                               = (Ok ib, s))
    by (eexists; eexists; vm_compute; reflexivity).
  destruct Hpass as (ib & s & Hpass).
  rewrite Hpass. cbn [snd]. cbv zeta.
  destruct (range_check_runs_once demo_training_policy s good_batch bad_batch ib Hpass)
    as (H1 & _ & H3 & _).
  split; [exact H1 | apply H3].
Defined.

Lemma sampler_asserts_eval_mode_witness :
  _get_action_trajectory demo_obs None demo_training_policy
  = (Raise (AssertionError NetsTraining),
     set_trace (trace demo_training_policy ++ [EvSampler demo_obs]) demo_training_policy) /\
  fst (_get_action_trajectory demo_obs None demo_policy)
  <> Raise (AssertionError NetsTraining).
Proof.
  split.
  - exact (proj1 (sampler_asserts_eval_mode demo_training_policy demo_obs None) eq_refl).
  - exact (proj2 (sampler_asserts_eval_mode demo_policy demo_obs None) eq_refl).
Defined.

Lemma deserialize_old_checkpoint_witness :
  fst (deserialize old_checkpoint true demo_policy) = Ok tt /\
  weights (nets (snd (deserialize old_checkpoint true demo_policy)))
  = {[ "w"%string := [Fin (1 # 4)] ]}.
Proof.
  destruct (deserialize_tolerates_missing_keys demo_policy old_checkpoint
              {[ "w"%string := [Fin (1 # 4)] ]} true eq_refl)
    as (Hnets & _ & _ & Hok & _).
  split.
  - apply Hok; [reflexivity | reflexivity | vm_compute; exact I].
  - rewrite Hnets. reflexivity.
Defined.

Lemma obs_queue_dead_state_witness :
  obs_queue (snd (reset demo_policy)) = Some (Deque 2 []) /\
  obs_queue (snd (get_action demo_obs None (snd (reset demo_policy))))
  = Some (Deque 2 []).
Proof.
  destruct (obs_queue_is_dead_state demo_policy demo_obs None) as (Hreset & _).
  destruct (obs_queue_is_dead_state (snd (reset demo_policy)) demo_obs None)
    as (_ & Hkeep & _).
  split; [exact (Hreset eq_refl) |].
  rewrite Hkeep. exact (Hreset eq_refl).
Defined.

(** * Further properties of the code *)

Section MoreProperties.
Context `{BE : Backend}.

Ltac frame_step :=
  lazymatch goal with
  | |- keeps _ (bind _ _) => apply keeps_bind; [| intros ?]
  | |- keeps _ (ret _) => apply keeps_ret
  | |- keeps _ (raise _) => apply keeps_raise
  | |- keeps _ (get _) => apply keeps_get
  | |- keeps _ (lift _) => apply keeps_lift
  | |- keeps _ (py_assert _ _) => apply keeps_py_assert
  | |- keeps _ (log _) => apply keeps_log; first [assumption | intros; reflexivity]
  | |- keeps _ (for_each _ _) => apply keeps_for_each; intros ?
  | |- keeps _ (modify _) => apply keeps_modify; intros ?
  | |- keeps _ (match ?x with _ => _ end) => destruct x
  end.

Ltac static := apply fields_rollout_static; intros; reflexivity.

(** ** reset *)

(** [reset] with a negative horizon: [deque(maxlen=..)] raises before
    either attribute is assigned, so a valid observation horizon does not
    get its queue either. *)
Theorem reset_failure_is_atomic (s : policy) :
  observation_horizon (algo_config s) < 0 \/ action_horizon (algo_config s) < 0 ->
  reset s = (Raise (ValueError "maxlen must be non-negative"), s).
Proof.
  intros Hneg. unfold reset, deque_new.
  unfold bind at 1. cbn [get]. unfold bind at 1. cbn [get]. unfold bind at 1.
  destruct (Z.ltb_spec (observation_horizon (algo_config s)) 0) as [HTo | HTo];
    cbn [lift]; [reflexivity |].
  unfold bind at 1.
  destruct (Z.ltb_spec (action_horizon (algo_config s)) 0) as [HTa | HTa];
    cbn [lift]; [reflexivity | lia].
Qed.

(** [reset] in the middle of an episode throws the queued actions away:
    whatever the queue held, the next call samples anew. *)
Theorem reset_discards_pending_actions
    (s : policy) (obs : obs_dict) (goal : option obs_dict) :
  0 <= observation_horizon (algo_config s) ->
  0 <= action_horizon (algo_config s) ->
  let s0 := snd (reset s) in
  fst (reset s) = Ok tt /\
  action_queue s0 = Some (Deque (Z.to_nat (action_horizon (algo_config s))) []) /\
  learnable_state s0 = learnable_state s /\
  sampler_calls (snd (get_action obs goal s0)) = S (sampler_calls s).
Proof.
  intros HTo HTa s0. subst s0. rewrite (reset_ok s HTo HTa). cbn [fst snd].
  repeat split.
  erewrite get_action_empty_counted by reflexivity. reflexivity.
Qed.

(** Between construction and the first [reset] there are no queues:
    [get_action] raises the TypeError of [len(None)] and does nothing. *)
Theorem get_action_needs_reset
    (s : policy) (obs : obs_dict) (goal : option obs_dict) :
  fst (_create_networks s) = Ok tt ->
  get_action obs goal (snd (_create_networks s))
  = (Raise TypeError, snd (_create_networks s)).
Proof.
  intros Hok. apply get_action_no_queue.
  revert Hok. unfold _create_networks, bind, get, modify, ret, raise.
  destruct (ddpm_enabled (algo_config s)); [reflexivity |].
  destruct (ddim_enabled (algo_config s)); [reflexivity | discriminate].
Qed.

(** ** get_action when the sampler cannot deliver *)

(** In training mode a rollout never produces an action: every call
    invokes the sampler, fails on its assertion and leaves the queue empty,
    so the next call tries again. *)
Theorem rollout_in_training_mode_never_acts
    (obss : list obs_dict) (s : policy) (n : nat) :
  training (nets s) = true ->
  action_queue s = Some (Deque n []) ->
  Forall (fun r => r = Raise (AssertionError NetsTraining)) (call_outcomes obss s) /\
  action_queue (after_calls obss s) = Some (Deque n []) /\
  sampler_calls (after_calls obss s) = (sampler_calls s + length obss)%nat.
Proof.
  revert s. induction obss as [| o obss IH]; intros s Htr Hq.
  - cbn. repeat split; [constructor | exact Hq | lia].
  - assert (Hrun : _get_action_trajectory o None s
                   = (Raise (AssertionError NetsTraining), entered o s))
      by (rewrite sampler_unfold, Htr; reflexivity).
    pose proof (get_action_sampler_raises o None s _ n _ Hq Hrun) as Hget.
    cbn [call_outcomes after_calls fold_left]. rewrite Hget. cbn [fst snd].
    destruct (IH (entered o s) Htr Hq) as (Hall & Hq' & Hcount).
    repeat split.
    + constructor; [reflexivity | exact Hall].
    + exact Hq'.
    + unfold after_calls in Hcount. rewrite Hcount.
      unfold sampler_calls, entered. cbn [trace set_trace].
      rewrite count_sampler_app. cbn. lia.
Qed.

Lemma after_calls_keeps {X} (f : policy -> X) (obss : list obs_dict) (s : policy) :
  rollout_static f -> (forall v st, f (set_action_queue v st) = f st) ->
  f (after_calls obss s) = f s.
Proof.
  intros Hf Hq. revert s.
  induction obss as [| o obss IH]; intros s; [reflexivity |].
  cbn [after_calls fold_left]. unfold after_calls in IH. rewrite IH.
  apply (get_action_keeps f o None Hf Hq).
Qed.

Lemma get_actions_keeps {X} (f : policy -> X) (obss : list obs_dict) :
  rollout_static f -> (forall v st, f (set_action_queue v st) = f st) ->
  keeps f (get_actions obss).
Proof.
  intros Hf Hq.
  induction obss as [| o obss IH]; cbn [get_actions]; [apply keeps_ret |].
  apply keeps_bind; [apply get_action_keeps; assumption | intros a].
  apply keeps_bind; [apply IH | intros r; apply keeps_ret].
Qed.

(** A rollout, whatever its calls return or raise, leaves the networks, the
    EMA model, the optimizers, the schedulers of the learning rate, the
    range-check flag and the configuration as they were. *)
Theorem rollout_never_changes_learnable_state (obss : list obs_dict) (s : policy) :
  learnable_state (after_calls obss s) = learnable_state s /\
  algo_config (after_calls obss s) = algo_config s /\
  learnable_state (snd (get_actions obss s)) = learnable_state s /\
  algo_config (snd (get_actions obss s)) = algo_config s.
Proof.
  repeat split.
  - apply after_calls_keeps; [static | reflexivity].
  - apply after_calls_keeps; [static | reflexivity].
  - apply get_actions_keeps; [static | reflexivity].
  - apply get_actions_keeps; [static | reflexivity].
Qed.

(** ** The sampler beyond the horizon invariant *)

Lemma py_slice_length_from (A : Type) (lo hi : Z) (l : list A) :
  0 <= lo -> lo <= hi ->
  length (py_slice lo hi l) = Z.to_nat (Z.min hi (Z.of_nat (length l)) - lo).
Proof.
  intros Hlo Hhi. unfold py_slice, py_norm.
  rewrite length_firstn, length_skipn.
  destruct (Z.ltb_spec lo 0), (Z.ltb_spec hi 0); lia.
Qed.

Lemma encode_obs_keeps_field {X} (f : policy -> X) net obs goal :
  (forall v s, f (set_trace v s) = f s) -> keeps f (encode_obs net obs goal).
Proof.
  intros Ht. unfold encode_obs.
  apply keeps_bind; [apply check_obs_ndim_keeps | intros _].
  repeat frame_step.
Qed.

Lemma randn3_keeps_field {X} (f : policy -> X) b t d :
  (forall v s, f (set_torch_rng v s) = f s) -> keeps f (randn3 b t d).
Proof. intros Hr. unfold randn3. repeat frame_step. apply Hr. Qed.

(** A sampler that is ready returns whenever [Tp] is not negative. *)
Lemma sampler_returns (obs : obs_dict) (s : policy) :
  0 <= prediction_horizon (algo_config s) ->
  sampler_ready s obs = true ->
  exists (action : tensor3) (s' : policy),
    _get_action_trajectory obs None s = (Ok action, s').
Proof.
  intros HTp Hready. unfold sampler_ready in Hready.
  repeat (apply andb_prop in Hready as [Hready ?]).
  apply negb_true_iff in Hready.
  match goal with H : (_ =? 3) = true |- _ => apply Z.eqb_eq in H; rename H into Hndim end.
  match goal with H : (1 <=? _) = true |- _ => apply Z.leb_le in H; rename H into HB end.
  match goal with H : (0 <=? _) = true |- _ => apply Z.leb_le in H; rename H into Hdim end.
  match goal with H : obs_ranks_ok _ _ = true |- _ => rename H into Hranks end.
  match goal with H : (_ || _)%bool = true |- _ => rename H into Hvariant end.
  rewrite sampler_unfold, Hready. unfold inference_steps.
  assert (Hn : exists n, (if ddpm_enabled (algo_config s)
                          then Some (ddpm_num_inference_timesteps (algo_config s))
                          else if ddim_enabled (algo_config s)
                               then Some (ddim_num_inference_timesteps (algo_config s))
                               else None) = Some n).
  { destruct (ddpm_enabled (algo_config s)); [eauto |].
    destruct (ddim_enabled (algo_config s)); [eauto | discriminate]. }
  destruct Hn as [n ->].
  rewrite (encode_obs_ok _ obs None (entered obs s) Hranks Hndim).
  match goal with |- context [randn3 ?b ?t ?d ?st] =>
    destruct (randn3_ok b t d st ltac:(lia) HTp Hdim) as (x & g & -> & _) end.
  cbv zeta.
  match goal with |- context [denoise ?nn ?c ?ks ?x ?st] =>
    destruct (denoise_ok nn c ks x st) as (naction & s4 & -> & _) end.
  eauto.
Qed.

(** ** The rank check of the observations *)

(** ghost-free description of the exception of the rank loop: the first
    key of [obs_shapes], in order, that is missing or of the wrong rank. *)
Lemma check_obs_ndim_verdict (obs : obs_dict) (s : policy) :
  snd (check_obs_ndim obs s) = s /\
  (fst (check_obs_ndim obs s) = Ok tt <-> obs_ranks_ok (obs_shapes s) obs = true) /\
  (forall e, fst (check_obs_ndim obs s) = Raise e ->
     exists k shape, In (k, shape) (obs_shapes s) /\
       ((obs !! k = None /\ e = KeyError k) \/
        (exists t, obs !! k = Some t /\
                   ot_ndim t - 2 <> Z.of_nat (length shape) /\
                   e = AssertionError (ObsNdim k)))).
Proof.
  unfold check_obs_ndim, obs_ranks_ok. unfold bind at 1 2 3. cbn [get].
  generalize (obs_shapes s) as shapes.
  induction shapes as [| [k shape] shapes IH]; cbn [for_each forallb fst snd].
  - repeat split; intros; discriminate.
  - unfold bind at 1 2 3.
    destruct (obs !! k) as [t |] eqn:Hk.
    + destruct (Z.eqb_spec (ot_ndim t - 2) (Z.of_nat (length shape))) as [Heq | Hne];
        cbn [py_assert ret raise andb].
      * destruct IH as (IH1 & IH2 & IH3).
        split; [exact IH1 |]. split; [exact IH2 |].
        intros e He. destruct (IH3 e He) as (k' & shape' & Hin & Hcase).
        exists k', shape'. split; [right; exact Hin | exact Hcase].
      * repeat split; try discriminate.
        intros e [= <-]. exists k, shape. split; [left; reflexivity |].
        right. exists t. auto.
    + cbn [raise]. repeat split; try discriminate.
      intros e [= <-]. exists k, shape. split; [left; reflexivity |]. auto.
Qed.

Lemma encode_obs_check_raises (net : module) (obs : obs_dict)
    (goal : option obs_dict) (st s0 : policy) (e : exn) :
  check_obs_ndim obs st = (Raise e, s0) ->
  encode_obs net obs goal st = (Raise e, s0).
Proof. intros Hc. unfold encode_obs. unfold bind at 1. rewrite Hc. reflexivity. Qed.

Lemma encode_obs_raise_cases (net : module) (obs : obs_dict)
    (goal : option obs_dict) (st s1 : policy) (e : exn) :
  encode_obs net obs goal st = (Raise e, s1) ->
  fst (check_obs_ndim obs st) = Raise e \/ e = AssertionError FeaturesNdim.
Proof.
  unfold encode_obs. unfold bind at 1.
  destruct (check_obs_ndim obs st) as [[[] | e0] s0]; cbn [fst].
  - unfold bind at 1. cbn [log modify]. unfold bind at 1.
    destruct (f_ndim (obs_encoder net obs goal) =? 3);
      cbn [py_assert ret raise]; [discriminate |].
    intros [= <- _]. auto.
  - intros [= <- _]. auto.
Qed.

(** The sampler's checks on an observation look only at the modalities
    named in [obs_shapes]: an observation that passes still passes with
    further modalities added, and one that lacks a named modality stops the
    sampler with a KeyError or a rank AssertionError before any network
    runs (the state is the one at entry). *)
Theorem sampler_checks_only_declared_modalities
    (s : policy) (obs obs' : obs_dict) (goal : option obs_dict) :
  obs ⊆ obs' ->
  training (nets s) = false ->
  inference_steps (algo_config s) <> None ->
  (obs_ranks_ok (obs_shapes s) obs = true ->
   obs_ranks_ok (obs_shapes s) obs' = true) /\
  (obs_ranks_ok (obs_shapes s) obs = false ->
   exists k shape,
     In (k, shape) (obs_shapes s) /\
     (fst (_get_action_trajectory obs goal s) = Raise (KeyError k) \/
      fst (_get_action_trajectory obs goal s) = Raise (AssertionError (ObsNdim k))) /\
     snd (_get_action_trajectory obs goal s) = entered obs s).
Proof.
  intros Hsub Htr Hvariant. split.
  - unfold obs_ranks_ok. rewrite !forallb_forall. intros Hok ks Hin.
    specialize (Hok ks Hin).
    destruct (obs !! fst ks) as [t |] eqn:Hk; [| discriminate].
    rewrite (lookup_weaken obs obs' _ _ Hk Hsub). exact Hok.
  - intros Hbad.
    destruct (check_obs_ndim_verdict obs (entered obs s)) as (Hst & Hiff & Hexn).
    change (obs_shapes (entered obs s)) with (obs_shapes s) in *.
    rewrite sampler_unfold, Htr.
    destruct (inference_steps (algo_config s)) as [n |]; [| congruence].
    destruct (check_obs_ndim obs (entered obs s)) as [[[] | e] s0] eqn:Hc;
      cbn [fst snd] in *.
    + rewrite (proj1 Hiff eq_refl) in Hbad. discriminate.
    + subst s0. rewrite (encode_obs_check_raises _ obs goal _ _ e Hc). cbn [fst snd].
      destruct (Hexn e eq_refl) as (k & shape & Hin & Hcase).
      exists k, shape. split; [exact Hin |]. split; [| reflexivity].
      destruct Hcase as [[_ ->] | (t & _ & _ & ->)]; auto.
Qed.

(** ** The diffusion variant *)

Lemma sampler_never_raises_ValueError_with_variant
    (s : policy) (obs : obs_dict) (goal : option obs_dict) (msg : string) :
  inference_steps (algo_config s) <> None ->
  fst (_get_action_trajectory obs goal s) <> Raise (ValueError msg).
Proof.
  intros Hvariant. rewrite sampler_unfold.
  destruct (training (nets s)); [discriminate |].
  destruct (inference_steps (algo_config s)) as [n |]; [| congruence].
  destruct (check_obs_ndim_verdict obs (entered obs s)) as (_ & _ & Hexn).
  destruct (encode_obs (sampling_net s) obs goal (entered obs s))
    as [[obs_features | e] s1] eqn:Henc.
  2: { cbn [fst]. intros [= ->].
       destruct (encode_obs_raise_cases _ _ _ _ _ _ Henc) as [Hc | Hc];
         [| discriminate].
       destruct (Hexn _ Hc) as (k & shape & _ & [[_ Hk] | (t & _ & _ & Hk)]);
         discriminate. }
  match goal with |- context [randn3 ?b ?t ?d ?st] =>
    destruct ((b <? 0) || (t <? 0) || (d <? 0))%bool eqn:Hneg;
    [ rewrite (randn3_raises b t d st Hneg); discriminate |];
    apply orb_false_elim in Hneg as [Hneg Hd];
    apply orb_false_elim in Hneg as [Hb Ht];
    apply Z.ltb_ge in Hb, Ht, Hd;
    destruct (randn3_ok b t d st Hb Ht Hd) as (x & g & -> & _)
  end.
  cbv zeta.
  match goal with |- context [denoise ?nn ?c ?ks ?x ?st] =>
    destruct (denoise_ok nn c ks x st) as (naction & s4 & -> & _) end.
  discriminate.
Qed.

(** A policy that [_create_networks] has built has a diffusion variant:
    construction raises RuntimeError, assigning nothing, when neither DDPM
    nor DDIM is enabled, so on a built policy the sampler's
    [raise ValueError] is never reached, and with both variants enabled
    construction and sampling both take DDPM. *)
Theorem built_policy_has_a_variant
    (s : policy) (obs : obs_dict) (goal : option obs_dict) :
  let built := snd (_create_networks s) in
  (fst (_create_networks s) <> Ok tt ->
   _create_networks s = (Raise RuntimeError, s) /\
   ddpm_enabled (algo_config s) = false /\ ddim_enabled (algo_config s) = false) /\
  (fst (_create_networks s) = Ok tt ->
   noise_scheduler built
   = (if ddpm_enabled (algo_config s) then DDPMScheduler_new (algo_config s)
      else DDIMScheduler_new (algo_config s)) /\
   inference_steps (algo_config built)
   = Some (if ddpm_enabled (algo_config s)
           then ddpm_num_inference_timesteps (algo_config s)
           else ddim_num_inference_timesteps (algo_config s)) /\
   forall msg, fst (_get_action_trajectory obs goal built) <> Raise (ValueError msg)).
Proof.
  intros built. subst built.
  assert (Hcfg : algo_config (snd (_create_networks s)) = algo_config s).
  { unfold _create_networks, bind, get, modify, ret, raise.
    destruct (ddpm_enabled (algo_config s)); [reflexivity |].
    destruct (ddim_enabled (algo_config s)); reflexivity. }
  split.
  - unfold _create_networks, bind, get, modify, ret, raise.
    destruct (ddpm_enabled (algo_config s)); [intros H; exfalso; apply H; reflexivity |].
    destruct (ddim_enabled (algo_config s)); [intros H; exfalso; apply H; reflexivity |].
    auto.
  - intros Hok.
    assert (Hsteps : inference_steps (algo_config (snd (_create_networks s)))
                     = Some (if ddpm_enabled (algo_config s)
                             then ddpm_num_inference_timesteps (algo_config s)
                             else ddim_num_inference_timesteps (algo_config s))).
    { rewrite Hcfg. revert Hok.
      unfold _create_networks, inference_steps, bind, get, modify, ret, raise.
      destruct (ddpm_enabled (algo_config s)); [reflexivity |].
      destruct (ddim_enabled (algo_config s)); [reflexivity | discriminate]. }
    split; [| split; [exact Hsteps |]].
    + revert Hok. unfold _create_networks, bind, get, modify, ret, raise.
      destruct (ddpm_enabled (algo_config s)); [reflexivity |].
      destruct (ddim_enabled (algo_config s)); [reflexivity | discriminate].
    + intros msg. apply sampler_never_raises_ValueError_with_variant.
      rewrite Hsteps. discriminate.
Qed.

(** A returning sampler call has configured the scheduler for the step
    count of the variant it took (DDPM if enabled, else DDIM), and has run
    one noise prediction per configured timestep. *)
Theorem sampler_configures_inference_steps
    (s s' : policy) (obs : obs_dict) (goal : option obs_dict) (action : tensor3) :
  _get_action_trajectory obs goal s = (Ok action, s') ->
  noise_scheduler s'
  = set_timesteps (noise_scheduler s)
      (if ddpm_enabled (algo_config s)
       then ddpm_num_inference_timesteps (algo_config s)
       else ddim_num_inference_timesteps (algo_config s)) /\
  length (List.filter (fun e => match e with EvPredict _ _ => true | _ => false end)
                      (skipn (length (trace s)) (trace s')))
  = length (timesteps (noise_scheduler s')).
Proof.
  rewrite sampler_unfold.
  destruct (training (nets s)); [discriminate |].
  unfold inference_steps.
  assert (Hn : (if ddpm_enabled (algo_config s)
                then Some (ddpm_num_inference_timesteps (algo_config s))
                else if ddim_enabled (algo_config s)
                     then Some (ddim_num_inference_timesteps (algo_config s))
                     else None)
               = None \/
               (if ddpm_enabled (algo_config s)
                then Some (ddpm_num_inference_timesteps (algo_config s))
                else if ddim_enabled (algo_config s)
                     then Some (ddim_num_inference_timesteps (algo_config s))
                     else None)
               = Some (if ddpm_enabled (algo_config s)
                       then ddpm_num_inference_timesteps (algo_config s)
                       else ddim_num_inference_timesteps (algo_config s))).
  { destruct (ddpm_enabled (algo_config s)); [auto |].
    destruct (ddim_enabled (algo_config s)); auto. }
  destruct Hn as [-> | ->]; [discriminate |].
  set (n := if ddpm_enabled (algo_config s) then _ else _).
  pose proof (encode_obs_keeps_field noise_scheduler (sampling_net s) obs goal
                ltac:(reflexivity) (entered obs s)) as Hsch1.
  destruct (encode_obs_trace (sampling_net s) obs goal (entered obs s))
    as (evs1 & Htr1 & Hevs1).
  destruct (encode_obs _ obs goal _) as [[obs_features | e] s1] eqn:Henc;
    [| discriminate].
  cbn [snd] in Hsch1, Htr1.
  assert (Hevs1' : evs1 = [EvEncode (sampling_net s) obs]).
  { destruct Hevs1 as [-> | ->]; [| reflexivity]. exfalso.
    revert Henc. unfold encode_obs. unfold bind at 1.
    pose proof (check_obs_ndim_keeps trace obs (entered obs s)) as Hk.
    destruct (check_obs_ndim obs (entered obs s)) as [[[] | e] s0];
      [| discriminate].
    cbn [snd] in Hk. unfold bind at 1. cbn [log modify]. unfold bind at 1.
    destruct (f_ndim _ =? 3); cbn [py_assert ret raise]; [| discriminate].
    intros [= _ <-]. cbn [trace set_trace] in Htr1. rewrite Hk, app_nil_r in Htr1.
    apply (f_equal (@length event)) in Htr1. rewrite length_app in Htr1.
    cbn in Htr1. lia. }
  subst evs1.
  match goal with |- context [randn3 ?b ?t ?d s1] =>
    pose proof (randn3_keeps_field noise_scheduler b t d ltac:(reflexivity) s1) as Hsch2;
    pose proof (randn3_trace b t d s1) as Htr2;
    destruct (randn3 b t d s1) as [[noisy | e] s2] end; [| discriminate].
  cbn [snd] in Hsch2, Htr2. cbv zeta.
  match goal with |- context [denoise ?nn ?c ?ks ?x ?st] =>
    destruct (denoise_ok nn c ks x st) as (naction & s4 & Hden & Htr4);
    pose proof (denoise_keeps_gen noise_scheduler nn c ks x
                  ltac:(reflexivity) ltac:(reflexivity) st) as Hsch4
  end.
  rewrite Hden in Hsch4 |- *. cbn [snd] in Hsch4.
  intros [= _ <-].
  cbn [noise_scheduler set_noise_scheduler] in Hsch4.
  assert (Hsched : noise_scheduler s4 = set_timesteps (noise_scheduler s) n).
  { rewrite Hsch4, Hsch2, Hsch1. reflexivity. }
  split; [exact Hsched |].
  rewrite Htr4. cbn [trace set_noise_scheduler noise_scheduler].
  rewrite Htr2, Htr1. cbn [entered trace set_trace].
  rewrite <- !app_assoc, skipn_app, skipn_all, Nat.sub_diag. cbn [app skipn List.filter].
  rewrite Hsch4.
  generalize (timesteps (set_timesteps (noise_scheduler s2) n)).
  intros ks. induction ks as [| k ks IH]; cbn; [reflexivity | f_equal; exact IH].
Qed.


(** ** train_on_batch *)

Lemma randint1_ok (lo hi b : Z) (s : policy) :
  lo < hi -> 0 <= b ->
  exists ts g, randint1 lo hi b s = (Ok ts, set_torch_rng g s).
Proof.
  intros Hlt Hb. unfold randint1.
  destruct (Z.leb_spec hi lo); [lia |].
  destruct (Z.ltb_spec b 0); [lia |].
  cbn [orb]. unfold bind at 1. cbn [get].
  destruct (draws _ _ _) as [x g']. eauto.
Qed.

(** The forward pass of a training step, stage by stage. *)
Lemma train_on_batch_unfold (b : batch) (epoch : Z) (validate : bool) (s : policy) :
  train_on_batch b epoch validate s =
  match super_train_on_batch (nets s) validate with
  | Raise e => (Raise e, s)
  | Ok _ =>
      match encode_obs (nets s) (b_obs b) (b_goal_obs b) s with
      | (Raise e, s1) => (Raise e, s1)
      | (Ok obs_features, s1) =>
          match (let '(n0, n1, n2) := shape3 (b_actions b) in randn3 n0 n1 n2) s1 with
          | (Raise e, s2) => (Raise e, s2)
          | (Ok noise, s2) =>
              match randint1 0 (num_train_timesteps (noise_scheduler s2))
                             (Z.of_nat (length (b_actions b))) s2 with
              | (Raise e, s3) => (Raise e, s3)
              | (Ok ts, s3) =>
                  let s4 := set_trace (trace s3 ++ [EvPredict (nets s) (TBatch ts)]) s3 in
                  let l := mse_loss
                             (noise_pred_net (nets s)
                                (add_noise (noise_scheduler s2) (b_actions b) noise ts)
                                (TBatch ts) (flatten1 obs_features)) noise in
                  if validate then (Ok (Info l None), s4)
                  else
                    match optimizers s4 !! "policy"%string with
                    | None => (Raise (KeyError "policy"), s4)
                    | Some opt =>
                        let '(nets1, opt1, grad_norm) :=
                          backprop_for_loss (nets s) opt l in
                        (Ok (Info l (Some grad_norm)), after_update nets1 opt1 s4)
                    end
              end
          end
      end
  end.
Proof.
  unfold train_on_batch.
  unfold bind at 1. cbn [get].
  unfold bind at 1. destruct (super_train_on_batch (nets s) validate) as [[] | e];
    cbn [lift]; [| reflexivity].
  unfold bind at 1.
  destruct (encode_obs _ _ _ s) as [[obs_features | e] s1]; [| reflexivity].
  unfold bind at 1.
  destruct ((let '(n0, n1, n2) := shape3 (b_actions b) in randn3 n0 n1 n2) s1)
    as [[noise | e] s2]; [| reflexivity].
  unfold bind at 1. cbn [get]. unfold bind at 1.
  destruct (randint1 _ _ _ s2) as [[ts | e] s3]; [| reflexivity].
  unfold bind at 1. cbn [log modify]. cbv zeta.
  destruct validate; cbn [negb]; [reflexivity |].
  unfold bind at 1. cbn [get]. cbn [optimizers set_trace].
  destruct (optimizers s3 !! "policy"%string) as [opt |]; [| reflexivity].
  destruct (backprop_for_loss _ opt _) as [[nets1 opt1] grad_norm].
  unfold after_update.
  unfold bind at 1. cbn [log modify].
  unfold bind at 1. cbn [modify].
  unfold bind at 1. cbn [modify].
  unfold bind at 1. cbn [get]. cbn [ema set_optimizers set_nets set_trace].
  unfold bind at 1.
  destruct (ema s3) as [e0 |]; [| reflexivity].
  unfold bind at 1. cbn [log modify]. reflexivity.
Qed.

(** A validation step ([validate = True]) updates nothing: networks, EMA
    model, optimizers, learning-rate schedulers, queues, scheduler and
    flag are those before the call, whether the step returns or raises,
    and the returned [info] has no gradient norm. *)
Theorem validation_step_updates_nothing (b : batch) (epoch : Z) (s : policy) :
  let out := train_on_batch b epoch true s in
  learnable_state (snd out) = learnable_state s /\
  rollout_state (snd out) = rollout_state s /\
  noise_scheduler (snd out) = noise_scheduler s /\
  (forall i, fst out = Ok i -> policy_grad_norms i = None).
Proof.
  intros out. subst out.
  assert (Hkeep : forall X (f : policy -> X),
             (forall v st, f (set_trace v st) = f st) ->
             (forall v st, f (set_torch_rng v st) = f st) ->
             f (snd (train_on_batch b epoch true s)) = f s).
  { intros X f Ht Hr. rewrite train_on_batch_unfold.
    destruct (super_train_on_batch (nets s) true) as [[] | e]; [| reflexivity].
    pose proof (encode_obs_keeps_field f (nets s) (b_obs b) (b_goal_obs b) Ht s) as H1.
    destruct (encode_obs _ _ _ s) as [[obs_features | e] s1]; cbn [snd] in *;
      [| exact H1].
    pose proof (randn3_keeps_field f (Z.of_nat (length (b_actions b)))
                  (Z.of_nat (length (hd [] (b_actions b))))
                  (Z.of_nat (length (hd [] (hd [] (b_actions b))))) Hr s1) as H2.
    unfold shape3.
    destruct (randn3 _ _ _ s1) as [[noise | e] s2]; cbn [snd] in *;
      [| congruence].
    pose proof (randint1_keeps f 0 (num_train_timesteps (noise_scheduler s2))
                  (Z.of_nat (length (b_actions b))) Hr s2) as H3.
    destruct (randint1 _ _ _ s2) as [[ts | e] s3]; cbn [snd] in *; [| congruence].
    rewrite Ht. congruence. }
  split; [apply Hkeep; reflexivity |].
  split; [apply Hkeep; reflexivity |].
  split; [apply Hkeep; reflexivity |].
  intros i. rewrite train_on_batch_unfold.
  destruct (super_train_on_batch (nets s) true) as [[] | e]; [| discriminate].
  destruct (encode_obs _ _ _ s) as [[obs_features | e] s1]; [| discriminate].
  destruct ((let '(n0, n1, n2) := shape3 (b_actions b) in randn3 n0 n1 n2) s1)
    as [[noise | e] s2]; [| discriminate].
  destruct (randint1 _ _ _ s2) as [[ts | e] s3]; [| discriminate].
  cbn. intros [= <-]. reflexivity.
Qed.

(** A learning step ([validate = False]) whose forward pass runs through
    and whose ["policy"] optimizer exists returns with the gradient norm;
    it stores the networks and the optimizer that the gradient step
    produced and then moves the EMA model one step towards the updated
    networks, not the ones before the step.  Other optimizers, the
    learning-rate schedulers, the queues and the flag are untouched. *)
Theorem learning_step_updates_nets_then_ema
    (b : batch) (epoch : Z) (s : policy) (opt : optimizer) :
  train_ready s b false ->
  optimizers s !! "policy"%string = Some opt ->
  exists (l : loss) (nets1 : module) (opt1 : optimizer) (grad_norm : scalar)
         (s' : policy),
    train_on_batch b epoch false s = (Ok (Info l (Some grad_norm)), s') /\
    backprop_for_loss (nets s) opt l = (nets1, opt1, grad_norm) /\
    nets s' = nets1 /\
    optimizers s' = <["policy"%string := opt1]> (optimizers s) /\
    ema s' = (fun e0 => ema_step e0 nets1) <$> ema s /\
    lr_schedulers s' = lr_schedulers s /\
    rollout_state s' = rollout_state s /\
    action_check_done s' = action_check_done s.
Proof.
  intros (Hsuper & Hranks & Hndim & Hsteps) Hopt.
  rewrite train_on_batch_unfold, Hsuper.
  rewrite (encode_obs_ok (nets s) (b_obs b) (b_goal_obs b) s Hranks Hndim).
  unfold shape3.
  match goal with |- context [randn3 ?n0 ?n1 ?n2 ?st] =>
    destruct (randn3_ok n0 n1 n2 st ltac:(lia) ltac:(lia) ltac:(lia))
      as (noise & g1 & -> & _) end.
  match goal with |- context [randint1 0 ?hi ?n ?st] =>
    destruct (randint1_ok 0 hi n st Hsteps ltac:(lia)) as (ts & g2 & ->) end.
  cbv zeta. cbn [optimizers set_trace set_torch_rng].
  rewrite Hopt.
  match goal with |- context [backprop_for_loss ?n ?o ?l] =>
    destruct (backprop_for_loss n o l) as [[nets1 opt1] grad_norm] eqn:Hbp end.
  eexists _, nets1, opt1, grad_norm, _.
  split; [reflexivity |]. split; [exact Hbp |].
  unfold after_update. cbv zeta.
  destruct s as [cfg shapes acd nets0 sch [e0 |] opts lrs flag oq aq rng tr];
    cbn; repeat split.
Qed.

(** Without a ["policy"] optimizer a learning step raises KeyError after
    the forward pass and before any update: the networks, the EMA model
    and the optimizers are unchanged. *)
Theorem learning_step_needs_policy_optimizer
    (b : batch) (epoch : Z) (s : policy) :
  train_ready s b false ->
  optimizers s !! "policy"%string = None ->
  fst (train_on_batch b epoch false s) = Raise (KeyError "policy") /\
  learnable_state (snd (train_on_batch b epoch false s)) = learnable_state s.
Proof.
  intros (Hsuper & Hranks & Hndim & Hsteps) Hopt.
  rewrite train_on_batch_unfold, Hsuper.
  rewrite (encode_obs_ok (nets s) (b_obs b) (b_goal_obs b) s Hranks Hndim).
  unfold shape3.
  match goal with |- context [randn3 ?n0 ?n1 ?n2 ?st] =>
    destruct (randn3_ok n0 n1 n2 st ltac:(lia) ltac:(lia) ltac:(lia))
      as (noise & g1 & -> & _) end.
  match goal with |- context [randint1 0 ?hi ?n ?st] =>
    destruct (randint1_ok 0 hi n st Hsteps ltac:(lia)) as (ts & g2 & ->) end.
  cbv zeta. cbn [optimizers set_trace set_torch_rng].
  rewrite Hopt. split; reflexivity.
Qed.


(** ** log_info *)

Lemma train_info_grad_norms (b : batch) (epoch : Z) (validate : bool)
    (s s' : policy) (i : info) :
  train_on_batch b epoch validate s = (Ok i, s') ->
  if validate then policy_grad_norms i = None
  else exists g, policy_grad_norms i = Some g.
Proof.
  rewrite train_on_batch_unfold.
  destruct (super_train_on_batch (nets s) validate) as [[] | e]; [| discriminate].
  destruct (encode_obs _ _ _ s) as [[obs_features | e] s1]; [| discriminate].
  destruct ((let '(n0, n1, n2) := shape3 (b_actions b) in randn3 n0 n1 n2) s1)
    as [[noise | e] s2]; [| discriminate].
  destruct (randint1 _ _ _ s2) as [[ts | e] s3]; [| discriminate].
  cbv zeta. destruct validate.
  - intros [= <- _]. reflexivity.
  - destruct (optimizers _ !! "policy"%string) as [opt |]; [| discriminate].
    destruct (backprop_for_loss _ opt _) as [[nets1 opt1] grad_norm].
    intros [= <- _]. eauto.
Qed.

(** The log of a training step always carries ["Loss"], the number of the
    step's loss; it carries ["Policy_Grad_Norms"] after a learning step and
    adds nothing else to the base class's log after a validation step;
    every other key is the base class's. *)
Theorem log_info_after_training_step
    (loss_item : loss -> scalar) (super_log_info : info -> gmap string scalar)
    (b : batch) (epoch : Z) (validate : bool) (s s' : policy) (i : info) :
  train_on_batch b epoch validate s = (Ok i, s') ->
  log_info loss_item super_log_info i !! "Loss"%string
  = Some (loss_item (losses_l2 i)) /\
  (if validate
   then log_info loss_item super_log_info i
        = <["Loss"%string := loss_item (losses_l2 i)]> (super_log_info i)
   else exists g, policy_grad_norms i = Some g /\
                  log_info loss_item super_log_info i !! "Policy_Grad_Norms"%string
                  = Some g) /\
  (forall k : string,
     k <> "Loss"%string -> k <> "Policy_Grad_Norms"%string ->
     log_info loss_item super_log_info i !! k = super_log_info i !! k).
Proof.
  intros Hrun. pose proof (train_info_grad_norms _ _ _ _ _ _ Hrun) as Hg.
  unfold log_info. cbv zeta.
  destruct validate.
  - rewrite Hg. split; [apply lookup_insert_eq |]. split; [reflexivity |].
    intros k Hk _. apply lookup_insert_ne. congruence.
  - destruct Hg as [g Hg]. rewrite Hg. split; [| split].
    + rewrite lookup_insert_ne by discriminate. apply lookup_insert_eq.
    + exists g. split; [reflexivity | apply lookup_insert_eq].
    + intros k Hk1 Hk2. rewrite !lookup_insert_ne by congruence. reflexivity.
Qed.

(** ** process_batch_for_training: what the windows and the check do *)

Lemma py_slice_to_firstn (A : Type) (hi : Z) (l : list A) :
  0 <= hi -> py_slice 0 hi l = firstn (Z.to_nat hi) l.
Proof.
  intros Hhi. unfold py_slice, py_norm.
  change (0 <? 0) with false. cbv iota.
  destruct (Z.ltb_spec hi 0); [lia |].
  replace (Z.min 0 (Z.of_nat (length l))) with 0 by lia.
  change (Z.to_nat 0) with O. rewrite drop_0, Z.sub_0_r.
  destruct (Z.le_gt_cases hi (Z.of_nat (length l))).
  - replace (Z.min hi (Z.of_nat (length l))) with hi by lia. reflexivity.
  - replace (Z.min hi (Z.of_nat (length l))) with (Z.of_nat (length l)) by lia.
    rewrite Nat2Z.id, firstn_all. symmetry. apply firstn_all2. lia.
Qed.


(** The check is a universal statement, so it passes on nothing: a first
    batch with no batch element, or any first batch when [Tp = 0], marks
    the check done, and the run's later batches are never checked. *)
Theorem empty_window_passes_and_ends_the_check
    (s : policy) (b : batch) (obs : obs_dict) :
  action_check_done s = false ->
  slice_obs (observation_horizon (algo_config s)) (b_obs b) = Ok obs ->
  b_actions b = [] \/ prediction_horizon (algo_config s) = 0 ->
  process_batch_for_training b s
  = (Ok (windowed s b obs), set_action_check_done true s).
Proof.
  intros Hfirst Hobs Hempty.
  rewrite process_batch_unfold, Hobs, Hfirst.
  assert (Hpass : all_in_range
                    (slice_time 0 (prediction_horizon (algo_config s)) (b_actions b))
                  = true).
  { destruct Hempty as [-> | ->]; [reflexivity |].
    unfold all_in_range, slice_time. apply forallb_forall.
    intros traj Hin. apply in_map_iff in Hin as (traj0 & <- & _).
    rewrite py_slice_to_firstn by lia. reflexivity. }
  rewrite Hpass. reflexivity.
Qed.

(** NaN and the infinities are outside [[-1, 1]]: a first batch with one
    of them in its window is rejected like any other out-of-range value
    (a comparison with NaN is false). *)
Theorem non_finite_action_is_rejected
    (s : policy) (b : batch) (obs : obs_dict) (traj : tensor2) (row : tensor1)
    (a : scalar) :
  action_check_done s = false ->
  slice_obs (observation_horizon (algo_config s)) (b_obs b) = Ok obs ->
  In traj (slice_time 0 (prediction_horizon (algo_config s)) (b_actions b)) ->
  In row traj -> In a row ->
  a = NaN \/ a = PosInf \/ a = NegInf ->
  process_batch_for_training b s = (Raise (ValueError actions_range_msg), s).
Proof.
  intros Hfirst Hobs Htraj Hrow Ha Hnon.
  rewrite process_batch_unfold, Hobs, Hfirst.
  assert (Hbad : all_in_range
                   (slice_time 0 (prediction_horizon (algo_config s)) (b_actions b))
                 = false).
  { apply all_in_range_false. unfold some_out_of_range.
    apply List.Exists_exists. exists traj. split; [exact Htraj |].
    apply List.Exists_exists. exists row. split; [exact Hrow |].
    apply List.Exists_exists. exists a. split; [exact Ha |].
    destruct Hnon as [-> | [-> | ->]]; reflexivity. }
  rewrite Hbad. reflexivity.
Qed.


(** ** Checkpoints: what a load does, stage by stage *)

Lemma set_optimizers_id (s : policy) : set_optimizers (optimizers s) s = s.
Proof. destruct s; reflexivity. Qed.

Lemma set_lr_schedulers_id (s : policy) : set_lr_schedulers (lr_schedulers s) s = s.
Proof. destruct s; reflexivity. Qed.

(** The loop over the checkpoint's optimizers. *)
Lemma load_optimizers_run (l : list (string * optimizer)) (s : policy) :
  NoDup (map fst l) ->
  (forall kv, In kv l -> optimizers s !! fst kv <> None) ->
  exists opts',
    for_each (map (fun kv => (fst kv, Some (optim_state (snd kv)))) l) load_optimizer s
    = (Ok tt, set_optimizers opts' s) /\
    (forall k o, In (k, o) l -> opts' !! k = Some o) /\
    (forall k, ~ In k (map fst l) -> opts' !! k = optimizers s !! k).
Proof.
  revert s. induction l as [| [k0 o0] l IH]; intros s Hnd Hdom.
  - exists (optimizers s). cbn [map for_each ret].
    rewrite set_optimizers_id.
    split; [reflexivity |]. split; [intros ? ? [] | reflexivity].
  - inversion Hnd as [| ? ? Hk0 Hnd']; subst. rewrite list_elem_of_In in Hk0.
    cbn [map for_each fst snd]. unfold bind at 1.
    unfold load_optimizer at 1. unfold bind at 1. cbn [get fst snd].
    pose proof (Hdom (k0, o0) (or_introl eq_refl)) as Hk0s. cbn [fst] in Hk0s.
    destruct (optimizers s !! k0) as [o |] eqn:Hlook; [| congruence].
    cbn [modify].
    replace (Optimizer (optim_state o0)) with o0 by (destruct o0; reflexivity).
    set (s1 := set_optimizers (<[k0 := o0]> (optimizers s)) s).
    destruct (IH s1 Hnd') as (opts' & Hrun & Hin & Hout).
    { intros kv Hkv. subst s1. cbn [optimizers set_optimizers].
      destruct (decide (fst kv = k0)) as [-> | Hne].
      - rewrite lookup_insert_eq. discriminate.
      - rewrite lookup_insert_ne by congruence. apply Hdom. right. exact Hkv. }
    exists opts'. split; [rewrite Hrun; reflexivity |]. split.
    + intros k o1 [[= <- <-] | Hko]; [| apply Hin, Hko].
      rewrite (Hout k0 Hk0). subst s1. cbn [optimizers set_optimizers].
      apply lookup_insert_eq.
    + intros k Hk. cbn [map fst In] in Hk.
      rewrite Hout by tauto. subst s1. cbn [optimizers set_optimizers].
      apply lookup_insert_ne. tauto.
Qed.

(** The loop over the checkpoint's learning-rate schedulers: a [None]
    entry is skipped. *)
Lemma load_lr_schedulers_run (l : list (string * option lr_scheduler)) (s : policy) :
  NoDup (map fst l) ->
  (forall k l1, In (k, Some l1) l -> exists l2, lr_schedulers s !! k = Some (Some l2)) ->
  exists lrs',
    for_each (map (fun kv => (fst kv, option_map lr_state (snd kv))) l)
             load_lr_scheduler s
    = (Ok tt, set_lr_schedulers lrs' s) /\
    (forall k l1, In (k, Some l1) l -> lrs' !! k = Some (Some l1)) /\
    (forall k, (forall l1, ~ In (k, Some l1) l) -> lrs' !! k = lr_schedulers s !! k).
Proof.
  revert s. induction l as [| [k0 [l0 |]] l IH]; intros s Hnd Hdom.
  - exists (lr_schedulers s). cbn [map for_each ret].
    rewrite set_lr_schedulers_id.
    split; [reflexivity |]. split; [intros ? ? [] | reflexivity].
  - inversion Hnd as [| ? ? Hk0 Hnd']; subst. rewrite list_elem_of_In in Hk0.
    cbn [map for_each fst snd option_map]. unfold bind at 1.
    unfold load_lr_scheduler at 1. cbn [fst snd]. unfold bind at 1. cbn [get].
    destruct (Hdom k0 l0 (or_introl eq_refl)) as [l2 Hl2]. rewrite Hl2.
    cbn [modify].
    replace (LrScheduler (lr_state l0)) with l0 by (destruct l0; reflexivity).
    set (s1 := set_lr_schedulers (<[k0 := Some l0]> (lr_schedulers s)) s).
    destruct (IH s1 Hnd') as (lrs' & Hrun & Hin & Hout).
    { intros k l1 Hk. subst s1. cbn [lr_schedulers set_lr_schedulers].
      destruct (decide (k = k0)) as [-> | Hne].
      - rewrite lookup_insert_eq. eauto.
      - rewrite lookup_insert_ne by congruence. apply (Hdom k l1). right. exact Hk. }
    assert (Hfresh : forall l1, ~ In (k0, Some l1) l).
    { intros l1 Hl1. apply Hk0. apply (in_map fst) in Hl1. exact Hl1. }
    exists lrs'. split; [rewrite Hrun; reflexivity |]. split.
    + intros k l1 [[= <- <-] | Hk]; [| apply (Hin k l1 Hk)].
      rewrite (Hout k0 Hfresh). subst s1. cbn [lr_schedulers set_lr_schedulers].
      apply lookup_insert_eq.
    + intros k Hk.
      assert (Hne : k0 <> k).
      { intros ->. apply (Hk l0). left. reflexivity. }
      rewrite Hout by (intros l1 Hl1; apply (Hk l1); right; exact Hl1).
      subst s1. cbn [lr_schedulers set_lr_schedulers].
      apply lookup_insert_ne. exact Hne.
  - inversion Hnd as [| ? ? Hk0 Hnd']; subst.
    cbn [map for_each fst snd option_map]. unfold bind at 1.
    unfold load_lr_scheduler at 1. cbn [fst snd ret].
    destruct (IH s Hnd') as (lrs' & Hrun & Hin & Hout).
    { intros k l1 Hk. apply (Hdom k l1). right. exact Hk. }
    exists lrs'. split; [exact Hrun |]. split.
    + intros k l1 [[=] | Hk]. apply (Hin k l1 Hk).
    + intros k Hk. apply Hout. intros l1 Hl1. apply (Hk l1). right. exact Hl1.
Qed.

Lemma serialize_optimizers (s : policy) :
  serialize s !! "optimizers"%string
  = Some (VDict (map (fun kv => (fst kv, Some (optim_state (snd kv))))
                     (map_to_list (optimizers s)))).
Proof.
  unfold serialize. do 2 (rewrite lookup_insert_ne by discriminate).
  apply lookup_insert_eq.
Qed.

Lemma serialize_lr_schedulers (s : policy) :
  serialize s !! "lr_schedulers"%string
  = Some (VDict (map (fun kv => (fst kv, option_map lr_state (snd kv)))
                     (map_to_list (lr_schedulers s)))).
Proof.
  unfold serialize. rewrite lookup_insert_ne by discriminate.
  apply lookup_insert_eq.
Qed.

Lemma with_defaults_serialize (s : policy) : with_defaults (serialize s) = serialize s.
Proof.
  unfold with_defaults, default_key.
  rewrite serialize_optimizers, serialize_lr_schedulers. reflexivity.
Qed.

Lemma NoDup_map_to_list_keys {V} (m : gmap string V) : NoDup (map fst (map_to_list m)).
Proof. exact (NoDup_fst_map_to_list m). Qed.

Lemma In_map_to_list {V} (m : gmap string V) (k : string) (v : V) :
  In (k, v) (map_to_list m) <-> m !! k = Some v.
Proof. rewrite <- list_elem_of_In. apply elem_of_map_to_list. Qed.

Lemma In_keys_map_to_list {V} (m : gmap string V) (k : string) :
  In k (map fst (map_to_list m)) <-> m !! k <> None.
Proof.
  rewrite in_map_iff. split.
  - intros ([k' v] & <- & Hin). apply In_map_to_list in Hin. cbn. congruence.
  - intros Hk. destruct (m !! k) as [v |] eqn:Hv; [| congruence].
    exists (k, v). split; [reflexivity | apply In_map_to_list, Hv].
Qed.
Lemma deserialize_unfold (md : gmap string ckpt_val) (load_optimizers : bool)
    (s : policy) (sd : state_dict) :
  md !! "nets"%string = Some (VStateDict sd) ->
  deserialize md load_optimizers s
  = bind (deserialize_ema (with_defaults md))
         (fun _ => if load_optimizers
                   then deserialize_optimizers (with_defaults md)
                   else ret tt)
         (set_nets (load_state_dict (nets s) sd) s).
Proof. intros Hnets. unfold deserialize. rewrite Hnets. reflexivity. Qed.

Lemma deserialize_ema_ext (md md' : gmap string ckpt_val) :
  md !! "ema"%string = md' !! "ema"%string ->
  deserialize_ema md = deserialize_ema md'.
Proof. intros Heq. unfold deserialize_ema. rewrite Heq. reflexivity. Qed.

(** The two loops on a checkpoint that [serialize] wrote, run on a policy
    that has the saved optimizers and schedulers by name. *)
Lemma deserialize_optimizers_serialize (s1 s : policy) :
  (forall k, optimizers s1 !! k = None <-> optimizers s !! k = None) ->
  (forall k, lr_schedulers s1 !! k = None <-> lr_schedulers s !! k = None) ->
  (forall k, lr_schedulers s1 !! k = Some None <-> lr_schedulers s !! k = Some None) ->
  deserialize_optimizers (serialize s1) s
  = (Ok tt, set_lr_schedulers (lr_schedulers s1) (set_optimizers (optimizers s1) s)).
Proof.
  intros Hopt Hlr1 Hlr2.
  unfold deserialize_optimizers.
  rewrite serialize_optimizers, serialize_lr_schedulers. cbn [as_dict].
  unfold bind at 1. cbn [ret]. unfold bind at 1.
  destruct (load_optimizers_run (map_to_list (optimizers s1)) s
              (NoDup_map_to_list_keys _)) as (opts' & -> & Hin & Hout).
  { intros [k o] Hk. apply In_map_to_list in Hk. cbn [fst].
    intros Hnone. apply Hopt in Hnone. congruence. }
  assert (Hopts : opts' = optimizers s1).
  { apply map_eq. intros k.
    destruct (optimizers s1 !! k) as [o |] eqn:Hk.
    - apply Hin, In_map_to_list, Hk.
    - rewrite Hout; [apply Hopt, Hk |].
      rewrite In_keys_map_to_list. congruence. }
  subst opts'.
  unfold bind at 1. cbn [ret].
  destruct (load_lr_schedulers_run (map_to_list (lr_schedulers s1))
              (set_optimizers (optimizers s1) s)
              (NoDup_map_to_list_keys _)) as (lrs' & -> & Hin' & Hout').
  { intros k l1 Hk. apply In_map_to_list in Hk.
    cbn [lr_schedulers set_optimizers].
    destruct (lr_schedulers s !! k) as [[l2 |] |] eqn:Hk2; [eauto | |].
    - apply Hlr2 in Hk2. congruence.
    - apply Hlr1 in Hk2. congruence. }
  assert (Hlrs : lrs' = lr_schedulers s1).
  { apply map_eq. intros k.
    destruct (lr_schedulers s1 !! k) as [[l1 |] |] eqn:Hk.
    - apply Hin', In_map_to_list, Hk.
    - rewrite Hout'; [apply Hlr2, Hk |].
      intros l1 Hl1. apply In_map_to_list in Hl1. congruence.
    - rewrite Hout'; [apply Hlr1, Hk |].
      intros l1 Hl1. apply In_map_to_list in Hl1. congruence. }
  subst lrs'. reflexivity.
Qed.

(** A checkpoint with an EMA state loaded into a policy without an EMA
    model (saved with EMA enabled, loaded with EMA disabled): the load
    stops with the AttributeError of [None.averaged_model], after the
    networks have taken the checkpoint's weights. *)
Theorem deserialize_without_ema_model_is_half_done
    (s : policy) (md : gmap string ckpt_val) (sd sd_ema : state_dict)
    (load_optimizers : bool) :
  md !! "nets"%string = Some (VStateDict sd) ->
  md !! "ema"%string = Some (VStateDict sd_ema) ->
  ema s = None ->
  deserialize md load_optimizers s
  = (Raise AttributeError, set_nets (load_state_dict (nets s) sd) s).
Proof.
  intros Hnets Hentry Hema.
  rewrite (deserialize_unfold md load_optimizers s sd Hnets).
  unfold bind at 1. unfold deserialize_ema.
  rewrite with_defaults_lookup by discriminate. rewrite Hentry.
  unfold bind at 1. cbn [get ema set_nets]. rewrite Hema. reflexivity.
Qed.

(** Without [load_optimizers] the checkpoint's ["optimizers"] and
    ["lr_schedulers"] entries are never read: whatever they hold, also
    something that is no dictionary, the outcome is the same, and the
    policy's optimizers and schedulers stay as they are. *)
Theorem deserialize_reads_optimizers_only_on_request
    (s : policy) (md : gmap string ckpt_val) (v_opt v_lr : ckpt_val) :
  deserialize (<["optimizers"%string := v_opt]> (<["lr_schedulers"%string := v_lr]> md))
              false s
  = deserialize md false s /\
  optimizers (snd (deserialize md false s)) = optimizers s /\
  lr_schedulers (snd (deserialize md false s)) = lr_schedulers s.
Proof.
  split.
  - unfold deserialize.
    rewrite !lookup_insert_ne by discriminate.
    destruct (md !! "nets"%string) as [v |]; [| reflexivity].
    rewrite (deserialize_ema_ext
               (with_defaults (<["optimizers"%string := v_opt]>
                                 (<["lr_schedulers"%string := v_lr]> md)))
               (with_defaults md)); [reflexivity |].
    rewrite !with_defaults_lookup by discriminate.
    rewrite !lookup_insert_ne by discriminate. reflexivity.
  - assert (Hkeep : forall X (f : policy -> X),
               (forall v st, f (set_nets v st) = f st) ->
               (forall v st, f (set_ema v st) = f st) ->
               f (snd (deserialize md false s)) = f s).
    { intros X f Hn He. unfold deserialize.
      destruct (md !! "nets"%string) as [v |]; [| reflexivity].
      match goal with |- f (snd (?m s)) = f s =>
        assert (Hk : keeps f m); [| apply Hk] end.
      unfold as_state_dict.
      repeat frame_step; try apply Hn.
      apply deserialize_ema_keeps, He. }
    split; apply Hkeep; reflexivity.
Qed.

(** Saving a policy and loading the checkpoint, optimizers included, into
    a policy of the same make: the load returns, and the loaded policy
    saves back as the same checkpoint.  What a checkpoint does not hold
    stays the loading policy's own: the train/eval flag of the networks,
    the EMA model's power and step count, the queues and the range-check
    flag. *)
Theorem checkpoint_round_trip (s1 s2 : policy) :
  same_make s1 s2 ->
  exists s' : policy,
    deserialize (serialize s1) true s2 = (Ok tt, s') /\
    serialize s' = serialize s1 /\
    training (nets s') = training (nets s2) /\
    ema_schedule <$> ema s' = ema_schedule <$> ema s2 /\
    rollout_state s' = rollout_state s2 /\
    action_check_done s' = action_check_done s2.
Proof.
  intros (Hema & Hopt & Hlr1 & Hlr2).
  rewrite (deserialize_unfold _ true s2 (weights (nets s1)))
    by apply serialize_keys.
  rewrite with_defaults_serialize.
  set (sA := set_nets (load_state_dict (nets s2) (weights (nets s1))) s2).
  set (eB := match ema s1, ema s2 with
             | Some e1, Some e2 => Some (ema_load e2 (weights (averaged_model e1)))
             | _, _ => ema s2
             end).
  assert (Hstage : deserialize_ema (serialize s1) sA = (Ok tt, set_ema eB sA)).
  { unfold deserialize_ema. rewrite (proj2 (proj2 (proj2 (serialize_keys s1)))).
    subst eB. destruct (ema s1) as [e1 |] eqn:He1.
    - unfold bind at 1. cbn [get]. change (ema sA) with (ema s2).
      destruct (ema s2) as [e2 |] eqn:He2.
      + unfold bind at 1. cbn [as_state_dict ret modify]. reflexivity.
      + exfalso. discriminate (proj2 Hema eq_refl).
    - cbn [ret]. subst sA. destruct s2; reflexivity. }
  unfold bind at 1. rewrite Hstage.
  rewrite (deserialize_optimizers_serialize s1 (set_ema eB sA) Hopt Hlr1 Hlr2).
  eexists. split; [reflexivity |].
  split; [| split; [| split; [| split]]]; try reflexivity.
  - unfold serialize.
    cbn [nets ema optimizers lr_schedulers set_lr_schedulers set_optimizers set_ema].
    subst sA. cbn [nets set_nets load_state_dict weights].
    replace (match eB with
             | Some e => VStateDict (weights (averaged_model e))
             | None => VNone
             end)
      with (match ema s1 with
            | Some e => VStateDict (weights (averaged_model e))
            | None => VNone
            end); [reflexivity |].
    subst eB. destruct (ema s1) as [e1 |] eqn:He1, (ema s2) as [e2 |] eqn:He2;
      try reflexivity.
    + discriminate (proj2 Hema eq_refl).
    + discriminate (proj1 Hema eq_refl).
  - cbn [ema set_lr_schedulers set_optimizers set_ema]. subst eB.
    destruct (ema s1) as [e1 |], (ema s2) as [e2 |]; reflexivity.
Qed.

(** ** The sampler's result as a function of the selected network *)

Lemma randn3_run (b t d : Z) (s s2 : policy) (x : tensor3) :
  randn3 b t d s = (Ok x, s2) ->
  x = fst (gaussian_noise b t d (torch_rng s)) /\
  s2 = set_torch_rng (snd (gaussian_noise b t d (torch_rng s))) s.
Proof.
  unfold randn3, gaussian_noise.
  destruct ((b <? 0) || (t <? 0) || (d <? 0))%bool; [discriminate |].
  unfold bind at 1. cbn [get].
  destruct (draws _ _ (torch_rng s)) as [x0 g'].
  unfold bind at 1. cbn [modify ret fst snd].
  intros [= <- <-]. split; reflexivity.
Qed.

(** The loop of the sampler computes [denoised] on the scheduler and the
    generator of the state it starts in. *)
Lemma denoise_denoised (net : module) (cond : features) (ks : list Z)
    (x : tensor3) (s : policy) :
  denoise net cond ks x s
  = (Ok (fst (denoised (noise_scheduler s) net cond ks x (torch_rng s))),
     set_torch_rng (snd (denoised (noise_scheduler s) net cond ks x (torch_rng s)))
       (set_trace (trace s ++ predict_events net ks) s)).
Proof.
  revert x s. induction ks as [| k ks IH]; intros x s;
    unfold predict_events; cbn [denoise denoised map fst snd].
  - rewrite app_nil_r. destruct s; reflexivity.
  - unfold bind at 1. cbn [log modify].
    unfold bind at 1. cbn [get]. unfold bind at 1. cbn [get].
    cbn [noise_scheduler torch_rng set_trace].
    destruct (scheduler_step (noise_scheduler s) (torch_rng s) _ k x) as [prev g'].
    unfold bind at 1. cbn [modify].
    rewrite IH. unfold predict_events.
    cbn [noise_scheduler torch_rng trace set_torch_rng set_trace].
    rewrite <- app_assoc. reflexivity.
Qed.

(** What a returning sampler call returns: the window of the trajectory
    that [denoised_trajectory] computes on the selected network; the
    generator and the scheduler it leaves are those of that computation. *)
Lemma sampler_result (obs : obs_dict) (goal : option obs_dict) (s s' : policy)
    (action : tensor3) :
  _get_action_trajectory obs goal s = (Ok action, s') ->
  exists n : Z,
    inference_steps (algo_config s) = Some n /\
    0 <= f_shape0 (obs_encoder (sampling_net s) obs goal) /\
    0 <= prediction_horizon (algo_config s) /\
    action = slice_time (observation_horizon (algo_config s) - 1)
                        (observation_horizon (algo_config s) - 1
                         + action_horizon (algo_config s))
                        (fst (denoised_trajectory (sampling_net s) n obs goal s)) /\
    torch_rng s' = snd (denoised_trajectory (sampling_net s) n obs goal s) /\
    noise_scheduler s' = set_timesteps (noise_scheduler s) n.
Proof.
  rewrite sampler_unfold.
  destruct (training (nets s)); [discriminate |].
  destruct (inference_steps (algo_config s)) as [n |]; [| discriminate].
  pose proof (encode_obs_keeps_field torch_rng (sampling_net s) obs goal
                ltac:(reflexivity) (entered obs s)) as Hrng1.
  pose proof (encode_obs_keeps_field noise_scheduler (sampling_net s) obs goal
                ltac:(reflexivity) (entered obs s)) as Hsch1.
  destruct (encode_obs _ obs goal _) as [[obs_features | e] s1] eqn:Henc;
    [| discriminate].
  apply encode_obs_inv in Henc as [-> _].
  cbn [snd entered torch_rng noise_scheduler set_trace] in Hrng1, Hsch1.
  destruct (randn3 _ _ _ s1) as [[noisy | e] s2] eqn:Hrand; [| discriminate].
  pose proof (randn3_inv _ _ _ _ _ _ Hrand) as (HB & HTp & _).
  apply randn3_run in Hrand as [-> ->].
  cbv zeta. rewrite denoise_denoised.
  cbn [noise_scheduler torch_rng set_noise_scheduler set_torch_rng set_trace].
  rewrite Hrng1, Hsch1.
  intros [= <- <-]. exists n.
  unfold denoised_trajectory.
  destruct (gaussian_noise _ _ _ (torch_rng s)) as [noisy g].
  cbn [fst snd noise_scheduler torch_rng set_noise_scheduler set_torch_rng set_trace].
  repeat split; assumption.
Qed.





Section MoreWithShapeLaw.

Hypothesis scheduler_step_keeps_shape :
  forall sch g model_output k sample,
    map (@length tensor1) (fst (scheduler_step sch g model_output k sample))
    = map (@length tensor1) sample.

Lemma sampler_trajectory_length_aux
    (obs : obs_dict) (goal : option obs_dict) (s s' : policy) (action : tensor3) :
  _get_action_trajectory obs goal s = (Ok action, s') ->
  1 <= observation_horizon (algo_config s) ->
  0 <= action_horizon (algo_config s) ->
  time_length (refill_size (algo_config s)) action /\
  Z.of_nat (length action) = f_shape0 (obs_encoder (sampling_net s) obs goal).
Proof.
  intros Hrun HTo HTa.
  destruct (sampler_inv scheduler_step_keeps_shape obs goal s s' action Hrun)
    as (noisy & naction & ks & s3 & _ & HTp & HB & _ & Htime & Hlen & ->).
  split.
  - unfold time_length, slice_time in *. apply List.Forall_map.
    eapply List.Forall_impl; [| exact Htime].
    intros traj Htraj. cbn beta in Htraj |- *.
    rewrite py_slice_length_from by lia.
    unfold refill_size. rewrite Htraj, Z2Nat.id by exact HTp. reflexivity.
  - unfold slice_time. rewrite List.length_map.
    etransitivity; [| exact HB]. f_equal. exact Hlen.
Qed.

(** For [To >= 1] and [Ta >= 0] every trajectory that the sampler returns
    has [min(To - 1 + Ta, Tp) - (To - 1)] entries (none if that is
    negative): a prediction horizon below [To - 1 + Ta] shortens the
    result, it is not an error. *)
Theorem sampler_trajectory_length
    (s s' : policy) (obs : obs_dict) (goal : option obs_dict) (action : tensor3) :
  _get_action_trajectory obs goal s = (Ok action, s') ->
  1 <= observation_horizon (algo_config s) ->
  0 <= action_horizon (algo_config s) ->
  time_length (refill_size (algo_config s)) action /\
  Z.of_nat (length action) = f_shape0 (obs_encoder (sampling_net s) obs goal).
Proof.
  intros Hrun HTo HTa.
  destruct (sampler_inv scheduler_step_keeps_shape obs goal s s' action Hrun)
    as (noisy & naction & ks & s3 & _ & HTp & HB & _ & Htime & Hlen & ->).
  split.
  - unfold time_length, slice_time in *. apply List.Forall_map.
    eapply List.Forall_impl; [| exact Htime].
    intros traj Htraj. cbn beta in Htraj |- *.
    rewrite py_slice_length_from by lia.
    unfold refill_size. rewrite Htraj, Z2Nat.id by exact HTp. reflexivity.
  - unfold slice_time. rewrite List.length_map.
    etransitivity; [| exact HB]. f_equal. exact Hlen.
Qed.

(** When one refill has no action to offer ([Ta = 0], or [Tp <= To - 1]),
    [get_action] on an empty queue runs the whole sampler and then raises
    the IndexError of [popleft]; the queue stays empty. *)
Theorem get_action_without_actions_raises_IndexError
    (s : policy) (obs : obs_dict) (goal : option obs_dict) (n : nat) :
  1 <= observation_horizon (algo_config s) ->
  0 <= action_horizon (algo_config s) ->
  0 <= prediction_horizon (algo_config s) ->
  refill_size (algo_config s) = O ->
  sampler_ready s obs = true ->
  action_queue s = Some (Deque n []) ->
  fst (get_action obs goal s) = Raise IndexError /\
  action_queue (snd (get_action obs goal s)) = Some (Deque n []) /\
  sampler_calls (snd (get_action obs goal s)) = S (sampler_calls s).
Proof.
  intros HTo HTa HTp Hsize Hready Hq.
  destruct (sampler_returns obs s HTp Hready) as (action & s1 & Hrun).
  destruct (sampler_trajectory_length_aux obs None s s1 action Hrun HTo HTa)
    as (Htime & HB).
  assert (HB1 : 1 <= f_shape0 (obs_encoder (sampling_net s) obs None)).
  { unfold sampler_ready in Hready.
    repeat (apply andb_prop in Hready as [Hready ?]).
    match goal with H : (1 <=? _) = true |- _ => apply Z.leb_le in H; exact H end. }
  destruct action as [| first rest]; [cbn in HB; lia |].
  inversion Htime as [| ? ? Hfirst _]; subst. rewrite Hsize in Hfirst.
  destruct first; [| discriminate].
  pose proof (sampler_counted obs None s) as Hcount.
  rewrite Hrun in Hcount. cbn [snd] in Hcount.
  rewrite (get_action_refill obs goal s s1 n [] rest Hq Hrun).
  cbn. auto.
Qed.

Lemma refill_then_drain (s s1 : policy) (o1 : obs_dict) (obss : list obs_dict)
    (n : nat) (first : tensor2) (rest : tensor3) :
  action_queue s = Some (Deque n []) ->
  _get_action_trajectory o1 None s = (Ok (first :: rest), s1) ->
  (length first <= n)%nat ->
  length (o1 :: obss) = length first ->
  get_actions (o1 :: obss) s
  = (Ok (map (fun a => [a]) first), set_action_queue (Some (Deque n [])) s1).
Proof.
  intros Hq Hrun Hfit Hcalls.
  cbn [get_actions]. unfold bind at 1.
  rewrite (get_action_refill o1 None s s1 n first rest Hq Hrun).
  rewrite (deque_extend_fits first (Deque n [])) by (cbn [items maxlen length]; lia).
  cbn [items maxlen app].
  destruct first as [| a l]; [cbn in Hcalls; lia |].
  unfold bind at 1.
  rewrite (get_actions_drain l obss _ n) by (cbn in *; congruence || lia).
  reflexivity.
Qed.

(** Without the horizon invariant the amortisation is by
    [m = min(To - 1 + Ta, Tp) - (To - 1)] calls, not by [Ta]: after [reset]
    the first [m] calls return the sampler's [m] actions in order on one
    sampler invocation, and call [m + 1] samples again.  Nothing reports
    that [Tp] was too short for [Ta] actions. *)
Theorem short_prediction_horizon_refills_early
    (s : policy) (o1 : obs_dict) (obss : list obs_dict) (o_next : obs_dict) :
  1 <= observation_horizon (algo_config s) ->
  0 <= action_horizon (algo_config s) ->
  0 <= prediction_horizon (algo_config s) ->
  sampler_ready s o1 = true ->
  action_queue s = Some (Deque (Z.to_nat (action_horizon (algo_config s))) []) ->
  length (o1 :: obss) = refill_size (algo_config s) ->
  exists (first : tensor2) (rest : tensor3) (s1 : policy),
    _get_action_trajectory o1 None s = (Ok (first :: rest), s1) /\
    get_actions (o1 :: obss) s
    = (Ok (map (fun a => [a]) first),
       set_action_queue
         (Some (Deque (Z.to_nat (action_horizon (algo_config s))) [])) s1) /\
    sampler_calls (snd (get_actions (o1 :: obss) s)) = S (sampler_calls s) /\
    sampler_calls (snd (get_action o_next None (snd (get_actions (o1 :: obss) s))))
    = S (S (sampler_calls s)).
Proof.
  intros HTo HTa HTp Hready Hq Hcalls.
  destruct (sampler_returns o1 s HTp Hready) as (action & s1 & Hrun).
  destruct (sampler_trajectory_length_aux o1 None s s1 action Hrun HTo HTa)
    as (Htime & HB).
  assert (HB1 : 1 <= f_shape0 (obs_encoder (sampling_net s) o1 None)).
  { unfold sampler_ready in Hready.
    repeat (apply andb_prop in Hready as [Hready ?]).
    match goal with H : (1 <=? _) = true |- _ => apply Z.leb_le in H; exact H end. }
  destruct action as [| first rest]; [cbn in HB; lia |].
  inversion Htime as [| ? ? Hfirst _]; subst.
  assert (Hfit : (length first <= Z.to_nat (action_horizon (algo_config s)))%nat)
    by (rewrite Hfirst; unfold refill_size; lia).
  pose proof (refill_then_drain s s1 o1 obss _ first rest Hq Hrun Hfit
                ltac:(congruence)) as Hall.
  pose proof (sampler_counted o1 None s) as Hcount.
  rewrite Hrun in Hcount. cbn [snd] in Hcount.
  exists first, rest, s1. rewrite Hall. cbn [snd].
  repeat split; try assumption.
  erewrite get_action_empty_counted by reflexivity.
  cbn. f_equal. exact Hcount.
Qed.


Lemma denoised_shape (sch : scheduler) (net : module) (cond : features)
    (ks : list Z) (x : tensor3) (g : generator) :
  map (@length tensor1) (fst (denoised sch net cond ks x g))
  = map (@length tensor1) x.
Proof.
  revert x g. induction ks as [| k ks IH]; intros x g; cbn [denoised];
    [reflexivity |].
  pose proof (scheduler_step_keeps_shape sch g
                (noise_pred_net net x (TOne k) cond) k x) as Hstep.
  destruct (scheduler_step sch g _ k x) as [prev g']. cbn [fst] in Hstep.
  rewrite IH. exact Hstep.
Qed.

Lemma gaussian_noise_shape (B Tp Da : Z) (g : generator) :
  length (fst (gaussian_noise B Tp Da g)) = Z.to_nat B /\
  time_length (Z.to_nat Tp) (fst (gaussian_noise B Tp Da g)).
Proof.
  unfold gaussian_noise. split; [apply draws_length |].
  apply draws_Forall. intros g0. apply draws_length.
Qed.

(** The fully denoised trajectory has one [Tp]-long trajectory per batch
    element of the encoder's output. *)
Lemma denoised_trajectory_shape (net : module) (n : Z) (obs : obs_dict)
    (goal : option obs_dict) (s : policy) :
  length (fst (denoised_trajectory net n obs goal s))
  = Z.to_nat (f_shape0 (obs_encoder net obs goal)) /\
  time_length (Z.to_nat (prediction_horizon (algo_config s)))
              (fst (denoised_trajectory net n obs goal s)).
Proof.
  unfold denoised_trajectory.
  destruct (gaussian_noise_shape (f_shape0 (obs_encoder net obs goal))
              (prediction_horizon (algo_config s)) (ac_dim s) (torch_rng s))
    as [Hlen Htime].
  destruct (gaussian_noise _ _ _ (torch_rng s)) as [noisy g]. cbn [fst] in *.
  match goal with |- context [denoised ?sch net ?c ?ks noisy g] =>
    pose proof (denoised_shape sch net c ks noisy g) as Hshape end.
  split.
  - rewrite <- Hlen. apply (f_equal (@length nat)) in Hshape.
    rewrite !List.length_map in Hshape. exact Hshape.
  - apply (time_length_map _ _ noisy Hshape Htime).
Qed.

(** C6. Whenever the sampler returns, what it returns is the slice
    [[To - 1 : To - 1 + Ta]] along the time axis of the fully denoised
    trajectory: the [[B, Tp, Da]] Gaussian sample drawn for the call, taken
    through every timestep of the configured scheduler on the selected
    network.  That trajectory has [Tp] timesteps for each of the [B] batch
    elements, and the result has the same batch elements; for [To >= 1],
    [Ta >= 0] and [Tp >= To - 1 + Ta] every returned trajectory therefore
    has exactly [Ta] action vectors, its entry [i] being entry
    [To - 1 + i] of the denoised one. *)
Theorem sampler_returns_action_window
    (s s' : policy) (obs : obs_dict) (goal : option obs_dict) (action : tensor3) :
  _get_action_trajectory obs goal s = (Ok action, s') ->
  let To := observation_horizon (algo_config s) in
  let Ta := action_horizon (algo_config s) in
  let Tp := prediction_horizon (algo_config s) in
  exists n : Z,
    inference_steps (algo_config s) = Some n /\
    let naction := fst (denoised_trajectory (sampling_net s) n obs goal s) in
    Z.of_nat (length naction) = f_shape0 (obs_encoder (sampling_net s) obs goal) /\
    time_length (Z.to_nat Tp) naction /\
    action = slice_time (To - 1) (To - 1 + Ta) naction /\
    length action = length naction /\
    (1 <= To -> 0 <= Ta -> To - 1 + Ta <= Tp ->
     time_length (Z.to_nat Ta) action /\
     Forall2 (fun a n =>
                forall i : nat, (i < Z.to_nat Ta)%nat ->
                  nth_error a i = nth_error n (Z.to_nat (To - 1) + i))
             action naction).
Proof.
  intros Hrun To Ta Tp.
  destruct (sampler_result obs goal s s' action Hrun)
    as (n & Hn & HB & HTp & Hact & _).
  destruct (denoised_trajectory_shape (sampling_net s) n obs goal s) as [Hlen Htime].
  exists n. split; [exact Hn |]. cbv zeta.
  set (naction := fst (denoised_trajectory (sampling_net s) n obs goal s)) in *.
  fold To Ta Tp in Hact, Htime |- *.
  split; [rewrite Hlen; apply Z2Nat.id, HB |].
  split; [exact Htime |]. split; [exact Hact |].
  split; [rewrite Hact; unfold slice_time; apply List.length_map |].
  intros HTo HTa Hwin. rewrite Hact. split.
  - replace (Z.to_nat Ta) with (Z.to_nat (To - 1 + Ta - (To - 1))) by (f_equal; lia).
    apply (slice_time_length _ _ (Z.to_nat Tp)); [lia | lia | lia | exact Htime].
  - unfold slice_time. clear Hact Hlen.
    induction Htime as [| traj rest Htraj _ IH]; cbn [map]; constructor; [| exact IH].
    intros i Hi. apply py_slice_nth; lia.
Qed.


End MoreWithShapeLaw.


End MoreProperties.

(** * Module trees *)

Section ModuleTreeProperties.
Context `{TE : Torch}.

(** Induction on a module with the hypothesis for every child. *)
Lemma nn_module_induction (P : nn_module -> Prop) :
  (forall kind children,
      Forall (fun kc => P (snd kc)) children -> P (NNModule kind children)) ->
  forall m, P m.
Proof.
  intros Hnode. fix IH 1. intros [kind children]. apply Hnode.
  induction children as [| [k c] cs IHcs]; constructor; [apply IH | exact IHcs].
Qed.

(** ** The dictionary of children *)

Lemma child_here (k : string) (c : nn_module) (post : list (string * nn_module)) :
  child k ((k, c) :: post) = Some c.
Proof. cbn [child]. rewrite String.eqb_refl. reflexivity. Qed.

Lemma child_app_skip (k : string) (pre post : list (string * nn_module)) :
  ~ In k (map fst pre) -> child k (pre ++ post) = child k post.
Proof.
  induction pre as [| [k' c'] pre IH]; intros Hk; [reflexivity |].
  cbn [app child]. cbn [map fst In] in Hk.
  destruct (String.eqb_spec k' k) as [-> | Hne]; [tauto |].
  apply IH. tauto.
Qed.

Lemma set_child_here (k : string) (c c0 : nn_module) (post : list (string * nn_module)) :
  set_child k c ((k, c0) :: post) = (k, c) :: post.
Proof. cbn [set_child]. rewrite String.eqb_refl. reflexivity. Qed.

Lemma set_child_app_skip (k : string) (c : nn_module)
    (pre post : list (string * nn_module)) :
  ~ In k (map fst pre) -> set_child k c (pre ++ post) = pre ++ set_child k c post.
Proof.
  induction pre as [| [k' c'] pre IH]; intros Hk; [reflexivity |].
  cbn [app set_child]. cbn [map fst In] in Hk.
  destruct (String.eqb_spec k' k) as [-> | Hne]; [tauto |].
  f_equal. apply IH. tauto.
Qed.

Lemma set_child_same (k : string) (c : nn_module) (cs : list (string * nn_module)) :
  child k cs = Some c -> set_child k c cs = cs.
Proof.
  induction cs as [| [k' c'] cs IH]; [discriminate |].
  cbn [child set_child].
  destruct (String.eqb_spec k' k) as [-> | Hne].
  - intros [= ->]. reflexivity.
  - intros Hc. f_equal. apply IH, Hc.
Qed.

Lemma child_set_child (k : string) (c : nn_module) (cs : list (string * nn_module)) :
  child k (set_child k c cs) = Some c.
Proof.
  induction cs as [| [k' c'] cs IH]; [apply child_here |].
  cbn [set_child].
  destruct (String.eqb_spec k' k) as [-> | Hne]; [apply child_here |].
  cbn [child]. destruct (String.eqb_spec k' k); [congruence | exact IH].
Qed.

Lemma set_child_twice (k : string) (c1 c2 : nn_module)
    (cs : list (string * nn_module)) :
  set_child k c2 (set_child k c1 cs) = set_child k c2 cs.
Proof.
  induction cs as [| [k' c'] cs IH]; [apply set_child_here |].
  cbn [set_child].
  destruct (String.eqb_spec k' k) as [-> | Hne]; [apply set_child_here |].
  cbn [set_child]. destruct (String.eqb_spec k' k); [congruence |].
  f_equal. exact IH.
Qed.

Lemma with_child_same (m : nn_module) (k : string) (c : nn_module) :
  child k (children_of m) = Some c -> with_child m k c = m.
Proof.
  intros Hc. unfold with_child. rewrite (set_child_same k c _ Hc).
  destruct m; reflexivity.
Qed.

(** ** named_modules *)

Lemma named_modules_shift (pre q : list string) (m : nn_module) :
  named_modules (pre ++ q) m
  = map (fun km => (pre ++ fst km, snd km)) (named_modules q m).
Proof.
  revert q. induction m as [kind children IH] using nn_module_induction. intros q.
  cbn [named_modules map fst snd]. f_equal.
  induction IH as [| kc cs Hkc _ IHcs]; [reflexivity |].
  cbn [flat_map]. rewrite List.map_app, <- IHcs. f_equal.
  rewrite <- app_assoc. apply Hkc.
Qed.

Lemma named_modules_under (k : string) (m : nn_module) :
  named_modules ([] ++ [k]) m
  = map (fun km => (k :: fst km, snd km)) (named_modules [] m).
Proof. apply (named_modules_shift [k] [] m). Qed.

Lemma named_modules_child (kind : nn_kind) (children : list (string * nn_module))
    (k : string) (c : nn_module) (p : list string) (x : nn_module) :
  In (k, c) children -> In (p, x) (named_modules [] c) ->
  In (k :: p, x) (named_modules [] (NNModule kind children)).
Proof.
  intros Hc Hp. cbn [named_modules]. right. apply in_flat_map.
  exists (k, c). split; [exact Hc |]. cbn [fst snd].
  rewrite named_modules_under. apply in_map_iff.
  exists (p, x). split; [reflexivity | exact Hp].
Qed.

Lemma paths_shift (predicate : nn_module -> bool) (k : string)
    (l : list (list string * nn_module)) :
  map fst (List.filter (fun km => predicate (snd km))
                       (map (fun km => (k :: fst km, snd km)) l))
  = map (cons k) (map fst (List.filter (fun km => predicate (snd km)) l)).
Proof.
  induction l as [| km l IH]; [reflexivity |].
  cbn [map List.filter fst snd]. destruct (predicate (snd km)); cbn [map fst];
    rewrite IH; reflexivity.
Qed.

Lemma matching_paths_node (predicate : nn_module -> bool) (kind : nn_kind)
    (children : list (string * nn_module)) :
  matching_paths predicate (NNModule kind children)
  = (if predicate (NNModule kind children) then [[]] else [])
    ++ flat_map (fun kc => map (cons (fst kc)) (matching_paths predicate (snd kc)))
                children.
Proof.
  unfold matching_paths. cbn [named_modules List.filter snd].
  assert (Hrest :
            map fst (List.filter (fun km => predicate (snd km))
                       (flat_map (fun kc => named_modules ([] ++ [fst kc]) (snd kc))
                                 children))
            = flat_map (fun kc => map (cons (fst kc))
                                    (map fst (List.filter (fun km => predicate (snd km))
                                                (named_modules [] (snd kc)))))
                       children).
  { induction children as [| [k c] cs IH]; [reflexivity |].
    cbn [flat_map fst snd]. rewrite List.filter_app, List.map_app, IH. f_equal.
    rewrite named_modules_under. apply paths_shift. }
  destruct (predicate (NNModule kind children)); cbn [map fst];
    rewrite Hrest; reflexivity.
Qed.

Lemma matching_paths_nonempty (predicate : nn_module -> bool) (m : nn_module) :
  predicate m = false -> Forall (fun q => q <> []) (matching_paths predicate m).
Proof.
  intros Hm. destruct m as [kind children].
  rewrite matching_paths_node, Hm. cbn [app].
  apply List.Forall_forall. intros q Hq.
  apply in_flat_map in Hq as (kc & _ & Hq).
  apply in_map_iff in Hq as (q' & <- & _). discriminate.
Qed.

Lemma split_name_nonempty (l : list (list string)) :
  Forall (fun q => q <> []) l -> map split_name l = l.
Proof.
  induction 1 as [| q l Hq _ IH]; [reflexivity |].
  cbn [map]. rewrite IH. destruct q; [congruence | reflexivity].
Qed.

Lemma tree_ok_node (kind : nn_kind) (children : list (string * nn_module)) :
  tree_ok (NNModule kind children) ->
  node_ok (NNModule kind children) /\
  forall k c, In (k, c) children -> tree_ok c.
Proof.
  unfold tree_ok. rewrite !List.Forall_forall. intros Hall. split.
  - apply (Hall ([], NNModule kind children)). left. reflexivity.
  - intros k c Hc. apply List.Forall_forall. intros [p x] Hp.
    apply (Hall (k :: p, x)). apply (named_modules_child kind children k c p x Hc Hp).
Qed.

Lemma batchnorm_sizes_child (kind : nn_kind) (children : list (string * nn_module))
    (k : string) (c : nn_module) (n : Z) :
  In (k, c) children -> In n (batchnorm_sizes c) ->
  In n (batchnorm_sizes (NNModule kind children)).
Proof.
  unfold batchnorm_sizes. rewrite !in_flat_map.
  intros Hc ([p x] & Hp & Hn). exists (k :: p, x).
  split; [apply (named_modules_child kind children k c p x Hc Hp) | exact Hn].
Qed.

(** ** One round of the loop *)

Lemma get_submodule_parent (root : nn_module) (parent : list string) :
  match parent with
  | [] => Returns root
  | _ => get_submodule root parent
  end = get_submodule root parent.
Proof. destruct parent; reflexivity. Qed.

(** A direct child of the root: found by position in a Sequential that
    names its children by position, by name otherwise. *)
Lemma replace_at_child (func : nn_module -> outcome nn_module) (kind : nn_kind)
    (pre post : list (string * nn_module)) (k : string) (c t : nn_module) :
  ~ In k (map fst pre) ->
  (kind = Sequential -> py_int k = Some (Z.of_nat (length pre))) ->
  func c = Returns t ->
  replace_at func (NNModule kind (pre ++ (k, c) :: post)) [k]
  = (Returns tt, NNModule kind (pre ++ (k, t) :: post)).
Proof.
  intros Hk Hpos Hf. unfold replace_at. cbn [List.removelast List.last].
  unfold get_src_module, set_tgt_module. cbn [kind_of children_of].
  assert (Hchild : child k (pre ++ (k, c) :: post) = Some c)
    by (rewrite child_app_skip by exact Hk; apply child_here).
  assert (Hset : set_child k t (pre ++ (k, c) :: post) = pre ++ (k, t) :: post)
    by (rewrite set_child_app_skip by exact Hk; f_equal; apply set_child_here).
  assert (Hseq : kind = Sequential ->
                 and_then (to_int k) (fun idx =>
                   seq_position (length (pre ++ (k, c) :: post)) idx)
                 = Returns (length pre) /\
                 nth_error (pre ++ (k, c) :: post) (length pre) = Some (k, c)).
  { intros Hkind. unfold to_int. rewrite (Hpos Hkind). cbn [and_then].
    unfold seq_position. rewrite length_app. cbn [length].
    destruct (Z.leb_spec (- Z.of_nat (length pre + S (length post)))
                         (Z.of_nat (length pre))); [| lia].
    destruct (Z.ltb_spec (Z.of_nat (length pre))
                         (Z.of_nat (length pre + S (length post)))); [| lia].
    cbn [andb]. rewrite Z.mod_small by lia. rewrite Nat2Z.id.
    split; [reflexivity |].
    rewrite nth_error_app2 by lia. rewrite Nat.sub_diag. reflexivity. }
  destruct kind; try (rewrite Hchild, Hf, Hset; reflexivity).
  destruct (Hseq eq_refl) as [Hidx Hnth].
  unfold and_then in *. destruct (to_int k) as [idx | e]; [| discriminate].
  rewrite Hidx, Hnth. cbn [snd fst]. rewrite Hf, Hset. reflexivity.
Qed.

(** A deeper module: the round works on the child as it would on a root. *)
Lemma replace_at_under (func : nn_module -> outcome nn_module) (m : nn_module)
    (k : string) (c : nn_module) (q : list string) :
  child k (children_of m) = Some c -> q <> [] ->
  replace_at func m (k :: q)
  = (fst (replace_at func c q), with_child m k (snd (replace_at func c q))).
Proof.
  intros Hc Hq. destruct q as [| q0 q']; [congruence |].
  unfold replace_at.
  change (List.removelast (k :: q0 :: q')) with (k :: List.removelast (q0 :: q')).
  change (List.last (k :: q0 :: q') ""%string) with (List.last (q0 :: q') ""%string).
  rewrite (get_submodule_parent c).
  cbn [get_submodule]. rewrite Hc.
  destruct (get_submodule c (List.removelast (q0 :: q'))) as [parent_module | e];
    [| cbn [fst snd]; rewrite (with_child_same m k c Hc); reflexivity].
  destruct (get_src_module parent_module _) as [src_module | e];
    [| cbn [fst snd]; rewrite (with_child_same m k c Hc); reflexivity].
  destruct (func src_module) as [tgt_module | e];
    [| cbn [fst snd]; rewrite (with_child_same m k c Hc); reflexivity].
  destruct (set_tgt_module parent_module _ tgt_module) as [parent_module' | e];
    [| cbn [fst snd]; rewrite (with_child_same m k c Hc); reflexivity].
  cbn [fst snd put_submodule]. rewrite Hc. reflexivity.
Qed.

Lemma replace_each_app (func : nn_module -> outcome nn_module) (m : nn_module)
    (l1 l2 : list (list string)) :
  replace_each func m (l1 ++ l2)
  = match replace_each func m l1 with
    | (Returns _, m') => replace_each func m' l2
    | (Raises e, m') => (Raises e, m')
    end.
Proof.
  revert m. induction l1 as [| q l1 IH]; intros m; [reflexivity |].
  cbn [app replace_each].
  destruct (replace_at func m q) as [[[] | e] m']; [apply IH | reflexivity].
Qed.

Lemma replace_each_under (func : nn_module -> outcome nn_module) (m : nn_module)
    (k : string) (c : nn_module) (qs : list (list string)) :
  child k (children_of m) = Some c ->
  Forall (fun q => q <> []) qs ->
  replace_each func m (map (cons k) qs)
  = (fst (replace_each func c qs), with_child m k (snd (replace_each func c qs))).
Proof.
  intros Hc Hqs. revert m c Hc.
  induction Hqs as [| q qs Hq _ IH]; intros m c Hc.
  - cbn [map replace_each fst snd]. rewrite (with_child_same m k c Hc). reflexivity.
  - cbn [map replace_each]. rewrite (replace_at_under func m k c q Hc Hq).
    destruct (replace_at func c q) as [[[] | e] c1]; cbn [fst snd]; [| reflexivity].
    rewrite (IH (with_child m k c1) c1)
      by (unfold with_child; cbn [children_of]; apply child_set_child).
    f_equal. unfold with_child. cbn [kind_of children_of].
    rewrite set_child_twice. reflexivity.
Qed.

(** ** The loop on a tree of BatchNorm2d modules *)

Lemma bn_to_gn_node (fpg : Z) (kind : nn_kind) (children : list (string * nn_module)) :
  is_BatchNorm2d (NNModule kind children) = false ->
  bn_to_gn fpg (NNModule kind children)
  = NNModule kind (map (fun kc => (fst kc, bn_to_gn fpg (snd kc))) children).
Proof. destruct kind; [discriminate | reflexivity ..]. Qed.

Lemma bn_to_gn_leaf (fpg : Z) (c : nn_module) :
  is_BatchNorm2d c = true ->
  fpg <> 0 ->
  (forall n, In n (batchnorm_sizes c) -> GroupNorm_init (n / fpg) n = None) ->
  to_GroupNorm fpg c = Returns (bn_to_gn fpg c).
Proof.
  destruct c as [[n | | |] children]; try discriminate. intros _ Hfpg Hinit.
  unfold to_GroupNorm, num_features_of. cbn [kind_of and_then bn_to_gn].
  destruct (Z.eqb_spec fpg 0); [contradiction |].
  rewrite Hinit; [reflexivity |].
  unfold batchnorm_sizes. cbn [named_modules flat_map snd kind_of app].
  left. reflexivity.
Qed.

Lemma matching_paths_leaf (c : nn_module) :
  is_BatchNorm2d c = true -> children_of c = [] ->
  matching_paths is_BatchNorm2d c = [[]].
Proof.
  destruct c as [kind children]. cbn [children_of]. intros Hbn ->.
  rewrite matching_paths_node, Hbn. reflexivity.
Qed.

(** The children of one module, from left to right: those before the
    current one have been converted. *)
Lemma replace_children (fpg : Z) (kind : nn_kind)
    (done todo : list (string * nn_module)) :
  List.NoDup (map fst (done ++ todo)) ->
  (kind = Sequential ->
   forall i kc, nth_error (done ++ todo) i = Some kc ->
                py_int (fst kc) = Some (Z.of_nat i)) ->
  Forall (fun kc =>
            (is_BatchNorm2d (snd kc) = true ->
             children_of (snd kc) = [] /\
             to_GroupNorm fpg (snd kc) = Returns (bn_to_gn fpg (snd kc))) /\
            (is_BatchNorm2d (snd kc) = false ->
             replace_each (to_GroupNorm fpg) (snd kc)
                          (matching_paths is_BatchNorm2d (snd kc))
             = (Returns tt, bn_to_gn fpg (snd kc)))) todo ->
  replace_each (to_GroupNorm fpg)
    (NNModule kind (map (fun kc => (fst kc, bn_to_gn fpg (snd kc))) done ++ todo))
    (flat_map (fun kc => map (cons (fst kc)) (matching_paths is_BatchNorm2d (snd kc)))
              todo)
  = (Returns tt,
     NNModule kind (map (fun kc => (fst kc, bn_to_gn fpg (snd kc))) (done ++ todo))).
Proof.
  intros Hnd Hpos Htodo. revert done Hnd Hpos.
  induction Htodo as [| [k c] todo [Hleaf Hinner] _ IH]; intros done Hnd Hpos.
  - cbn [flat_map replace_each]. rewrite !app_nil_r. reflexivity.
  - cbn [fst snd] in Hleaf, Hinner.
    assert (Hk : ~ In k (map fst (map (fun kc => (fst kc, bn_to_gn fpg (snd kc))) done))).
    { rewrite List.map_map. cbn [fst].
      rewrite List.map_app in Hnd. cbn [map fst] in Hnd.
      apply List.NoDup_remove_2 in Hnd. intros Hin. apply Hnd.
      apply in_or_app. left. exact Hin. }
    assert (Hnext : replace_each (to_GroupNorm fpg)
                      (NNModule kind
                         (map (fun kc => (fst kc, bn_to_gn fpg (snd kc))) done
                          ++ (k, c) :: todo))
                      (map (cons k) (matching_paths is_BatchNorm2d c))
                    = (Returns tt,
                       NNModule kind
                         (map (fun kc => (fst kc, bn_to_gn fpg (snd kc))) done
                          ++ (k, bn_to_gn fpg c) :: todo))).
    { destruct (is_BatchNorm2d c) eqn:Hbn.
      - destruct (Hleaf eq_refl) as [Hnone Hgn].
        rewrite (matching_paths_leaf c Hbn Hnone). cbn [map replace_each].
        rewrite (replace_at_child _ kind _ todo k c (bn_to_gn fpg c) Hk); [reflexivity | | exact Hgn].
        intros Hkind. rewrite List.length_map.
        apply (Hpos Hkind (length done) (k, c)).
        rewrite nth_error_app2 by lia. rewrite Nat.sub_diag. reflexivity.
      - rewrite (replace_each_under _ _ k c).
        + rewrite (Hinner eq_refl). cbn [fst snd]. unfold with_child.
          cbn [kind_of children_of].
          rewrite set_child_app_skip by exact Hk. rewrite set_child_here. reflexivity.
        + cbn [children_of]. rewrite child_app_skip by exact Hk. apply child_here.
        + apply matching_paths_nonempty, Hbn. }
    cbn [flat_map fst snd]. rewrite replace_each_app, Hnext.
    assert (Hassoc : (done ++ [(k, c)]) ++ todo = done ++ (k, c) :: todo)
      by (symmetry; apply (List.app_assoc done [(k, c)] todo)).
    specialize (IH (done ++ [(k, c)])). rewrite Hassoc in IH.
    rewrite (List.map_app (fun kc => (fst kc, bn_to_gn fpg (snd kc))) done [(k, c)]),
            <- List.app_assoc in IH.
    apply IH; assumption.
Qed.

Lemma replace_each_bn_to_gn (fpg : Z) (m : nn_module) :
  fpg <> 0 ->
  tree_ok m ->
  (forall n, In n (batchnorm_sizes m) -> GroupNorm_init (n / fpg) n = None) ->
  is_BatchNorm2d m = false ->
  replace_each (to_GroupNorm fpg) m (matching_paths is_BatchNorm2d m)
  = (Returns tt, bn_to_gn fpg m).
Proof.
  intros Hfpg. induction m as [kind children IH] using nn_module_induction.
  intros Hok Hinit Hbn.
  destruct (tree_ok_node kind children Hok) as [[Hnd Hkind] Hsub].
  cbn [children_of kind_of] in Hnd, Hkind.
  rewrite matching_paths_node, Hbn, (bn_to_gn_node fpg kind children Hbn). cbn [app].
  apply (replace_children fpg kind [] children).
  - exact Hnd.
  - intros ->. exact Hkind.
  - rewrite List.Forall_forall in IH |- *. intros [k c] Hc. cbn [snd].
    assert (Hinit_c : forall n, In n (batchnorm_sizes c) ->
                                GroupNorm_init (n / fpg) n = None)
      by (intros n Hn; apply Hinit, (batchnorm_sizes_child kind children k c n Hc Hn)).
    split.
    + intros Hbn_c. split; [| apply bn_to_gn_leaf; assumption].
      pose proof (Hsub k c Hc) as Hok_c.
      destruct c as [[n | | |] children_c]; try discriminate.
      destruct (tree_ok_node _ _ Hok_c) as [[_ Hkind_c] _]. exact Hkind_c.
    + intros Hbn_c. apply (IH (k, c) Hc (Hsub k c Hc) Hinit_c Hbn_c).
Qed.

(** No BatchNorm2d is left in the converted tree. *)
Lemma bn_to_gn_none_left (fpg : Z) (m : nn_module) :
  matching_paths is_BatchNorm2d (bn_to_gn fpg m) = [].
Proof.
  induction m as [kind children IH] using nn_module_induction.
  destruct (is_BatchNorm2d (NNModule kind children)) eqn:Hbn.
  - destruct kind; try discriminate. reflexivity.
  - rewrite (bn_to_gn_node fpg kind children Hbn), matching_paths_node.
    replace (is_BatchNorm2d (NNModule kind _)) with false
      by (destruct kind; [discriminate | reflexivity ..]).
    cbn [app]. clear Hbn. induction IH as [| kc cs Hkc _ IHcs]; [reflexivity |].
    cbn [map flat_map fst snd]. rewrite Hkc. exact IHcs.
Qed.

Lemma batchnorm_sizes_matching (m : nn_module) :
  batchnorm_sizes m = [] <-> matching_paths is_BatchNorm2d m = [].
Proof.
  unfold batchnorm_sizes, matching_paths, is_BatchNorm2d.
  induction (named_modules [] m) as [| km l IH]; [tauto |].
  cbn [flat_map List.filter]. destruct (kind_of (snd km)); cbn [app map]; try exact IH.
  split; discriminate.
Qed.

Lemma layout_bn_to_gn (fpg : Z) (m : nn_module) (prefix : list string) :
  tree_ok m ->
  map (fun km => (fst km, kind_of (snd km))) (named_modules prefix (bn_to_gn fpg m))
  = map (fun km => (fst km, gn_kind fpg (kind_of (snd km)))) (named_modules prefix m).
Proof.
  revert prefix. induction m as [kind children IH] using nn_module_induction.
  intros prefix Hok.
  destruct (tree_ok_node kind children Hok) as [[_ Hkind] Hsub].
  cbn [children_of kind_of] in Hkind.
  destruct (is_BatchNorm2d (NNModule kind children)) eqn:Hbn.
  - destruct kind; try discriminate. subst children. reflexivity.
  - rewrite (bn_to_gn_node fpg kind children Hbn).
    cbn [named_modules map fst snd kind_of]. f_equal.
    + destruct kind; [discriminate | reflexivity ..].
    + clear Hkind Hbn Hok.
      induction IH as [| [k c] cs Hkc _ IHcs]; [reflexivity |].
      cbn [map flat_map fst snd]. rewrite !List.map_app. f_equal.
      * apply Hkc. apply (Hsub k c). left. reflexivity.
      * apply IHcs. intros k' c' Hc'. apply (Hsub k' c'). right. exact Hc'.
Qed.

(** One round on a tree that keeps the invariants replaces the module that
    the name denotes, or raises what [func] raises and replaces nothing. *)
Lemma replace_at_named (func : nn_module -> outcome nn_module) (root : nn_module)
    (p : list string) (x : nn_module) :
  tree_ok root -> In (p, x) (named_modules [] root) -> p <> [] ->
  replace_at func root p
  = match func x with
    | Raises e => (Raises e, root)
    | Returns t => (Returns tt, put_submodule root p t)
    end.
Proof.
  revert p. induction root as [kind children IH] using nn_module_induction.
  intros p Hok Hin Hp.
  destruct (tree_ok_node kind children Hok) as [[Hnd Hkind] Hsub].
  cbn [children_of kind_of] in Hnd, Hkind.
  cbn [named_modules] in Hin. destruct Hin as [[= <- _] | Hin]; [congruence |].
  apply in_flat_map in Hin as ([k c] & Hc & Hin). cbn [fst snd] in Hin.
  rewrite named_modules_under in Hin.
  apply in_map_iff in Hin as ([q x'] & [= <- <-] & Hq).
  apply in_split in Hc as (pre & post & ->).
  assert (Hk : ~ In k (map fst pre)).
  { rewrite List.map_app in Hnd. cbn [map fst] in Hnd.
    apply List.NoDup_remove_2 in Hnd. intros Hin. apply Hnd.
    apply in_or_app. left. exact Hin. }
  assert (Hchild : child k (pre ++ (k, c) :: post) = Some c)
    by (rewrite child_app_skip by exact Hk; apply child_here).
  destruct q as [| q0 q'].
  - assert (Hx : x' = c).
    { destruct c as [kind_c children_c]. cbn [named_modules] in Hq.
      destruct Hq as [[= <-] | Hq]; [reflexivity |].
      apply in_flat_map in Hq as (kc & _ & Hq). rewrite named_modules_under in Hq.
      apply in_map_iff in Hq as (km & [=] & _). }
    subst x'.
    destruct (func c) as [t | e] eqn:Hf.
    + rewrite (replace_at_child func kind pre post k c t Hk); [| | exact Hf].
      * cbn [put_submodule children_of kind_of]. rewrite Hchild.
        rewrite set_child_app_skip by exact Hk. rewrite set_child_here. reflexivity.
      * intros ->. apply (Hkind (length pre) (k, c)).
        rewrite nth_error_app2 by lia. rewrite Nat.sub_diag. reflexivity.
    + unfold replace_at. cbn [List.removelast List.last].
      assert (Hsrc : get_src_module (NNModule kind (pre ++ (k, c) :: post)) k = Returns c).
      { unfold get_src_module. cbn [kind_of children_of].
        destruct kind; try (rewrite Hchild; reflexivity).
        assert (Hpy : py_int k = Some (Z.of_nat (length pre))).
        { apply (Hkind (length pre) (k, c)).
          rewrite nth_error_app2 by lia. rewrite Nat.sub_diag. reflexivity. }
        unfold to_int. rewrite Hpy.
        cbn [fst and_then]. unfold seq_position. rewrite length_app. cbn [length].
        destruct (Z.leb_spec (- Z.of_nat (length pre + S (length post)))
                             (Z.of_nat (length pre))); [| lia].
        destruct (Z.ltb_spec (Z.of_nat (length pre))
                             (Z.of_nat (length pre + S (length post)))); [| lia].
        cbn [andb and_then]. rewrite Z.mod_small by lia. rewrite Nat2Z.id.
        rewrite nth_error_app2 by lia. rewrite Nat.sub_diag. reflexivity. }
      rewrite Hsrc, Hf. reflexivity.
  - rewrite (replace_at_under func (NNModule kind (pre ++ (k, c) :: post)) k c
               (q0 :: q') Hchild) by discriminate.
    rewrite List.Forall_forall in IH.
    assert (Hc : In (k, c) (pre ++ (k, c) :: post))
      by (apply in_or_app; right; left; reflexivity).
    pose proof (IH (k, c) Hc (q0 :: q') (Hsub k c Hc) Hq ltac:(discriminate)) as IHc.
    cbn [snd] in IHc. rewrite IHc.
    destruct (func x') as [t | e]; cbn [fst snd].
    + cbn [put_submodule children_of kind_of]. rewrite Hchild. reflexivity.
    + rewrite with_child_same by exact Hchild. reflexivity.
Qed.

(** On torch 1.9.0 or later, for a tree that keeps the dictionary
    invariants, whose root is no BatchNorm2d and whose BatchNorm2d sizes
    all give a GroupNorm that can be constructed, [replace_bn_with_gn]
    returns the root, mutated in place, with every [BatchNorm2d(n)]
    replaced by [GroupNorm(n // features_per_group, n)]: no BatchNorm2d is
    left, and the modules keep their names, their order and, but for the
    replaced ones, their classes. *)
Theorem replace_bn_with_gn_replaces_every_batchnorm (root : nn_module) (fpg : Z) :
  torch_before_1_9_0 = false ->
  tree_ok root ->
  is_BatchNorm2d root = false ->
  fpg <> 0 ->
  Forall (fun n => GroupNorm_init (n / fpg) n = None) (batchnorm_sizes root) ->
  exists root' : nn_module,
    replace_bn_with_gn root fpg = (Returns root', root') /\
    root' = bn_to_gn fpg root /\
    batchnorm_sizes root' = [] /\
    layout root' = map (fun pk => (fst pk, gn_kind fpg (snd pk))) (layout root).
Proof.
  intros Hver Hok Hbn Hfpg Hinit. exists (bn_to_gn fpg root).
  split; [| split; [reflexivity | split]].
  - unfold replace_bn_with_gn, replace_submodules. rewrite Hbn, Hver.
    unfold matching_names.
    rewrite (split_name_nonempty _ (matching_paths_nonempty _ root Hbn)).
    rewrite (replace_each_bn_to_gn fpg root Hfpg Hok); [| | exact Hbn].
    + rewrite bn_to_gn_none_left. reflexivity.
    + apply List.Forall_forall. exact Hinit.
  - apply batchnorm_sizes_matching, bn_to_gn_none_left.
  - unfold layout. rewrite (layout_bn_to_gn fpg root [] Hok), List.map_map.
    reflexivity.
Qed.

(** A root that is itself a BatchNorm2d is not replaced:
    [replace_submodules] returns the new GroupNorm, on any torch version,
    but [replace_bn_with_gn] drops that result and returns the module it
    was given. *)
Theorem replace_bn_with_gn_keeps_a_batchnorm_root
    (n fpg : Z) (children : list (string * nn_module)) :
  fpg <> 0 ->
  GroupNorm_init (n / fpg) n = None ->
  let root := NNModule (BatchNorm2d n) children in
  replace_submodules root is_BatchNorm2d (to_GroupNorm fpg)
  = (Returns (NNModule (GroupNorm (n / fpg) n) []), root) /\
  replace_bn_with_gn root fpg = (Returns root, root).
Proof.
  intros Hfpg Hinit root.
  assert (Hsub : replace_submodules root is_BatchNorm2d (to_GroupNorm fpg)
                 = (Returns (NNModule (GroupNorm (n / fpg) n) []), root)).
  { subst root. unfold replace_submodules, is_BatchNorm2d.
    unfold to_GroupNorm, num_features_of. cbn [kind_of and_then].
    destruct (Z.eqb_spec fpg 0); [contradiction |]. rewrite Hinit. reflexivity. }
  split; [exact Hsub |]. unfold replace_bn_with_gn. rewrite Hsub. reflexivity.
Qed.

(** A tree without any BatchNorm2d comes back as it is on torch 1.9.0 or
    later, and raises ImportError on an older torch although there is
    nothing to replace: the version check comes before the search. *)
Theorem replace_bn_with_gn_without_batchnorm (root : nn_module) (fpg : Z) :
  batchnorm_sizes root = [] ->
  replace_bn_with_gn root fpg
  = if torch_before_1_9_0
    then (Raises (ImportError "This function requires pytorch >= 1.9.0"), root)
    else (Returns root, root).
Proof.
  intros Hnone. apply batchnorm_sizes_matching in Hnone.
  assert (Hbn : is_BatchNorm2d root = false).
  { destruct root as [kind children]. rewrite matching_paths_node in Hnone.
    destruct (is_BatchNorm2d (NNModule kind children)); [discriminate | reflexivity]. }
  unfold replace_bn_with_gn, replace_submodules. rewrite Hbn.
  destruct torch_before_1_9_0; [reflexivity |].
  unfold matching_names. rewrite Hnone. cbn [map replace_each].
  rewrite Hnone. reflexivity.
Qed.

(** [features_per_group = 0]: on a tree that keeps the invariants and has
    a BatchNorm2d below the root, the first replacement raises
    ZeroDivisionError and the tree is as it was. *)
Theorem replace_bn_with_gn_zero_features_per_group (root : nn_module) :
  torch_before_1_9_0 = false ->
  tree_ok root ->
  is_BatchNorm2d root = false ->
  batchnorm_sizes root <> [] ->
  replace_bn_with_gn root 0 = (Raises ZeroDivisionError, root).
Proof.
  intros Hver Hok Hbn Hsome.
  unfold replace_bn_with_gn, replace_submodules. rewrite Hbn, Hver.
  unfold matching_names.
  rewrite (split_name_nonempty _ (matching_paths_nonempty _ root Hbn)).
  assert (Hfirst : exists p x rest,
             matching_paths is_BatchNorm2d root = p :: rest /\
             In (p, x) (named_modules [] root) /\ is_BatchNorm2d x = true).
  { rewrite batchnorm_sizes_matching in Hsome. unfold matching_paths in *.
    destruct (List.filter _ (named_modules [] root)) as [| [p x] l] eqn:Hfilter;
      [contradiction |].
    exists p, x, (map fst l). split; [reflexivity |].
    assert (Hin : In (p, x) (List.filter (fun km => is_BatchNorm2d (snd km))
                                         (named_modules [] root)))
      by (rewrite Hfilter; left; reflexivity).
    apply List.filter_In in Hin. exact Hin. }
  destruct Hfirst as (p & x & rest & Hpaths & Hin & Hx).
  rewrite Hpaths. cbn [replace_each].
  assert (Hp : p <> []).
  { pose proof (matching_paths_nonempty _ root Hbn) as Hall.
    rewrite Hpaths in Hall. apply (List.Forall_inv Hall). }
  rewrite (replace_at_named _ root p x Hok Hin Hp).
  destruct x as [[n | | |] children_x]; try discriminate. reflexivity.
Qed.

(** A Sequential indexes its children by [int(k)]: when the first
    BatchNorm2d of the tree is a child of a Sequential root under a name
    that is no integer (a Sequential built from a dictionary of named
    layers), [replace_bn_with_gn] raises the ValueError of [int] and
    replaces nothing. *)
Theorem replace_bn_with_gn_named_sequential
    (root : nn_module) (fpg : Z) (k : string) (rest : list (list string)) :
  torch_before_1_9_0 = false ->
  kind_of root = Sequential ->
  matching_paths is_BatchNorm2d root = [k] :: rest ->
  py_int k = None ->
  replace_bn_with_gn root fpg
  = (Raises (Builtin (ValueError "invalid literal for int()")), root).
Proof.
  intros Hver Hkind Hpaths Hint.
  unfold replace_bn_with_gn, replace_submodules.
  unfold is_BatchNorm2d at 1. rewrite Hkind, Hver.
  unfold matching_names. rewrite Hpaths. cbn [map split_name replace_each].
  unfold replace_at. cbn [List.removelast List.last].
  unfold get_src_module, to_int. rewrite Hkind, Hint. reflexivity.
Qed.

End ModuleTreeProperties.

(** * The further properties on concrete inputs *)

Lemma reset_failure_witness :
  reset negative_horizon_policy
  = (Raise (ValueError "maxlen must be non-negative"), negative_horizon_policy) /\
  obs_queue (snd (reset negative_horizon_policy)) = None.
Proof.
  assert (H : reset negative_horizon_policy
              = (Raise (ValueError "maxlen must be non-negative"),
                 negative_horizon_policy)).
  { apply reset_failure_is_atomic. right. cbn. lia. }
  split; [exact H | rewrite H; reflexivity].
Defined.

Lemma reset_discards_witness :
  action_queue midway_policy = Some (Deque 4 [[Fin (7 # 1)]]) /\
  action_queue (snd (reset midway_policy)) = Some (Deque 4 []) /\
  sampler_calls (snd (get_action demo_obs None (snd (reset midway_policy)))) = 1%nat.
Proof.
  destruct (reset_discards_pending_actions midway_policy demo_obs None
              ltac:(cbn; lia) ltac:(cbn; lia)) as (_ & Hq & _ & Hcalls).
  split; [reflexivity |]. split; [exact Hq | exact Hcalls].
Defined.

Lemma get_action_needs_reset_witness :
  fst (_create_networks demo_policy) = Ok tt /\
  fst (get_action demo_obs None (snd (_create_networks demo_policy))) = Raise TypeError.
Proof.
  split; [reflexivity |].
  rewrite (get_action_needs_reset demo_policy demo_obs None eq_refl). reflexivity.
Defined.

Lemma rollout_in_training_mode_witness :
  call_outcomes [demo_obs; demo_obs] training_rollout_policy
  = [Raise (AssertionError NetsTraining); Raise (AssertionError NetsTraining)] /\
  sampler_calls (after_calls [demo_obs; demo_obs] training_rollout_policy) = 2%nat.
Proof.
  destruct (rollout_in_training_mode_never_acts [demo_obs; demo_obs]
              training_rollout_policy 4 eq_refl eq_refl) as (_ & _ & Hcalls).
  split; [vm_compute; reflexivity | exact Hcalls].
Defined.

Lemma demo_obs_subseteq : demo_obs ⊆ demo_obs_with_image.
Proof. apply insert_subseteq. reflexivity. Qed.

Lemma sampler_checks_declared_witness :
  obs_ranks_ok (obs_shapes demo_policy) demo_obs_with_image = true /\
  exists k shape,
    In (k, shape) (obs_shapes demo_policy) /\
    (fst (_get_action_trajectory flat_obs None demo_policy) = Raise (KeyError k) \/
     fst (_get_action_trajectory flat_obs None demo_policy)
     = Raise (AssertionError (ObsNdim k))) /\
    snd (_get_action_trajectory flat_obs None demo_policy) = entered flat_obs demo_policy.
Proof.
  split.
  - apply (sampler_checks_only_declared_modalities demo_policy demo_obs
             demo_obs_with_image None demo_obs_subseteq eq_refl ltac:(discriminate)).
    reflexivity.
  - apply (sampler_checks_only_declared_modalities demo_policy flat_obs flat_obs None
             ltac:(reflexivity) eq_refl ltac:(discriminate)).
    reflexivity.
Defined.

Lemma sampler_configures_witness :
  exists (action : tensor3) (s' : policy),
    _get_action_trajectory demo_obs None demo_policy = (Ok action, s') /\
    noise_scheduler s' = [2; 1; 0] /\
    length (List.filter (fun e => match e with EvPredict _ _ => true | _ => false end)
                        (trace s')) = 3%nat.
Proof.
  assert (Hrun : exists a s', _get_action_trajectory demo_obs None demo_policy = (Ok a, s'))
    by (eexists; eexists; vm_compute; reflexivity).
  destruct Hrun as (action & s' & Hrun).
  exists action, s'. split; [exact Hrun |].
  destruct (sampler_configures_inference_steps demo_policy s' demo_obs None action Hrun)
    as (Hsch & Hcount).
  split; [rewrite Hsch; reflexivity |].
  change (skipn (length (trace demo_policy)) (trace s')) with (trace s') in Hcount.
  rewrite Hcount, Hsch. reflexivity.
Defined.

Lemma demo_train_ready : train_ready demo_learning_policy good_batch false.
Proof. repeat split. Qed.

Lemma learning_step_witness :
  exists (i : info) (s' : policy),
    train_on_batch good_batch 0 false demo_learning_policy = (Ok i, s') /\
    policy_grad_norms i = Some (Fin 0) /\
    ema s' = Some (EMAModel (Module_ ∅ false) (2 # 3) 1).
Proof.
  destruct (learning_step_updates_nets_then_ema good_batch 0 demo_learning_policy
              (Optimizer ∅) demo_train_ready eq_refl)
    as (l & nets1 & opt1 & grad_norm & s' & Hrun & Hbp & _ & _ & Hema & _).
  exists (Info l (Some grad_norm)), s'. split; [exact Hrun |].
  injection Hbp as <- _ <-.
  split; [reflexivity | rewrite Hema; reflexivity].
Defined.

Lemma demo_train_ready_no_optimizer : train_ready demo_training_policy good_batch false.
Proof. repeat split. Qed.

Lemma learning_step_needs_optimizer_witness :
  fst (train_on_batch good_batch 0 false demo_training_policy)
  = Raise (KeyError "policy") /\
  nets (snd (train_on_batch good_batch 0 false demo_training_policy))
  = nets demo_training_policy.
Proof.
  destruct (learning_step_needs_policy_optimizer good_batch 0 demo_training_policy
              demo_train_ready_no_optimizer eq_refl) as (Hexn & Hkeep).
  split; [exact Hexn |].
  apply (f_equal (fun x => fst (fst (fst (fst x))))) in Hkeep. exact Hkeep.
Defined.

Lemma log_info_witness :
  exists (i : info) (s' : policy),
    train_on_batch good_batch 0 true demo_policy = (Ok i, s') /\
    log_info (fun _ => Fin (1 # 4)) (fun _ => ∅) i
    = {[ "Loss"%string := Fin (1 # 4) ]}.
Proof.
  assert (Hrun : exists i s', train_on_batch good_batch 0 true demo_policy = (Ok i, s'))
    by (eexists; eexists; vm_compute; reflexivity).
  destruct Hrun as (i & s' & Hrun).
  exists i, s'. split; [exact Hrun |].
  destruct (log_info_after_training_step (fun _ => Fin (1 # 4)) (fun _ => ∅)
              good_batch 0 true demo_policy s' i Hrun) as (_ & Hlog & _).
  exact Hlog.
Defined.


Lemma empty_window_witness :
  exists (ib : batch),
    process_batch_for_training empty_batch demo_training_policy
    = (Ok ib, set_action_check_done true demo_training_policy).
Proof.
  assert (Hobs : exists obs,
             slice_obs (observation_horizon (algo_config demo_training_policy))
                       (b_obs empty_batch) = Ok obs)
    by (eexists; vm_compute; reflexivity).
  destruct Hobs as [obs Hobs].
  exists (windowed demo_training_policy empty_batch obs).
  apply (empty_window_passes_and_ends_the_check demo_training_policy empty_batch obs
           eq_refl Hobs).
  left. reflexivity.
Defined.

Lemma non_finite_action_witness :
  process_batch_for_training nan_batch demo_training_policy
  = (Raise (ValueError actions_range_msg), demo_training_policy).
Proof.
  assert (Hobs : exists obs,
             slice_obs (observation_horizon (algo_config demo_training_policy))
                       (b_obs nan_batch) = Ok obs)
    by (eexists; vm_compute; reflexivity).
  destruct Hobs as [obs Hobs].
  apply (non_finite_action_is_rejected demo_training_policy nan_batch obs
           [[Fin (1 # 2)]; [NaN]] [NaN] NaN eq_refl Hobs).
  - vm_compute. left. reflexivity.
  - right. left. reflexivity.
  - left. reflexivity.
  - left. reflexivity.
Defined.

Lemma short_horizon_sampler_ready : sampler_ready short_horizon_policy demo_obs = true.
Proof. vm_compute. reflexivity. Qed.

Lemma no_action_sampler_ready : sampler_ready no_action_policy demo_obs = true.
Proof. vm_compute. reflexivity. Qed.

Lemma sampler_trajectory_length_witness :
  exists (action : tensor3) (s' : policy),
    _get_action_trajectory demo_obs None short_horizon_policy = (Ok action, s') /\
    time_length 2 action.
Proof.
  assert (Hrun : exists a s',
             _get_action_trajectory demo_obs None short_horizon_policy = (Ok a, s'))
    by (eexists; eexists; vm_compute; reflexivity).
  destruct Hrun as (action & s' & Hrun).
  exists action, s'. split; [exact Hrun |].
  destruct (sampler_trajectory_length demo_scheduler_step_shape
              short_horizon_policy s' demo_obs None action Hrun
              ltac:(cbn; lia) ltac:(cbn; lia)) as (Htime & _).
  exact Htime.
Defined.

Lemma get_action_without_actions_witness :
  fst (get_action demo_obs None no_action_policy) = Raise IndexError /\
  sampler_calls (snd (get_action demo_obs None no_action_policy)) = 1%nat.
Proof.
  destruct (get_action_without_actions_raises_IndexError demo_scheduler_step_shape
              no_action_policy demo_obs None 0
              ltac:(cbn; lia) ltac:(cbn; lia) ltac:(cbn; lia)
              eq_refl no_action_sampler_ready eq_refl) as (Hexn & _ & Hcalls).
  split; [exact Hexn | exact Hcalls].
Defined.

Lemma short_prediction_horizon_witness :
  fst (get_actions [demo_obs; demo_obs] short_horizon_policy)
  = Ok [[[Fin (1 # 1)]]; [[Fin (2 # 1)]]] /\
  sampler_calls (snd (get_actions [demo_obs; demo_obs] short_horizon_policy)) = 1%nat /\
  sampler_calls
    (snd (get_action demo_obs None
            (snd (get_actions [demo_obs; demo_obs] short_horizon_policy)))) = 2%nat.
Proof.
  destruct (short_prediction_horizon_refills_early demo_scheduler_step_shape
              short_horizon_policy demo_obs [demo_obs] demo_obs
              ltac:(cbn; lia) ltac:(cbn; lia) ltac:(cbn; lia)
              short_horizon_sampler_ready eq_refl eq_refl)
    as (first & rest & s1 & _ & _ & H1 & H2).
  split; [vm_compute; reflexivity |]. split; [exact H1 | exact H2].
Defined.

Lemma deserialize_half_done_witness :
  deserialize (serialize saved_policy) false demo_policy
  = (Raise AttributeError,
     set_nets (Module_ {[ "w"%string := [Fin (1 # 2)] ]} false) demo_policy).
Proof.
  apply (deserialize_without_ema_model_is_half_done demo_policy (serialize saved_policy)
           {[ "w"%string := [Fin (1 # 2)] ]} {[ "w"%string := [Fin (1 # 1)] ]} false);
    reflexivity.
Defined.

Lemma singleton_same_keys {A B} (k0 : string) (a : A) (b : B) (k : string) :
  ({[ k0 := a ]} : gmap string A) !! k = None
  <-> ({[ k0 := b ]} : gmap string B) !! k = None.
Proof. rewrite !lookup_singleton_None. reflexivity. Qed.

Lemma saved_fresh_same_make : same_make saved_policy fresh_policy.
Proof.
  unfold same_make. split; [split; discriminate |].
  split; [intros k; apply singleton_same_keys |].
  split; [intros k; apply singleton_same_keys |].
  intros k. cbn.
  destruct (decide (k = "policy"%string)) as [-> | Hne].
  - rewrite !lookup_singleton_eq. split; discriminate.
  - rewrite !lookup_singleton_ne by congruence. split; discriminate.
Qed.

Lemma checkpoint_round_trip_witness :
  exists s' : policy,
    deserialize (serialize saved_policy) true fresh_policy = (Ok tt, s') /\
    serialize s' = serialize saved_policy /\
    training (nets s') = false.
Proof.
  destruct (checkpoint_round_trip saved_policy fresh_policy saved_fresh_same_make)
    as (s' & Hrun & Hsame & Htr & _).
  exists s'. split; [exact Hrun |]. split; [exact Hsame | exact Htr].
Defined.

Lemma demo_encoder_ok : tree_ok (TE := demo_torch) demo_encoder.
Proof.
  unfold tree_ok. apply List.Forall_forall. intros [p m] Hin.
  cbn in Hin.
  repeat (destruct Hin as [[= <- <-] | Hin];
          [ unfold node_ok; cbn [snd children_of kind_of map fst]; split;
            [ repeat constructor; cbn [In]; intuition discriminate
            | first [ exact I | reflexivity | idtac ] ]
          | ]); try contradiction.
  intros i kc Hi.
  repeat (destruct i as [| i]; [injection Hi as <-; reflexivity |]).
  cbn in Hi. destruct i; discriminate.
Qed.

Lemma replace_every_batchnorm_witness :
  exists root' : nn_module,
    replace_bn_with_gn (TE := demo_torch) demo_encoder 16 = (Returns root', root') /\
    layout root'
    = [([], OtherModule "VisualCore");
       (["nets"%string], Sequential);
       (["nets"%string; "0"%string], OtherModule "Conv2d");
       (["nets"%string; "1"%string], GroupNorm 4 64);
       (["nets"%string; "2"%string], OtherModule "BasicBlock");
       (["nets"%string; "2"%string; "conv1"%string], OtherModule "Conv2d");
       (["nets"%string; "2"%string; "bn1"%string], GroupNorm 8 128)].
Proof.
  destruct (replace_bn_with_gn_replaces_every_batchnorm (TE := demo_torch)
              demo_encoder 16 eq_refl demo_encoder_ok eq_refl ltac:(discriminate)
              ltac:(repeat constructor))
    as (root' & Hrun & _ & _ & Hlayout).
  exists root'. split; [exact Hrun |]. rewrite Hlayout. reflexivity.
Defined.

Lemma batchnorm_root_witness :
  replace_bn_with_gn (TE := demo_torch) (NNModule (BatchNorm2d 64) []) 16
  = (Returns (NNModule (BatchNorm2d 64) []), NNModule (BatchNorm2d 64) []).
Proof.
  exact (proj2 (replace_bn_with_gn_keeps_a_batchnorm_root (TE := demo_torch)
                  64 16 [] ltac:(discriminate) eq_refl)).
Defined.

Lemma without_batchnorm_witness :
  replace_bn_with_gn (TE := old_torch) conv2d 16
  = (Raises (ImportError "This function requires pytorch >= 1.9.0"), conv2d) /\
  replace_bn_with_gn (TE := demo_torch) conv2d 16 = (Returns conv2d, conv2d).
Proof.
  split.
  - exact (replace_bn_with_gn_without_batchnorm (TE := old_torch) conv2d 16 eq_refl).
  - exact (replace_bn_with_gn_without_batchnorm (TE := demo_torch) conv2d 16 eq_refl).
Defined.

Lemma zero_features_per_group_witness :
  replace_bn_with_gn (TE := demo_torch) demo_encoder 0
  = (Raises ZeroDivisionError, demo_encoder).
Proof.
  apply (replace_bn_with_gn_zero_features_per_group (TE := demo_torch) demo_encoder
           eq_refl demo_encoder_ok eq_refl).
  discriminate.
Defined.

Lemma named_sequential_witness :
  replace_bn_with_gn (TE := demo_torch) named_sequential 16
  = (Raises (Builtin (ValueError "invalid literal for int()")), named_sequential).
Proof.
  exact (replace_bn_with_gn_named_sequential (TE := demo_torch) named_sequential 16
           "bn" [] eq_refl eq_refl eq_refl eq_refl).
Defined.


Lemma sampler_window_witness :
  exists (action : tensor3) (s' : policy),
    _get_action_trajectory demo_obs None demo_policy = (Ok action, s') /\
    length action = 1%nat /\
    time_length 4 action.
Proof.
  assert (Hrun : exists a s', _get_action_trajectory demo_obs None demo_policy = (Ok a, s'))
    by (eexists; eexists; vm_compute; reflexivity).
  destruct Hrun as (action & s' & Hrun).
  exists action, s'. split; [exact Hrun |].
  destruct (sampler_returns_action_window demo_scheduler_step_shape
              demo_policy s' demo_obs None action Hrun)
    as (n & _ & HB & _ & _ & Hlen & Hwin).
  split.
  - rewrite Hlen. apply Nat2Z.inj. rewrite HB. reflexivity.
  - apply Hwin; cbn; lia.
Defined.

